(** * EnviroSense: the sensor task manager (sensor_task.c / sensor_task.h)

    A shallow embedding of the registry, the polling scheduler, the
    analytics engine (circular history and statistics) and the fault
    handler of [sensor_task.c], followed by the properties of the
    specification that concern them.

    Conventions of the embedding.
    - C integers are [Z]; the wrap-around of [uint32_t] arithmetic is written
      out with [wrap32].  Enumeration values used as array indices
      ([SensorType_t]) are [nat].
    - [float] is IEEE-754 binary32, modelled by [spec_float] with precision 24
      and maximal exponent 128 (round to nearest even).
    - The module-level statics ([g_sensor_manager], [g_event_callback], the
      snapshot buffers of the history getters) form the record [State];
      every function of the source becomes a function on [State].
    - Function pointers are opaque addresses ([option fnptr], [None] for
      NULL).  What a callback does is not part of sensor_task.c: the result
      of each adapter call is an input of the model, and each call is
      recorded in a trace together with the instance it was handed.
    - [osMutexWait (...) == osOK] is an input ([lock]) of every function that
      takes the data mutex. *)

From Stdlib Require Import ZArith Lia Bool Ascii SpecFloat DecimalString.
From stdpp Require Import base list strings.

Local Open Scope Z_scope.

(** ** Machine arithmetic *)

Definition wrap32 (z : Z) : Z := z mod 2 ^ 32.

(** C remainder [a % b] on [int] (truncating). *)
Definition c_rem (a b : Z) : Z := Z.rem a b.

(** ** binary32 *)

Definition float := spec_float.

Definition f32_zero : float := S754_zero false.
Definition f32_add : float -> float -> float := SFadd 24 128.
Definition f32_div : float -> float -> float := SFdiv 24 128.
(** [a < b] and [a > b] on floats; both are false when an operand is NaN. *)
Definition f32_lt (a b : float) : bool := SFltb a b.
Definition f32_gt (a b : float) : bool := SFltb b a.
(** The conversions [(float) n] of an [int] or [uint16_t]. *)
Definition f32_of_int (n : Z) : float := binary_normalize 24 128 n 0 false.

(** ** Configuration (sensor_task.h) *)

Definition SENSOR_MAX_NAME_LEN : nat := 32.
Definition SENSOR_HISTORY_SIZE : Z := 20.

(** [SensorType_t]: the enumeration value itself. *)
Definition SensorType_t := nat.
Definition SENSOR_TYPE_NONE : SensorType_t := 0%nat.
Definition SENSOR_TYPE_GY30 : SensorType_t := 1%nat.
Definition SENSOR_TYPE_SHT30 : SensorType_t := 2%nat.
Definition SENSOR_TYPE_SMOKE : SensorType_t := 3%nat.
Definition SENSOR_TYPE_MAX : SensorType_t := 4%nat.

Inductive SensorStatus_t :=
| SENSOR_STATUS_OFFLINE
| SENSOR_STATUS_ONLINE
| SENSOR_STATUS_ERROR
| SENSOR_STATUS_INITIALIZING.

Definition SensorStatus_eqb (a b : SensorStatus_t) : bool :=
  match a, b with
  | SENSOR_STATUS_OFFLINE, SENSOR_STATUS_OFFLINE
  | SENSOR_STATUS_ONLINE, SENSOR_STATUS_ONLINE
  | SENSOR_STATUS_ERROR, SENSOR_STATUS_ERROR
  | SENSOR_STATUS_INITIALIZING, SENSOR_STATUS_INITIALIZING => true
  | _, _ => false
  end.

(** The members of the [values] union.  Each kind only ever reads and writes
    its own member, so the members are kept side by side (their overlay in
    memory is not modelled). *)
Record SensorValues_t := {
  gy30_lux : float;
  sht30_temp : float;
  sht30_humi : float;
  smoke_ppm : Z
}.

Record SensorData_t := {
  values : SensorValues_t;
  timestamp : Z;
  is_valid : bool
}.

Record SensorStats_t := {
  min : float;
  max : float;
  avg : float;
  local_min : float;
  local_max : float;
  local_avg : float
}.

Record SensorInstance_t := {
  type : SensorType_t;
  name : list ascii;
  status : SensorStatus_t;
  data : SensorData_t;
  update_interval_ms : Z;
  last_update_time : Z;
  error_count : Z;
  is_enabled : bool;
  device_handle : Z;
  stats : SensorStats_t;
  secondary_stats : SensorStats_t;
  history : list float;
  secondary_history : list float;
  history_head : Z;
  history_count : Z
}.

(** A function pointer: an opaque code address. *)
Definition fnptr := nat.

Record SensorCallbacks_t := {
  init_func : option fnptr;
  read_func : option fnptr;
  deinit_func : option fnptr;
  get_unit : option fnptr
}.

Record SensorManager_t := {
  sensors : list SensorInstance_t;
  callbacks : list SensorCallbacks_t;
  is_initialized : bool;
  active_sensor_count : Z;
  global_data_mutex : bool
}.

Inductive SensorEventType_t :=
| SENSOR_EVENT_DATA_UPDATE
| SENSOR_EVENT_STATUS_CHANGE
| SENSOR_EVENT_ERROR.

Record SensorEvent_t := {
  event_type : SensorEventType_t;
  sensor_type : SensorType_t;
  event_data : SensorData_t;
  event_status : SensorStatus_t
}.

(** One call of an adapter callback: which slot of the callback table, the
    function called and the instance as it was when the call was made. *)
Inductive AdapterSlot := SlotInit | SlotRead | SlotDeinit.

Record AdapterCall := {
  call_slot : AdapterSlot;
  call_fn : fnptr;
  call_arg : SensorInstance_t
}.

(** The statics of sensor_task.c, and the two traces of what left the module:
    the events handed to [g_event_callback] and the adapter calls, oldest
    first. *)
Record State := {
  g_sensor_manager : SensorManager_t;
  g_event_callback : option fnptr;
  ordered_primary_history : list float;
  ordered_secondary_history : list float;
  events : list SensorEvent_t;
  adapter_calls : list AdapterCall
}.

(** ** Field updates *)

Definition set_stats_min (v : float) (s : SensorStats_t) : SensorStats_t :=
  {| min := v; max := max s; avg := avg s;
     local_min := local_min s; local_max := local_max s; local_avg := local_avg s |}.
Definition set_stats_max (v : float) (s : SensorStats_t) : SensorStats_t :=
  {| min := min s; max := v; avg := avg s;
     local_min := local_min s; local_max := local_max s; local_avg := local_avg s |}.
Definition set_stats_avg (v : float) (s : SensorStats_t) : SensorStats_t :=
  {| min := min s; max := max s; avg := v;
     local_min := local_min s; local_max := local_max s; local_avg := local_avg s |}.
Definition set_local_min (v : float) (s : SensorStats_t) : SensorStats_t :=
  {| min := min s; max := max s; avg := avg s;
     local_min := v; local_max := local_max s; local_avg := local_avg s |}.
Definition set_local_max (v : float) (s : SensorStats_t) : SensorStats_t :=
  {| min := min s; max := max s; avg := avg s;
     local_min := local_min s; local_max := v; local_avg := local_avg s |}.
Definition set_local_avg (v : float) (s : SensorStats_t) : SensorStats_t :=
  {| min := min s; max := max s; avg := avg s;
     local_min := local_min s; local_max := local_max s; local_avg := v |}.

Definition set_type (v : SensorType_t) (s : SensorInstance_t) : SensorInstance_t :=
  {| type := v; name := name s; status := status s; data := data s;
     update_interval_ms := update_interval_ms s; last_update_time := last_update_time s;
     error_count := error_count s; is_enabled := is_enabled s;
     device_handle := device_handle s; stats := stats s;
     secondary_stats := secondary_stats s; history := history s;
     secondary_history := secondary_history s; history_head := history_head s;
     history_count := history_count s |}.
Definition set_name (v : list ascii) (s : SensorInstance_t) : SensorInstance_t :=
  {| type := type s; name := v; status := status s; data := data s;
     update_interval_ms := update_interval_ms s; last_update_time := last_update_time s;
     error_count := error_count s; is_enabled := is_enabled s;
     device_handle := device_handle s; stats := stats s;
     secondary_stats := secondary_stats s; history := history s;
     secondary_history := secondary_history s; history_head := history_head s;
     history_count := history_count s |}.
Definition set_status (v : SensorStatus_t) (s : SensorInstance_t) : SensorInstance_t :=
  {| type := type s; name := name s; status := v; data := data s;
     update_interval_ms := update_interval_ms s; last_update_time := last_update_time s;
     error_count := error_count s; is_enabled := is_enabled s;
     device_handle := device_handle s; stats := stats s;
     secondary_stats := secondary_stats s; history := history s;
     secondary_history := secondary_history s; history_head := history_head s;
     history_count := history_count s |}.
Definition set_data (v : SensorData_t) (s : SensorInstance_t) : SensorInstance_t :=
  {| type := type s; name := name s; status := status s; data := v;
     update_interval_ms := update_interval_ms s; last_update_time := last_update_time s;
     error_count := error_count s; is_enabled := is_enabled s;
     device_handle := device_handle s; stats := stats s;
     secondary_stats := secondary_stats s; history := history s;
     secondary_history := secondary_history s; history_head := history_head s;
     history_count := history_count s |}.
Definition set_update_interval_ms (v : Z) (s : SensorInstance_t) : SensorInstance_t :=
  {| type := type s; name := name s; status := status s; data := data s;
     update_interval_ms := v; last_update_time := last_update_time s;
     error_count := error_count s; is_enabled := is_enabled s;
     device_handle := device_handle s; stats := stats s;
     secondary_stats := secondary_stats s; history := history s;
     secondary_history := secondary_history s; history_head := history_head s;
     history_count := history_count s |}.
Definition set_last_update_time (v : Z) (s : SensorInstance_t) : SensorInstance_t :=
  {| type := type s; name := name s; status := status s; data := data s;
     update_interval_ms := update_interval_ms s; last_update_time := v;
     error_count := error_count s; is_enabled := is_enabled s;
     device_handle := device_handle s; stats := stats s;
     secondary_stats := secondary_stats s; history := history s;
     secondary_history := secondary_history s; history_head := history_head s;
     history_count := history_count s |}.
Definition set_error_count (v : Z) (s : SensorInstance_t) : SensorInstance_t :=
  {| type := type s; name := name s; status := status s; data := data s;
     update_interval_ms := update_interval_ms s; last_update_time := last_update_time s;
     error_count := v; is_enabled := is_enabled s;
     device_handle := device_handle s; stats := stats s;
     secondary_stats := secondary_stats s; history := history s;
     secondary_history := secondary_history s; history_head := history_head s;
     history_count := history_count s |}.
Definition set_is_enabled (v : bool) (s : SensorInstance_t) : SensorInstance_t :=
  {| type := type s; name := name s; status := status s; data := data s;
     update_interval_ms := update_interval_ms s; last_update_time := last_update_time s;
     error_count := error_count s; is_enabled := v;
     device_handle := device_handle s; stats := stats s;
     secondary_stats := secondary_stats s; history := history s;
     secondary_history := secondary_history s; history_head := history_head s;
     history_count := history_count s |}.
Definition set_device_handle (v : Z) (s : SensorInstance_t) : SensorInstance_t :=
  {| type := type s; name := name s; status := status s; data := data s;
     update_interval_ms := update_interval_ms s; last_update_time := last_update_time s;
     error_count := error_count s; is_enabled := is_enabled s;
     device_handle := v; stats := stats s;
     secondary_stats := secondary_stats s; history := history s;
     secondary_history := secondary_history s; history_head := history_head s;
     history_count := history_count s |}.
Definition set_stats (v : SensorStats_t) (s : SensorInstance_t) : SensorInstance_t :=
  {| type := type s; name := name s; status := status s; data := data s;
     update_interval_ms := update_interval_ms s; last_update_time := last_update_time s;
     error_count := error_count s; is_enabled := is_enabled s;
     device_handle := device_handle s; stats := v;
     secondary_stats := secondary_stats s; history := history s;
     secondary_history := secondary_history s; history_head := history_head s;
     history_count := history_count s |}.
Definition set_secondary_stats (v : SensorStats_t) (s : SensorInstance_t) : SensorInstance_t :=
  {| type := type s; name := name s; status := status s; data := data s;
     update_interval_ms := update_interval_ms s; last_update_time := last_update_time s;
     error_count := error_count s; is_enabled := is_enabled s;
     device_handle := device_handle s; stats := stats s;
     secondary_stats := v; history := history s;
     secondary_history := secondary_history s; history_head := history_head s;
     history_count := history_count s |}.
Definition set_history (v : list float) (s : SensorInstance_t) : SensorInstance_t :=
  {| type := type s; name := name s; status := status s; data := data s;
     update_interval_ms := update_interval_ms s; last_update_time := last_update_time s;
     error_count := error_count s; is_enabled := is_enabled s;
     device_handle := device_handle s; stats := stats s;
     secondary_stats := secondary_stats s; history := v;
     secondary_history := secondary_history s; history_head := history_head s;
     history_count := history_count s |}.
Definition set_secondary_history (v : list float) (s : SensorInstance_t) : SensorInstance_t :=
  {| type := type s; name := name s; status := status s; data := data s;
     update_interval_ms := update_interval_ms s; last_update_time := last_update_time s;
     error_count := error_count s; is_enabled := is_enabled s;
     device_handle := device_handle s; stats := stats s;
     secondary_stats := secondary_stats s; history := history s;
     secondary_history := v; history_head := history_head s;
     history_count := history_count s |}.
Definition set_history_head (v : Z) (s : SensorInstance_t) : SensorInstance_t :=
  {| type := type s; name := name s; status := status s; data := data s;
     update_interval_ms := update_interval_ms s; last_update_time := last_update_time s;
     error_count := error_count s; is_enabled := is_enabled s;
     device_handle := device_handle s; stats := stats s;
     secondary_stats := secondary_stats s; history := history s;
     secondary_history := secondary_history s; history_head := v;
     history_count := history_count s |}.
Definition set_history_count (v : Z) (s : SensorInstance_t) : SensorInstance_t :=
  {| type := type s; name := name s; status := status s; data := data s;
     update_interval_ms := update_interval_ms s; last_update_time := last_update_time s;
     error_count := error_count s; is_enabled := is_enabled s;
     device_handle := device_handle s; stats := stats s;
     secondary_stats := secondary_stats s; history := history s;
     secondary_history := secondary_history s; history_head := history_head s;
     history_count := v |}.

Definition set_sensors (v : list SensorInstance_t) (m : SensorManager_t) : SensorManager_t :=
  {| sensors := v; callbacks := callbacks m; is_initialized := is_initialized m;
     active_sensor_count := active_sensor_count m;
     global_data_mutex := global_data_mutex m |}.
Definition set_callbacks (v : list SensorCallbacks_t) (m : SensorManager_t) : SensorManager_t :=
  {| sensors := sensors m; callbacks := v; is_initialized := is_initialized m;
     active_sensor_count := active_sensor_count m;
     global_data_mutex := global_data_mutex m |}.
Definition set_is_initialized (v : bool) (m : SensorManager_t) : SensorManager_t :=
  {| sensors := sensors m; callbacks := callbacks m; is_initialized := v;
     active_sensor_count := active_sensor_count m;
     global_data_mutex := global_data_mutex m |}.
Definition set_active_sensor_count (v : Z) (m : SensorManager_t) : SensorManager_t :=
  {| sensors := sensors m; callbacks := callbacks m; is_initialized := is_initialized m;
     active_sensor_count := v;
     global_data_mutex := global_data_mutex m |}.
Definition set_global_data_mutex (v : bool) (m : SensorManager_t) : SensorManager_t :=
  {| sensors := sensors m; callbacks := callbacks m; is_initialized := is_initialized m;
     active_sensor_count := active_sensor_count m;
     global_data_mutex := v |}.

Definition set_manager (v : SensorManager_t) (st : State) : State :=
  {| g_sensor_manager := v; g_event_callback := g_event_callback st;
     ordered_primary_history := ordered_primary_history st;
     ordered_secondary_history := ordered_secondary_history st;
     events := events st; adapter_calls := adapter_calls st |}.
Definition set_event_callback (v : option fnptr) (st : State) : State :=
  {| g_sensor_manager := g_sensor_manager st; g_event_callback := v;
     ordered_primary_history := ordered_primary_history st;
     ordered_secondary_history := ordered_secondary_history st;
     events := events st; adapter_calls := adapter_calls st |}.
Definition set_ordered_primary_history (v : list float) (st : State) : State :=
  {| g_sensor_manager := g_sensor_manager st; g_event_callback := g_event_callback st;
     ordered_primary_history := v;
     ordered_secondary_history := ordered_secondary_history st;
     events := events st; adapter_calls := adapter_calls st |}.
Definition set_ordered_secondary_history (v : list float) (st : State) : State :=
  {| g_sensor_manager := g_sensor_manager st; g_event_callback := g_event_callback st;
     ordered_primary_history := ordered_primary_history st;
     ordered_secondary_history := v;
     events := events st; adapter_calls := adapter_calls st |}.
Definition set_events (v : list SensorEvent_t) (st : State) : State :=
  {| g_sensor_manager := g_sensor_manager st; g_event_callback := g_event_callback st;
     ordered_primary_history := ordered_primary_history st;
     ordered_secondary_history := ordered_secondary_history st;
     events := v; adapter_calls := adapter_calls st |}.
Definition set_adapter_calls (v : list AdapterCall) (st : State) : State :=
  {| g_sensor_manager := g_sensor_manager st; g_event_callback := g_event_callback st;
     ordered_primary_history := ordered_primary_history st;
     ordered_secondary_history := ordered_secondary_history st;
     events := events st; adapter_calls := v |}.

(** ** Arrays and C strings *)

(** [a[i]] and [a[i] = v] on a float array.  An index outside the array is
    undefined behaviour in C; here the read yields [0.0f] and the write is
    dropped.  [ring_ok] below keeps every index of the analytics in range. *)
Definition arr_get (a : list float) (i : Z) : float :=
  if i <? 0 then f32_zero else default f32_zero (a !! Z.to_nat i).
Definition arr_set (a : list float) (i : Z) (v : float) : list float :=
  if i <? 0 then a else <[Z.to_nat i := v]> a.

Definition NUL : ascii := Ascii.zero.

(** The characters of a buffer up to its first NUL. *)
Fixpoint c_str (buf : list ascii) : list ascii :=
  match buf with
  | [] => []
  | c :: rest => if Ascii.eqb c NUL then [] else c :: c_str rest
  end.

(** [strncpy (dst, src, n)]: the first [n] characters of the string [src],
    padded with NUL up to [n]; the rest of [dst] is left as it is. *)
Definition strncpy (dst src : list ascii) (n : nat) : list ascii :=
  let s := take n (c_str src) in
  take (length dst) (s ++ replicate (n - length s) NUL ++ drop n dst).

(** [snprintf (dst, size, "%s", text)]: at most [size - 1] characters and a
    terminating NUL. *)
Definition snprintf (dst : list ascii) (size : nat) (text : list ascii) : list ascii :=
  let s := take (size - 1) (c_str text) in
  take (length dst) (s ++ NUL :: drop (S (length s)) dst).

Definition decimal (n : nat) : list ascii :=
  String.list_ascii_of_string (NilEmpty.string_of_uint (Nat.to_uint n)).

(** ** Zero-initialised statics *)

Definition zero_values : SensorValues_t :=
  {| gy30_lux := f32_zero; sht30_temp := f32_zero; sht30_humi := f32_zero; smoke_ppm := 0 |}.
Definition zero_data : SensorData_t :=
  {| values := zero_values; timestamp := 0; is_valid := false |}.
Definition zero_stats : SensorStats_t :=
  {| min := f32_zero; max := f32_zero; avg := f32_zero;
     local_min := f32_zero; local_max := f32_zero; local_avg := f32_zero |}.
Definition zero_instance : SensorInstance_t :=
  {| type := SENSOR_TYPE_NONE; name := replicate SENSOR_MAX_NAME_LEN NUL;
     status := SENSOR_STATUS_OFFLINE; data := zero_data;
     update_interval_ms := 0; last_update_time := 0; error_count := 0;
     is_enabled := false; device_handle := 0;
     stats := zero_stats; secondary_stats := zero_stats;
     history := replicate (Z.to_nat SENSOR_HISTORY_SIZE) f32_zero;
     secondary_history := replicate (Z.to_nat SENSOR_HISTORY_SIZE) f32_zero;
     history_head := 0; history_count := 0 |}.
Definition zero_callbacks : SensorCallbacks_t :=
  {| init_func := None; read_func := None; deinit_func := None; get_unit := None |}.
Definition zero_manager : SensorManager_t :=
  {| sensors := replicate SENSOR_TYPE_MAX zero_instance;
     callbacks := replicate SENSOR_TYPE_MAX zero_callbacks;
     is_initialized := false; active_sensor_count := 0; global_data_mutex := false |}.

(** The statics before any call: [g_sensor_manager = {0}],
    [g_event_callback = NULL]. *)
Definition boot : State :=
  {| g_sensor_manager := zero_manager; g_event_callback := None;
     ordered_primary_history := replicate (Z.to_nat SENSOR_HISTORY_SIZE) f32_zero;
     ordered_secondary_history := replicate (Z.to_nat SENSOR_HISTORY_SIZE) f32_zero;
     events := []; adapter_calls := [] |}.

(** ** Access to the tables *)

(** [g_sensor_manager.sensors[t]] and [g_sensor_manager.callbacks[t]]; every
    access of the source is behind a range check or a loop bound. *)
Definition sensor_at (t : nat) (st : State) : SensorInstance_t :=
  default zero_instance (sensors (g_sensor_manager st) !! t).
Definition callbacks_at (t : nat) (st : State) : SensorCallbacks_t :=
  default zero_callbacks (callbacks (g_sensor_manager st) !! t).

(** A write through the pointer [&g_sensor_manager.sensors[t]]. *)
Definition upd_sensor (t : nat) (f : SensorInstance_t -> SensorInstance_t) (st : State) : State :=
  set_manager
    (set_sensors (<[t := f (sensor_at t st)]> (sensors (g_sensor_manager st)))
                 (g_sensor_manager st)) st.

Definition upd_manager (f : SensorManager_t -> SensorManager_t) (st : State) : State :=
  set_manager (f (g_sensor_manager st)) st.

Definition log_call (slot : AdapterSlot) (fn : fnptr) (arg : SensorInstance_t) (st : State) : State :=
  set_adapter_calls
    (adapter_calls st ++ [{| call_slot := slot; call_fn := fn; call_arg := arg |}]) st.

(** ** Event notifier *)

(** [SensorTask_NotifyEvent]: the event is built and handed to the registered
    callback; without a callback nothing happens.  The members that the
    designated initialiser leaves out are zero. *)
Definition SensorTask_NotifyEvent (et : SensorEventType_t) (t : SensorType_t)
    (d : option SensorData_t) (s : SensorStatus_t) (st : State) : State :=
  match g_event_callback st with
  | None => st
  | Some _ =>
      set_events (events st ++
        [{| event_type := et; sensor_type := t;
            event_data := default zero_data d; event_status := s |}]) st
  end.

Definition SensorTask_RegisterEventCallback (callback : option fnptr) (st : State) : bool * State :=
  (true, set_event_callback callback st).

(** ** Registry *)

(** [SensorTask_Init].  [mutex_created] and [task_created] say whether
    [osMutexCreate] and [osThreadCreate] returned a handle. *)
Definition init_instance (i : nat) (s : SensorInstance_t) : SensorInstance_t :=
  set_name (snprintf (name s) SENSOR_MAX_NAME_LEN
              (String.list_ascii_of_string "Sensor_"%string ++ decimal i))
    (set_status SENSOR_STATUS_OFFLINE (set_type i s)).

Definition SensorTask_Init (mutex_created task_created : bool) (st : State) : bool * State :=
  if is_initialized (g_sensor_manager st) then (true, st)
  else
    let st1 := set_manager (set_global_data_mutex mutex_created zero_manager) st in
    if negb mutex_created then (false, st1)
    else
      let st2 := upd_manager (fun m => set_sensors (imap init_instance (sensors m)) m) st1 in
      if negb task_created then (false, st2)
      else
        (true, upd_manager (fun m => set_active_sensor_count 0 (set_is_initialized true m)) st2).

(** The guard shared by the mutators: registry initialised and
    [SENSOR_TYPE_NONE < type < SENSOR_TYPE_MAX]. *)
Definition invalid_type (t : SensorType_t) (st : State) : bool :=
  negb (is_initialized (g_sensor_manager st))
  || (SENSOR_TYPE_MAX <=? t)%nat
  || (t =? SENSOR_TYPE_NONE)%nat.

Definition SensorTask_EnableSensor (t : SensorType_t) (st : State) : bool * State :=
  if invalid_type t st then (false, st)
  else if negb (is_enabled (sensor_at t st)) then
    let st1 := upd_sensor t (fun s =>
                 set_error_count 0
                   (set_status SENSOR_STATUS_INITIALIZING (set_is_enabled true s))) st in
    let st2 := upd_manager (fun m =>
                 set_active_sensor_count (wrap32 (active_sensor_count m + 1)) m) st1 in
    (true, SensorTask_NotifyEvent SENSOR_EVENT_STATUS_CHANGE t None
             SENSOR_STATUS_INITIALIZING st2)
  else (true, st).

Definition SensorTask_DisableSensor (t : SensorType_t) (st : State) : bool * State :=
  if invalid_type t st then (false, st)
  else if is_enabled (sensor_at t st) then
    let st1 := match deinit_func (callbacks_at t st) with
               | Some f => log_call SlotDeinit f (sensor_at t st) st
               | None => st
               end in
    let st2 := upd_sensor t (fun s =>
                 set_status SENSOR_STATUS_OFFLINE (set_is_enabled false s)) st1 in
    let st3 := upd_manager (fun m =>
                 set_active_sensor_count (wrap32 (active_sensor_count m - 1)) m) st2 in
    (true, SensorTask_NotifyEvent SENSOR_EVENT_STATUS_CHANGE t None
             SENSOR_STATUS_OFFLINE st3)
  else (true, st).

(** [SensorTask_RegisterSensor].  [cbs = None] is a NULL [callbacks]
    pointer; [nm] is the string [name] points to. *)
Definition SensorTask_RegisterSensor (t : SensorType_t) (nm : list ascii)
    (cbs : option SensorCallbacks_t) (handle : Z) (interval_ms : Z)
    (st : State) : bool * State :=
  match cbs with
  | None => (false, st)
  | Some c =>
    if invalid_type t st then (false, st)
    else match init_func c, read_func c with
    | Some _, Some _ =>
      let st1 := upd_sensor t (fun s =>
        set_is_enabled false
          (set_error_count 0
            (set_update_interval_ms interval_ms
              (set_device_handle handle
                (set_name (<[(SENSOR_MAX_NAME_LEN - 1)%nat := NUL]>
                             (strncpy (name s) nm (SENSOR_MAX_NAME_LEN - 1))) s))))) st in
      let st2 := upd_manager (fun m => set_callbacks (<[t := c]> (callbacks m)) m) st1 in
      (true, snd (SensorTask_EnableSensor t st2))
    | _, _ => (false, st)
    end
  end.

(** [SensorTask_SetUpdateInterval]. *)
Definition SensorTask_SetUpdateInterval (t : SensorType_t) (interval_ms : Z)
    (st : State) : bool * State :=
  if invalid_type t st || (interval_ms <? 100) then (false, st)
  else (true, upd_sensor t (set_update_interval_ms interval_ms) st).

(** ** Query API

    An output parameter becomes part of the result: [Some v] when the
    function returns true and has written [v], [None] when it returns false
    and has written nothing.  [out] says whether the output pointer is
    non-NULL. *)

Definition SensorTask_GetSensorData (t : SensorType_t) (out lock : bool) (st : State)
  : option SensorData_t :=
  if invalid_type t st || negb out then None
  else
    let sensor := sensor_at t st in
    if is_enabled sensor && is_valid (data sensor) then
      if lock then Some (data sensor) else None
    else None.

(** The guard of [SensorTask_GetSensorStatus] (and of the statistics and
    history getters) has no [type == SENSOR_TYPE_NONE] test. *)
Definition SensorTask_GetSensorStatus (t : SensorType_t) (out lock : bool) (st : State)
  : option SensorStatus_t :=
  if negb (is_initialized (g_sensor_manager st)) || (SENSOR_TYPE_MAX <=? t)%nat || negb out
  then None
  else
    let sensor := sensor_at t st in
    if lock then Some (status sensor) else None.

Definition SensorTask_GetStats (t : SensorType_t) (out lock : bool) (st : State)
  : option SensorStats_t :=
  if negb (is_initialized (g_sensor_manager st)) || (SENSOR_TYPE_MAX <=? t)%nat || negb out
  then None
  else
    let sensor := sensor_at t st in
    if is_enabled sensor && (0 <? history_count sensor) then
      if lock then Some (stats sensor) else None
    else None.

Definition SensorTask_GetSecondaryStats (t : SensorType_t) (out lock : bool) (st : State)
  : option SensorStats_t :=
  if negb (is_initialized (g_sensor_manager st)) || (SENSOR_TYPE_MAX <=? t)%nat || negb out
  then None
  else if negb (t =? SENSOR_TYPE_SHT30)%nat then None
  else
    let sensor := sensor_at t st in
    if is_enabled sensor && (0 <? history_count sensor) then
      if lock then Some (secondary_stats sensor) else None
    else None.

(** The copy loop of the history getters: [count] elements of the ring [h]
    from [read_idx] on go to [ordered[0 .. count-1]]. *)
Definition unroll_step (h : list float) (acc : list float * Z) (i : Z) : list float * Z :=
  let '(ordered, read_idx) := acc in
  (arr_set ordered i (arr_get h read_idx), c_rem (read_idx + 1) SENSOR_HISTORY_SIZE).

Definition unroll (h ordered : list float) (head count : Z) : list float :=
  let read_idx := if count <? SENSOR_HISTORY_SIZE then 0 else head in
  fst (foldl (unroll_step h) (ordered, read_idx) (seqZ 0 count)).

(** [SensorTask_GetPrimaryHistory], called with a non-NULL [history_data].
    The result is the returned count and what [*history_data] points to
    afterwards: [None] for NULL, [Some buf] for the static snapshot buffer,
    of which the first [count] elements are the snapshot. *)
Definition SensorTask_GetPrimaryHistory (t : SensorType_t) (lock : bool) (st : State)
  : (Z * option (list float)) * State :=
  if negb (is_initialized (g_sensor_manager st)) || (SENSOR_TYPE_MAX <=? t)%nat
  then ((0, None), st)
  else
    let sensor := sensor_at t st in
    if is_enabled sensor && (0 <? history_count sensor) then
      if lock then
        let buf := unroll (history sensor) (ordered_primary_history st)
                          (history_head sensor) (history_count sensor) in
        ((history_count sensor, Some buf), set_ordered_primary_history buf st)
      else ((0, None), st)
    else ((0, None), st).

Definition SensorTask_GetSecondaryHistory (t : SensorType_t) (lock : bool) (st : State)
  : (Z * option (list float)) * State :=
  if negb (is_initialized (g_sensor_manager st)) || (SENSOR_TYPE_MAX <=? t)%nat
  then ((0, None), st)
  else if negb (t =? SENSOR_TYPE_SHT30)%nat then ((0, None), st)
  else
    let sensor := sensor_at t st in
    if is_enabled sensor && (0 <? history_count sensor) then
      if lock then
        let buf := unroll (secondary_history sensor) (ordered_secondary_history st)
                          (history_head sensor) (history_count sensor) in
        ((history_count sensor, Some buf), set_ordered_secondary_history buf st)
      else ((0, None), st)
    else ((0, None), st).

(** ** Adapter calls

    sensor_task.c only sees an adapter through its return value and through
    what it writes into the instance it is handed.  The adapters of the
    repository (gy30_sensor.c, sht30_sensor.c, mq2_sensor.c) write
    [data.values] and [data.is_valid] in their read function and touch only
    their own device record in init and deinit.  So a read is described by a
    [ReadOutcome], an init by its boolean result. *)
Record ReadOutcome := {
  read_result : bool;
  read_values : SensorValues_t;
  read_is_valid : bool
}.

Definition adapter_read (rd : ReadOutcome) (s : SensorInstance_t) : SensorInstance_t :=
  set_data {| values := read_values rd; timestamp := timestamp (data s);
              is_valid := read_is_valid rd |} s.

(** [SensorTask_InitializeSensor (&sensors[i])]. *)
Definition SensorTask_InitializeSensor (i : nat) (result : bool) (st : State) : bool * State :=
  let sensor := sensor_at i st in
  if (SENSOR_TYPE_MAX <=? type sensor)%nat then (false, st)
  else match init_func (callbacks_at (type sensor) st) with
       | Some f => (result, log_call SlotInit f sensor st)
       | None => (false, st)
       end.

(** ** Analytics engine: the body of [SensorTask_UpdateSensor] under the lock *)

Definition is_sht30 (s : SensorInstance_t) : bool := (type s =? SENSOR_TYPE_SHT30)%nat.

(** Step 1: the reading as [float]s. *)
Definition primary_value (s : SensorInstance_t) : float :=
  if (type s =? SENSOR_TYPE_SHT30)%nat then sht30_temp (values (data s))
  else if (type s =? SENSOR_TYPE_GY30)%nat then gy30_lux (values (data s))
  else if (type s =? SENSOR_TYPE_SMOKE)%nat then f32_of_int (smoke_ppm (values (data s)))
  else f32_zero.

Definition secondary_value (s : SensorInstance_t) : float :=
  if (type s =? SENSOR_TYPE_SHT30)%nat then sht30_humi (values (data s)) else f32_zero.

(** Step 2: the circular buffers. *)
Definition store_sample (pv sv : float) (s : SensorInstance_t) : SensorInstance_t :=
  let s1 := set_history (arr_set (history s) (history_head s) pv) s in
  let s2 := if is_sht30 s1
            then set_secondary_history
                   (arr_set (secondary_history s1) (history_head s1) sv) s1
            else s1 in
  let s3 := set_history_head (c_rem (history_head s2 + 1) SENSOR_HISTORY_SIZE) s2 in
  if history_count s3 <? SENSOR_HISTORY_SIZE
  then set_history_count (history_count s3 + 1) s3
  else s3.

(** The locals of the rescan loop. *)
Record Scan := {
  p_sum : float; p_min : float; p_max : float;
  s_sum : float; s_min : float; s_max : float
}.

Definition scan_step (s : SensorInstance_t) (start_idx : Z) (a : Scan) (i : Z) : Scan :=
  let read_idx := c_rem (start_idx + i) SENSOR_HISTORY_SIZE in
  let p_val := arr_get (history s) read_idx in
  let p_sum1 := f32_add (p_sum a) p_val in
  let p_min1 := if f32_lt p_val (p_min a) then p_val else p_min a in
  let p_max1 := if f32_gt p_val (p_max a) then p_val else p_max a in
  if is_sht30 s then
    let s_val := arr_get (secondary_history s) read_idx in
    {| p_sum := p_sum1; p_min := p_min1; p_max := p_max1;
       s_sum := f32_add (s_sum a) s_val;
       s_min := if f32_lt s_val (s_min a) then s_val else s_min a;
       s_max := if f32_gt s_val (s_max a) then s_val else s_max a |}
  else
    {| p_sum := p_sum1; p_min := p_min1; p_max := p_max1;
       s_sum := s_sum a; s_min := s_min a; s_max := s_max a |}.

Definition start_index (s : SensorInstance_t) : Z :=
  c_rem (history_head s - history_count s + SENSOR_HISTORY_SIZE) SENSOR_HISTORY_SIZE.

Definition rescan (s : SensorInstance_t) : Scan :=
  let start_idx := start_index s in
  let first := arr_get (history s) start_idx in
  let sfirst := if is_sht30 s then arr_get (secondary_history s) start_idx else f32_zero in
  foldl (scan_step s start_idx)
    {| p_sum := f32_zero; p_min := first; p_max := first;
       s_sum := f32_zero; s_min := sfirst; s_max := sfirst |}
    (seqZ 0 (history_count s)).

(** Step 3: the statistics. *)
Definition seed_stats (v : float) (t : SensorStats_t) : SensorStats_t :=
  set_stats_avg v (set_stats_max v (set_stats_min v t)).

Definition widen_stats (v : float) (t : SensorStats_t) : SensorStats_t :=
  let t1 := if f32_lt v (min t) then set_stats_min v t else t in
  if f32_gt v (max t1) then set_stats_max v t1 else t1.

Definition window_stats (lmin lmax sum : float) (count : Z) (t : SensorStats_t) : SensorStats_t :=
  let t1 := set_local_avg (f32_div sum (f32_of_int count))
              (set_local_max lmax (set_local_min lmin t)) in
  set_stats_avg (local_avg t1) t1.

Definition update_stats (pv sv : float) (s : SensorInstance_t) : SensorInstance_t :=
  if history_count s =? 1 then
    let s1 := set_stats (seed_stats pv (stats s)) s in
    if is_sht30 s1 then set_secondary_stats (seed_stats sv (secondary_stats s1)) s1 else s1
  else
    let s1 := set_stats (widen_stats pv (stats s)) s in
    let s2 := if is_sht30 s1
              then set_secondary_stats (widen_stats sv (secondary_stats s1)) s1
              else s1 in
    let a := rescan s2 in
    let s3 := set_stats
                (window_stats (p_min a) (p_max a) (p_sum a) (history_count s2) (stats s2)) s2 in
    if is_sht30 s3
    then set_secondary_stats
           (window_stats (s_min a) (s_max a) (s_sum a) (history_count s3)
              (secondary_stats s3)) s3
    else s3.

(** Everything between [osMutexWait] and [osMutexRelease]; [tick] is what
    [HAL_GetTick] returns there. *)
Definition record_sample (tick : Z) (s : SensorInstance_t) : SensorInstance_t :=
  let s1 := set_error_count 0
              (set_data {| values := values (data s); timestamp := tick;
                           is_valid := true |} s) in
  let pv := primary_value s1 in
  let sv := secondary_value s1 in
  update_stats pv sv (store_sample pv sv s1).

(** [SensorTask_UpdateSensor (&sensors[i])]: the adapter read, then, when it
    succeeded and the lock was obtained, [record_sample]. *)
Definition SensorTask_UpdateSensor (i : nat) (rd : ReadOutcome) (lock : bool) (tick : Z)
    (st : State) : bool * State :=
  let sensor := sensor_at i st in
  if (SENSOR_TYPE_MAX <=? type sensor)%nat then (false, st)
  else match read_func (callbacks_at (type sensor) st) with
       | Some f =>
           let st1 := upd_sensor i (adapter_read rd) (log_call SlotRead f sensor st) in
           if read_result rd then
             if lock then (true, upd_sensor i (record_sample tick) st1)
             else (true, st1)
           else (false, st1)
       | None => (false, st)
       end.

(** ** Fault handling *)

Definition SOFT_THRESHOLD : Z := 5.
Definition HARD_THRESHOLD : Z := 10.

(** [SensorTask_HandleSensorError (&sensors[i])]. *)
Definition SensorTask_HandleSensorError (i : nat) (st : State) : State :=
  let st1 := upd_sensor i (fun s => set_error_count (wrap32 (error_count s + 1)) s) st in
  let st2 := if error_count (sensor_at i st1) =? SOFT_THRESHOLD
             then upd_sensor i (set_status SENSOR_STATUS_INITIALIZING) st1
             else st1 in
  if error_count (sensor_at i st2) =? HARD_THRESHOLD then
    let st3 := snd (SensorTask_DisableSensor (type (sensor_at i st2)) st2) in
    let st4 := upd_sensor i (set_status SENSOR_STATUS_ERROR) st3 in
    SensorTask_NotifyEvent SENSOR_EVENT_STATUS_CHANGE (type (sensor_at i st4)) None
      SENSOR_STATUS_ERROR st4
  else st2.

(** ** Polling scheduler *)

(** What the environment answers while the scheduler visits one sensor: the
    results of the adapter calls, the values of [HAL_GetTick] at the three
    places it is read, and whether the data mutex was obtained. *)
Record Oracle := {
  init_result : bool;
  init_tick : Z;
  current_tick : Z;
  read_outcome : ReadOutcome;
  read_lock : bool;
  stamp_tick : Z
}.

(** The second half of the loop body: the read when it is due. *)
Definition poll_sensor (i : nat) (o : Oracle) (st : State) : State :=
  let current_time := current_tick o in
  let sensor := sensor_at i st in
  if update_interval_ms sensor <=? wrap32 (current_time - last_update_time sensor) then
    let '(ok, st1) := SensorTask_UpdateSensor i (read_outcome o) (read_lock o)
                        (stamp_tick o) st in
    if ok then
      let st2 := upd_sensor i (set_last_update_time current_time) st1 in
      SensorTask_NotifyEvent SENSOR_EVENT_DATA_UPDATE i
        (Some (data (sensor_at i st2))) (status (sensor_at i st2)) st2
    else SensorTask_HandleSensorError i st1
  else st.

(** The body of the inner [for] loop of [SensorTask_MainLoop] for index [i]. *)
Definition MainLoop_visit (i : nat) (o : Oracle) (st : State) : State :=
  let sensor := sensor_at i st in
  if negb (is_enabled sensor) then st
  else if SensorStatus_eqb (status sensor) SENSOR_STATUS_INITIALIZING then
    let '(ok, st1) := SensorTask_InitializeSensor i (init_result o) st in
    if ok then
      let st2 := upd_sensor i (fun s =>
                   set_last_update_time (init_tick o)
                     (set_status SENSOR_STATUS_ONLINE s)) st1 in
      poll_sensor i o
        (SensorTask_NotifyEvent SENSOR_EVENT_STATUS_CHANGE i None
           SENSOR_STATUS_ONLINE st2)
    else SensorTask_HandleSensorError i st1
  else poll_sensor i o st.

(** One sweep [for (i = 1; i < SENSOR_TYPE_MAX; i++)]; [env i] is the
    environment during the visit of index [i]. *)
Definition MainLoop_sweep (env : nat -> Oracle) (st : State) : State :=
  foldl (fun acc i => MainLoop_visit i (env i) acc) st (seq 1 (SENSOR_TYPE_MAX - 1)).

(** ** Runs of the system

    A run is a sequence of calls of the public API and of visits of the
    scheduler to one sensor, starting from the zeroed statics.  Other tasks
    may run between two visits of a sweep, so the visit is the unit. *)
Inductive Call :=
| CallInit (mutex_created task_created : bool)
| CallRegisterSensor (t : SensorType_t) (nm : list ascii) (cbs : option SensorCallbacks_t)
    (handle interval_ms : Z)
| CallEnableSensor (t : SensorType_t)
| CallDisableSensor (t : SensorType_t)
| CallSetUpdateInterval (t : SensorType_t) (interval_ms : Z)
| CallRegisterEventCallback (callback : option fnptr)
| CallGetPrimaryHistory (t : SensorType_t) (lock : bool)
| CallGetSecondaryHistory (t : SensorType_t) (lock : bool)
| SchedulerVisit (i : nat) (o : Oracle).

Definition run_call (st : State) (c : Call) : State :=
  match c with
  | CallInit m t => snd (SensorTask_Init m t st)
  | CallRegisterSensor t nm cbs h ms => snd (SensorTask_RegisterSensor t nm cbs h ms st)
  | CallEnableSensor t => snd (SensorTask_EnableSensor t st)
  | CallDisableSensor t => snd (SensorTask_DisableSensor t st)
  | CallSetUpdateInterval t ms => snd (SensorTask_SetUpdateInterval t ms st)
  | CallRegisterEventCallback cb => snd (SensorTask_RegisterEventCallback cb st)
  | CallGetPrimaryHistory t lock => snd (SensorTask_GetPrimaryHistory t lock st)
  | CallGetSecondaryHistory t lock => snd (SensorTask_GetSecondaryHistory t lock st)
  | SchedulerVisit i o =>
      if (1 <=? i)%nat && (i <? SENSOR_TYPE_MAX)%nat then MainLoop_visit i o st else st
  end.

Definition run (calls : list Call) : State := foldl run_call boot calls.

Definition reachable (st : State) : Prop := exists calls, st = run calls.

(** A sequence of successful reads of sensor [i]: each element is what the
    adapter wrote and the tick at which the sample was stamped; the lock is
    obtained every time. *)
Definition successful_read (v : SensorValues_t) : ReadOutcome :=
  {| read_result := true; read_values := v; read_is_valid := true |}.

Definition feed (i : nat) (reads : list (SensorValues_t * Z)) (st : State) : State :=
  foldl (fun acc r => snd (SensorTask_UpdateSensor i (successful_read r.1) true r.2 acc))
        st reads.

(** The primary and secondary scalar of a reading of kind [t] (step 1 of the
    analytics, as a function of the kind). *)
Definition primary_of (t : SensorType_t) (v : SensorValues_t) : float :=
  if (t =? SENSOR_TYPE_SHT30)%nat then sht30_temp v
  else if (t =? SENSOR_TYPE_GY30)%nat then gy30_lux v
  else if (t =? SENSOR_TYPE_SMOKE)%nat then f32_of_int (smoke_ppm v)
  else f32_zero.

Definition secondary_of (t : SensorType_t) (v : SensorValues_t) : float :=
  if (t =? SENSOR_TYPE_SHT30)%nat then sht30_humi v else f32_zero.

(** ** Well-formed states *)

(** The index arithmetic of the ring stays inside the arrays. *)
Record ring_ok (s : SensorInstance_t) : Prop := {
  ring_history_len : length (history s) = Z.to_nat SENSOR_HISTORY_SIZE;
  ring_secondary_len : length (secondary_history s) = Z.to_nat SENSOR_HISTORY_SIZE;
  ring_head : 0 <= history_head s < SENSOR_HISTORY_SIZE;
  ring_count : 0 <= history_count s <= SENSOR_HISTORY_SIZE;
  ring_filling : history_count s < SENSOR_HISTORY_SIZE -> history_head s = history_count s
}.

Record wf (m : SensorManager_t) : Prop := {
  wf_sensors : length (sensors m) = SENSOR_TYPE_MAX;
  wf_callbacks : length (callbacks m) = SENSOR_TYPE_MAX;
  wf_type : is_initialized m = true ->
            forall i s, sensors m !! i = Some s -> type s = i;
  wf_enabled : forall i s, sensors m !! i = Some s -> is_enabled s = true ->
               is_initialized m = true /\ (1 <= i)%nat;
  wf_none : forall s, sensors m !! 0%nat = Some s -> status s = SENSOR_STATUS_OFFLINE;
  wf_name : forall i s, sensors m !! i = Some s -> length (name s) = SENSOR_MAX_NAME_LEN;
  wf_ring : forall i s, sensors m !! i = Some s -> ring_ok s
}.

(** The chronological contents of a ring: the oldest sample first. *)
Definition window_of (h : list float) (head count : Z) : list float :=
  if count <? SENSOR_HISTORY_SIZE then take (Z.to_nat count) h
  else rotate (Z.to_nat head) h.

Definition window (s : SensorInstance_t) : list float :=
  window_of (history s) (history_head s) (history_count s).
Definition secondary_window (s : SensorInstance_t) : list float :=
  window_of (secondary_history s) (history_head s) (history_count s).

(** The last [n] elements of a list. *)
Definition keep_last {A} (n : nat) (l : list A) : list A := drop (length l - n) l.

(** ** Vocabulary of the properties *)

(** The analytics block of an instance. *)
Definition analytics (s : SensorInstance_t)
  : list float * list float * Z * Z * SensorStats_t * SensorStats_t :=
  (history s, secondary_history s, history_head s, history_count s,
   stats s, secondary_stats s).

(** The arguments that [SensorTask_RegisterSensor] must reject. *)
Definition registration_invalid (t : SensorType_t) (cbs : option SensorCallbacks_t)
    (st : State) : Prop :=
  is_initialized (g_sensor_manager st) = false
  \/ (SENSOR_TYPE_MAX <= t)%nat
  \/ t = SENSOR_TYPE_NONE
  \/ cbs = None
  \/ exists c, cbs = Some c /\ (init_func c = None \/ read_func c = None).

Definition status_change (t : SensorType_t) (s : SensorStatus_t) : SensorEvent_t :=
  {| event_type := SENSOR_EVENT_STATUS_CHANGE; sensor_type := t;
     event_data := zero_data; event_status := s |}.

(** The events that reach the application: none without a callback. *)
Definition delivered (st : State) (evs : list SensorEvent_t) : list SensorEvent_t :=
  match g_event_callback st with Some _ => evs | None => [] end.

Definition is_deinit_call (c : AdapterCall) : bool :=
  match call_slot c with SlotDeinit => true | _ => false end.

(** The deinit calls of the trace. *)
Definition deinit_calls (st : State) : list AdapterCall :=
  filter (fun c => is_deinit_call c = true) (adapter_calls st).

(** The deinit call that disabling sensor [t] in state [st] makes. *)
Definition deinit_call_of (t : SensorType_t) (st : State) : list AdapterCall :=
  match deinit_func (callbacks_at t st) with
  | Some f => [{| call_slot := SlotDeinit; call_fn := f; call_arg := sensor_at t st |}]
  | None => []
  end.

(** Is a read due at tick [now]? *)
Definition read_due (now : Z) (s : SensorInstance_t) : bool :=
  update_interval_ms s <=? wrap32 (now - last_update_time s).

(** ** A concrete run: ten failed initialisations

    The registry is initialised, an event callback and the GY30 sensor are
    registered, and the scheduler visits the sensor ten times while its
    adapter's init fails. *)
Definition demo_callbacks : SensorCallbacks_t :=
  {| init_func := Some 1%nat; read_func := Some 2%nat;
     deinit_func := Some 3%nat; get_unit := Some 4%nat |}.

Definition demo_name : list ascii := String.list_ascii_of_string "GY30"%string.

Definition idle_read : ReadOutcome :=
  {| read_result := false; read_values := zero_values; read_is_valid := false |}.

Definition init_fails_at (tick : Z) : Oracle :=
  {| init_result := false; init_tick := tick; current_tick := tick;
     read_outcome := idle_read; read_lock := true; stamp_tick := tick |}.

Definition init_succeeds_at (tick : Z) : Oracle :=
  {| init_result := true; init_tick := tick; current_tick := tick;
     read_outcome := idle_read; read_lock := true; stamp_tick := tick |}.

Definition registered : list Call :=
  [CallInit true true;
   CallRegisterEventCallback (Some 9%nat);
   CallRegisterSensor SENSOR_TYPE_GY30 demo_name (Some demo_callbacks) 0 2000].

Definition failed_inits (n : nat) : list Call :=
  registered ++ replicate n (SchedulerVisit SENSOR_TYPE_GY30 (init_fails_at 1000)).

(** The statements of the specification that the code does not satisfy, as
    they are written. *)

(** "Disable is reachable from any state and forces Offline." *)
Definition disable_forces_offline : Prop :=
  forall st t,
    reachable st -> is_initialized (g_sensor_manager st) = true ->
    (1 <= t < SENSOR_TYPE_MAX)%nat ->
    (SensorTask_DisableSensor t st).1 = true
    /\ status (sensor_at t (SensorTask_DisableSensor t st).2) = SENSOR_STATUS_OFFLINE.

(** "Successful read or init at any point resets error_count to 0", for the
    init of the scheduler's Initializing step (no read being due in the same
    visit). *)
Definition init_success_resets_error_count : Prop :=
  forall st i o,
    reachable st -> (1 <= i < SENSOR_TYPE_MAX)%nat ->
    is_enabled (sensor_at i st) = true ->
    status (sensor_at i st) = SENSOR_STATUS_INITIALIZING ->
    (SensorTask_InitializeSensor i (init_result o) st).1 = true ->
    read_due (current_tick o) (set_last_update_time (init_tick o) (sensor_at i st)) = false ->
    error_count (sensor_at i (MainLoop_visit i o st)) = 0.

(** ** Failed adapter operations and what the fault handler owes

    A visit of the scheduler to sensor [i] contains a failed init, a failed
    read after a successful init, or a failed read of a sensor that needed
    no init.  Whether a read fails does not depend on what the init step
    changed, so it is tested on the state at the start of the visit. *)
Definition init_ok (i : nat) (o : Oracle) (st : State) : bool :=
  (SensorTask_InitializeSensor i (init_result o) st).1.

Definition read_ok (i : nat) (o : Oracle) (st : State) : bool :=
  (SensorTask_UpdateSensor i (read_outcome o) (read_lock o) (stamp_tick o) st).1.

Definition visit_fails (i : nat) (o : Oracle) (st : State) : Prop :=
  let s := sensor_at i st in
  (status s = SENSOR_STATUS_INITIALIZING /\ init_ok i o st = false)
  \/ (status s = SENSOR_STATUS_INITIALIZING /\ init_ok i o st = true
      /\ read_due (current_tick o) (set_last_update_time (init_tick o) s) = true
      /\ read_ok i o st = false)
  \/ (status s <> SENSOR_STATUS_INITIALIZING
      /\ read_due (current_tick o) s = true /\ read_ok i o st = false).

(** The deinit callback of sensor [i], if there is one, has been called once
    more in [st'] than in [st], on the instance while it was still enabled. *)
Definition deinit_ran (i : nat) (st st' : State) : Prop :=
  match deinit_func (callbacks_at i st) with
  | Some f =>
      exists arg, deinit_calls st' = deinit_calls st ++
                    [{| call_slot := SlotDeinit; call_fn := f; call_arg := arg |}]
                  /\ type arg = i /\ is_enabled arg = true
  | None => deinit_calls st' = deinit_calls st
  end.

(** The escalation of one failure of sensor [i], from [st] to [st']. *)
Definition escalation (i : nat) (st st' : State) : Prop :=
  let n := wrap32 (error_count (sensor_at i st) + 1) in
  let s' := sensor_at i st' in
  error_count s' = n
  /\ (n = SOFT_THRESHOLD ->
        status s' = SENSOR_STATUS_INITIALIZING /\ is_enabled s' = true
        /\ deinit_calls st' = deinit_calls st
        /\ active_sensor_count (g_sensor_manager st')
           = active_sensor_count (g_sensor_manager st))
  /\ (n = HARD_THRESHOLD ->
        status s' = SENSOR_STATUS_ERROR /\ is_enabled s' = false
        /\ deinit_ran i st st'
        /\ active_sensor_count (g_sensor_manager st')
           = wrap32 (active_sensor_count (g_sensor_manager st) - 1)
        /\ (exists pre, events st' = events st ++ pre ++
               delivered st [status_change i SENSOR_STATUS_OFFLINE;
                             status_change i SENSOR_STATUS_ERROR])
        /\ (SensorTask_EnableSensor i st').1 = true
        /\ error_count (sensor_at i (SensorTask_EnableSensor i st').2) = 0
        /\ status (sensor_at i (SensorTask_EnableSensor i st').2)
           = SENSOR_STATUS_INITIALIZING
        /\ is_enabled (sensor_at i (SensorTask_EnableSensor i st').2) = true).

(** Two states in which a failure of sensor [i] escalates alike. *)
Definition same_standing (i : nat) (st0 st : State) : Prop :=
  error_count (sensor_at i st) = error_count (sensor_at i st0)
  /\ callbacks_at i st = callbacks_at i st0
  /\ deinit_calls st = deinit_calls st0
  /\ active_sensor_count (g_sensor_manager st) = active_sensor_count (g_sensor_manager st0)
  /\ g_event_callback st = g_event_callback st0
  /\ exists pre, events st = events st0 ++ pre.

(** The successive samples on one instance: what [feed] does to the slot. *)
Definition sample_all (reads : list (SensorValues_t * Z)) (s : SensorInstance_t)
  : SensorInstance_t :=
  foldl (fun acc r => record_sample r.2 (adapter_read (successful_read r.1) acc)) s reads.

(** The two snapshot buffers of the history getters. *)
Definition snapshot_buffers (st : State) : list float * list float :=
  (ordered_primary_history st, ordered_secondary_history st).

(** ** Order and statistics of floats, in the words of the specification *)

(** [a] is at most [b]: the same value, or strictly below it.  (A NaN is
    only at most itself.) *)
Definition f32_le (a b : float) : Prop := a = b \/ f32_lt a b = true.

(** [m] is a minimum (maximum) of the samples [w]: one of them, with no
    sample strictly below (above) it. *)
Definition is_minimum (m : float) (w : list float) : Prop :=
  m ∈ w /\ forall x, x ∈ w -> f32_lt x m = false.
Definition is_maximum (m : float) (w : list float) : Prop :=
  m ∈ w /\ forall x, x ∈ w -> f32_gt x m = false.

(** The arithmetic mean in binary32: the samples summed in order from
    [0.0f], divided by their number. *)
Definition f32_sum (w : list float) : float := foldl f32_add f32_zero w.
Definition f32_mean (w : list float) : float :=
  f32_div (f32_sum w) (f32_of_int (Z.of_nat (length w))).

(** The position of a float in the order of [SFcompare]: class, then
    exponent, then mantissa, mirrored for the negative numbers. *)
Definition f32_rank (x : float) : option (Z * Z * Z) :=
  match x with
  | S754_nan => None
  | S754_infinity true => Some (-2, 0, 0)
  | S754_finite true m e => Some (-1, - e, - Z.pos m)
  | S754_zero _ => Some (0, 0, 0)
  | S754_finite false m e => Some (1, e, Z.pos m)
  | S754_infinity false => Some (2, 0, 0)
  end.

Definition lex_lt (a b : Z * Z * Z) : Prop :=
  a.1.1 < b.1.1
  \/ (a.1.1 = b.1.1 /\ (a.1.2 < b.1.2 \/ (a.1.2 = b.1.2 /\ a.2 < b.2))).

(** One comparison of the rescan loop, for the minimum and for the maximum. *)
Definition min_step (m x : float) : float := if f32_lt x m then x else m.
Definition max_step (m x : float) : float := if f32_gt x m then x else m.

(** ** Concrete runs with successful reads *)

Definition lux (n : Z) : SensorValues_t :=
  {| gy30_lux := f32_of_int n; sht30_temp := f32_zero; sht30_humi := f32_zero;
     smoke_ppm := 0 |}.

Definition temp_humi (t h : Z) : SensorValues_t :=
  {| gy30_lux := f32_zero; sht30_temp := f32_of_int t; sht30_humi := f32_of_int h;
     smoke_ppm := 0 |}.

Definition read_succeeds_at (tick : Z) (v : SensorValues_t) : Oracle :=
  {| init_result := true; init_tick := tick; current_tick := tick;
     read_outcome := successful_read v; read_lock := true; stamp_tick := tick |}.

(** The sensor of kind [k] is registered with a 2 s interval, initialised at
    tick 0 and then read successfully at the given ticks. *)
Definition sampled (k : SensorType_t) (reads : list (Z * SensorValues_t)) : list Call :=
  [CallInit true true;
   CallRegisterEventCallback (Some 9%nat);
   CallRegisterSensor k demo_name (Some demo_callbacks) 0 2000;
   SchedulerVisit k (init_succeeds_at 0)]
  ++ map (fun r => SchedulerVisit k (read_succeeds_at r.1 r.2)) reads.

(** ** The rest of sensor_task.c and sensor_task.h *)

(** The string conversions. *)
Definition SensorStatus_ToString (s : SensorStatus_t) : string :=
  match s with
  | SENSOR_STATUS_OFFLINE => "OFFLINE"
  | SENSOR_STATUS_ONLINE => "ONLINE"
  | SENSOR_STATUS_ERROR => "ERROR"
  | SENSOR_STATUS_INITIALIZING => "INITIALIZING"
  end.

Definition SensorType_ToString (t : SensorType_t) : string :=
  if (t =? SENSOR_TYPE_NONE)%nat then "NONE"
  else if (t =? SENSOR_TYPE_GY30)%nat then "GY30"
  else if (t =? SENSOR_TYPE_SHT30)%nat then "SHT30"
  else if (t =? SENSOR_TYPE_SMOKE)%nat then "MQ-2"
  else if (t =? SENSOR_TYPE_MAX)%nat then "MAX"
  else "UNKNOWN".

Definition SensorEventType_ToString (e : SensorEventType_t) : string :=
  match e with
  | SENSOR_EVENT_DATA_UPDATE => "DATA_UPDATE"
  | SENSOR_EVENT_STATUS_CHANGE => "STATUS_CHANGE"
  | SENSOR_EVENT_ERROR => "ERROR"
  end.

(** The convenience macros; [now] is what [HAL_GetTick] returns. *)
Definition SENSOR_IS_HEALTHY (s : SensorInstance_t) : bool :=
  SensorStatus_eqb (status s) SENSOR_STATUS_ONLINE && (error_count s <? 5).



(** The end of one iteration of [SensorTask_MainLoop]: the delay passed to
    [osDelay], from the ticks read at the start and at the end of the
    sweep. *)
Definition sleep_time (loop_start_time end_tick : Z) : Z :=
  let loop_duration := wrap32 (end_tick - loop_start_time) in
  if loop_duration <? 100 then 100 - loop_duration else 10.

(** The [uint8_t loop_count] of the main loop: incremented, and reset when
    it reaches a multiple of 100, in which case the liveness line is logged.
    The result is the new counter and whether the line is logged. *)
Definition count_loop (loop_count : Z) : Z * bool :=
  let c := (loop_count + 1) mod 2 ^ 8 in
  if c mod 100 =? 0 then (0, true) else (c, false).

(** The counter after [n] iterations, from [c]. *)
Fixpoint count_loops (n : nat) (c : Z) : Z :=
  match n with
  | O => c
  | S n' => (count_loop (count_loops n' c)).1
  end.

(** ** The state machine of an instance *)

(** An enabled instance is Initializing or Online and has failed fewer than
    ten times in a row; a disabled one is Offline, or in Error with exactly
    ten failures. *)
Definition fsm_ok (s : SensorInstance_t) : Prop :=
  if is_enabled s
  then (status s = SENSOR_STATUS_INITIALIZING \/ status s = SENSOR_STATUS_ONLINE)
       /\ 0 <= error_count s < HARD_THRESHOLD
  else (status s = SENSOR_STATUS_OFFLINE /\ 0 <= error_count s < HARD_THRESHOLD)
       \/ (status s = SENSOR_STATUS_ERROR /\ error_count s = HARD_THRESHOLD).

(** The number of enabled instances of the table. *)
Definition enabled_count (st : State) : nat :=
  length (filter (fun s => is_enabled s = true) (sensors (g_sensor_manager st))).

(** ** The statistics and the window *)

(** The windowed statistics of [t] are those of the samples [w]; the
    lifetime average is the windowed one. *)
Definition windowed_ok (w : list float) (t : SensorStats_t) : Prop :=
  is_minimum (local_min t) w /\ is_maximum (local_max t) w
  /\ local_avg t = f32_mean w /\ avg t = local_avg t.

(** No sample of [w] is below the lifetime minimum of [t] or above its
    lifetime maximum. *)
Definition lifetime_bounds (w : list float) (t : SensorStats_t) : Prop :=
  forall x, x ∈ w -> f32_lt x (min t) = false /\ f32_gt x (max t) = false.

(** What the statistics and the window of one channel have to do with each
    other, by the number of samples held. *)
Definition channel_consistent (count : Z) (w : list float) (t : SensorStats_t) : Prop :=
  (1 <= count -> lifetime_bounds w t) /\ (2 <= count -> windowed_ok w t).

Definition stats_consistent (sht30 : bool) (s : SensorInstance_t) : Prop :=
  channel_consistent (history_count s) (window s) (stats s)
  /\ (sht30 = true ->
      channel_consistent (history_count s) (secondary_window s) (secondary_stats s)).

(** The statistics after the first sample [v] of a zeroed channel. *)
Definition first_sample_stats (v : float) : SensorStats_t :=
  {| min := v; max := v; avg := v;
     local_min := f32_zero; local_max := f32_zero; local_avg := f32_zero |}.

(** A channel that holds no sample has zeroed statistics, and one that holds
    a single sample [v] has [first_sample_stats v]. *)
Definition channel_young (count : Z) (w : list float) (t : SensorStats_t) : Prop :=
  (count = 0 -> t = zero_stats)
  /\ (count = 1 -> exists v, w = [v] /\ t = first_sample_stats v).

Definition stats_young (sht30 : bool) (s : SensorInstance_t) : Prop :=
  channel_young (history_count s) (window s) (stats s)
  /\ (if sht30
      then channel_young (history_count s) (secondary_window s) (secondary_stats s)
      else secondary_stats s = zero_stats
           /\ secondary_history s = replicate (Z.to_nat SENSOR_HISTORY_SIZE) f32_zero).

(** ** What reaches the adapters and the application *)

(** An adapter call as the module makes them: on an enabled instance of a
    sensor kind, the init function on an instance that is Initializing, the
    read function on one that is Online. *)
Definition call_ok (c : AdapterCall) : Prop :=
  is_enabled (call_arg c) = true
  /\ (1 <= type (call_arg c) < SENSOR_TYPE_MAX)%nat
  /\ match call_slot c with
     | SlotInit => status (call_arg c) = SENSOR_STATUS_INITIALIZING
     | SlotRead => status (call_arg c) = SENSOR_STATUS_ONLINE
     | SlotDeinit => True
     end.

(** An event as the module sends them: about a sensor kind and never of the
    type SENSOR_EVENT_ERROR; a status change carries no data, a data update
    is sent for an Online sensor. *)
Definition event_ok (e : SensorEvent_t) : Prop :=
  (1 <= sensor_type e < SENSOR_TYPE_MAX)%nat
  /\ match event_type e with
     | SENSOR_EVENT_DATA_UPDATE => event_status e = SENSOR_STATUS_ONLINE
     | SENSOR_EVENT_STATUS_CHANGE => event_data e = zero_data
     | SENSOR_EVENT_ERROR => False
     end.

Definition trace_ok (st : State) : Prop :=
  Forall call_ok (adapter_calls st) /\ Forall event_ok (events st).

(** * Properties *)

Ltac rsimpl :=
  cbn [type name status data update_interval_ms last_update_time error_count
       is_enabled device_handle stats secondary_stats history secondary_history
       history_head history_count
       set_type set_name set_status set_data set_update_interval_ms
       set_last_update_time set_error_count set_is_enabled set_device_handle
       set_stats set_secondary_stats set_history set_secondary_history
       set_history_head set_history_count
       sensors callbacks is_initialized active_sensor_count global_data_mutex
       set_sensors set_callbacks set_is_initialized set_active_sensor_count
       set_global_data_mutex
       g_sensor_manager g_event_callback ordered_primary_history
       ordered_secondary_history events adapter_calls
       set_manager set_event_callback set_ordered_primary_history
       set_ordered_secondary_history set_events set_adapter_calls
       upd_manager log_call
       min max avg local_min local_max local_avg
       set_stats_min set_stats_max set_stats_avg set_local_min set_local_max
       set_local_avg values timestamp is_valid fst snd] in *.

Lemma sensor_at_upd_sensor j t f st :
  sensor_at j (upd_sensor t f st) =
    if decide (j = t /\ (t < length (sensors (g_sensor_manager st)))%nat)
    then f (sensor_at t st) else sensor_at j st.
Proof.
  unfold sensor_at, upd_sensor. rsimpl.
  destruct (decide _) as [[-> Hlt] | Hn].
  - by rewrite list_lookup_insert_eq.
  - destruct (decide (j = t)) as [-> | Hne].
    + rewrite list_insert_ge; [done | lia].
    + by rewrite list_lookup_insert_ne.
Qed.

Lemma sensor_at_upd_same t f st :
  (t < length (sensors (g_sensor_manager st)))%nat ->
  sensor_at t (upd_sensor t f st) = f (sensor_at t st).
Proof. intros. rewrite sensor_at_upd_sensor. by rewrite decide_True. Qed.

Lemma sensor_at_upd_other j t f st :
  j <> t -> sensor_at j (upd_sensor t f st) = sensor_at j st.
Proof. intros. rewrite sensor_at_upd_sensor. rewrite decide_False; [done | tauto]. Qed.

Lemma sensor_at_lookup t st s :
  sensors (g_sensor_manager st) !! t = Some s -> sensor_at t st = s.
Proof. unfold sensor_at. by intros ->. Qed.

Lemma lookup_sensor_at t st :
  (t < length (sensors (g_sensor_manager st)))%nat ->
  sensors (g_sensor_manager st) !! t = Some (sensor_at t st).
Proof.
  intros Hlt. unfold sensor_at.
  destruct (lookup_lt_is_Some_2 _ _ Hlt) as [s ->]. done.
Qed.

Lemma sensor_at_out_of_range t st :
  (length (sensors (g_sensor_manager st)) <= t)%nat -> sensor_at t st = zero_instance.
Proof. intros. unfold sensor_at. by rewrite lookup_ge_None_2. Qed.

(** ** The invariant of the runs *)

Lemma ring_ok_zero : ring_ok zero_instance.
Proof. split; cbn; try done; try lia. Qed.

Lemma wf_boot : wf (g_sensor_manager boot).
Proof.
  split; try done.
  - intros i s Hs Hen.
    apply list_elem_of_lookup_2 in Hs. apply elem_of_replicate in Hs as [-> _]. done.
  - intros s Hs. apply list_elem_of_lookup_2 in Hs.
    apply elem_of_replicate in Hs as [-> _]. done.
  - intros i s Hs. apply list_elem_of_lookup_2 in Hs.
    apply elem_of_replicate in Hs as [-> _]. done.
  - intros i s Hs. apply list_elem_of_lookup_2 in Hs.
    apply elem_of_replicate in Hs as [-> _]. apply ring_ok_zero.
Qed.

Lemma wf_upd_sensor t f st :
  wf (g_sensor_manager st) ->
  type (f (sensor_at t st)) = type (sensor_at t st) ->
  length (name (f (sensor_at t st))) = SENSOR_MAX_NAME_LEN ->
  (ring_ok (sensor_at t st) -> ring_ok (f (sensor_at t st))) ->
  (is_enabled (f (sensor_at t st)) = true ->
     is_initialized (g_sensor_manager st) = true /\ (1 <= t)%nat) ->
  (t = 0%nat -> status (f (sensor_at t st)) = SENSOR_STATUS_OFFLINE) ->
  wf (g_sensor_manager (upd_sensor t f st)).
Proof.
  intros [Hlen Hcb Hty Hen Hnone Hname Hring] Ht Hn Hr He H0.
  unfold upd_sensor. rsimpl.
  split; rsimpl.
  - by rewrite length_insert.
  - done.
  - intros Hi i s Hs. apply list_lookup_insert_Some in Hs as [(-> & <- & Hlt) | [Hne Hs]].
    + rewrite Ht. apply Hty; [done|]. by apply lookup_sensor_at.
    + by apply Hty.
  - intros i s Hs Hs1. apply list_lookup_insert_Some in Hs as [(-> & <- & Hlt) | [Hne Hs]].
    + by apply He.
    + by eapply Hen.
  - intros s Hs. apply list_lookup_insert_Some in Hs as [(Heq & <- & Hlt) | [Hne Hs]].
    + by apply H0.
    + by apply Hnone.
  - intros i s Hs. apply list_lookup_insert_Some in Hs as [(-> & <- & Hlt) | [Hne Hs]].
    + done.
    + by eapply Hname.
  - intros i s Hs. apply list_lookup_insert_Some in Hs as [(-> & <- & Hlt) | [Hne Hs]].
    + apply Hr. eapply Hring. by apply lookup_sensor_at.
    + by eapply Hring.
Qed.

Lemma wf_sensor_at_type st t :
  wf (g_sensor_manager st) -> is_initialized (g_sensor_manager st) = true ->
  (t < SENSOR_TYPE_MAX)%nat -> type (sensor_at t st) = t.
Proof.
  intros Hwf Hi Ht. eapply wf_type; [done | done |].
  apply lookup_sensor_at. by rewrite (wf_sensors _ Hwf).
Qed.

Lemma wf_sensor_at_enabled st t :
  wf (g_sensor_manager st) -> is_enabled (sensor_at t st) = true ->
  is_initialized (g_sensor_manager st) = true /\ (1 <= t < SENSOR_TYPE_MAX)%nat.
Proof.
  intros Hwf He.
  destruct (decide (t < SENSOR_TYPE_MAX)%nat) as [Hlt | Hge].
  - destruct (wf_enabled _ Hwf t (sensor_at t st)) as [? ?]; try done.
    apply lookup_sensor_at. by rewrite (wf_sensors _ Hwf).
  - rewrite sensor_at_out_of_range in He; [done |]. rewrite (wf_sensors _ Hwf). lia.
Qed.

Lemma wf_sensor_at_ring st t : wf (g_sensor_manager st) -> ring_ok (sensor_at t st).
Proof.
  intros Hwf. destruct (decide (t < SENSOR_TYPE_MAX)%nat) as [Hlt | Hge].
  - eapply wf_ring; [done |]. apply lookup_sensor_at. by rewrite (wf_sensors _ Hwf).
  - rewrite sensor_at_out_of_range; [apply ring_ok_zero |]. rewrite (wf_sensors _ Hwf). lia.
Qed.

Lemma wf_sensor_at_name st t :
  wf (g_sensor_manager st) -> length (name (sensor_at t st)) = SENSOR_MAX_NAME_LEN.
Proof.
  intros Hwf. destruct (decide (t < SENSOR_TYPE_MAX)%nat) as [Hlt | Hge].
  - eapply wf_name; [done |]. apply lookup_sensor_at. by rewrite (wf_sensors _ Hwf).
  - rewrite sensor_at_out_of_range; [done |]. rewrite (wf_sensors _ Hwf). lia.
Qed.

Lemma wf_sensor_at_none st :
  wf (g_sensor_manager st) -> status (sensor_at 0 st) = SENSOR_STATUS_OFFLINE.
Proof.
  intros Hwf. eapply wf_none; [done |]. apply lookup_sensor_at.
  rewrite (wf_sensors _ Hwf). unfold SENSOR_TYPE_MAX. lia.
Qed.

Lemma wf_upd_manager_count st v :
  wf (g_sensor_manager st) ->
  wf (g_sensor_manager (upd_manager (set_active_sensor_count v) st)).
Proof. intros [? ? ? ? ? ? ?]. split; rsimpl; done. Qed.

Lemma wf_notify et t d s st :
  wf (g_sensor_manager st) -> wf (g_sensor_manager (SensorTask_NotifyEvent et t d s st)).
Proof. unfold SensorTask_NotifyEvent. by destruct (g_event_callback st). Qed.

Lemma invalid_type_false t st :
  invalid_type t st = false <->
  is_initialized (g_sensor_manager st) = true /\ (1 <= t < SENSOR_TYPE_MAX)%nat.
Proof.
  unfold invalid_type, SENSOR_TYPE_NONE.
  destruct (is_initialized _); cbn [negb orb]; [| split; [done | by intros [? _]]].
  rewrite orb_false_iff, Nat.leb_gt, Nat.eqb_neq. split.
  - intros [? ?]. split; [done | lia].
  - intros [_ ?]. lia.
Qed.

Lemma wf_upd_callbacks st t c :
  wf (g_sensor_manager st) ->
  wf (g_sensor_manager (upd_manager (fun m => set_callbacks (<[t := c]> (callbacks m)) m) st)).
Proof. intros [? ? ? ? ? ? ?]. split; rsimpl; try done. by rewrite length_insert. Qed.

Lemma length_arr_set a i v : length (arr_set a i v) = length a.
Proof. unfold arr_set. destruct (i <? 0); [done | by rewrite length_insert]. Qed.

Lemma length_strncpy dst src n : (n <= length dst)%nat -> length (strncpy dst src n) = length dst.
Proof.
  intros Hn. unfold strncpy. rewrite length_take, !length_app, length_replicate, length_drop.
  lia.
Qed.

Lemma length_snprintf dst size text :
  (1 <= size <= length dst)%nat -> length (snprintf dst size text) = length dst.
Proof.
  intros Hn. unfold snprintf. rewrite length_take, length_app. cbn [length].
  rewrite length_drop. rewrite length_take. lia.
Qed.

(** *** The analytics keep the ring well formed *)

Lemma c_rem_small a : 0 <= a < SENSOR_HISTORY_SIZE -> c_rem a SENSOR_HISTORY_SIZE = a.
Proof. intros. unfold c_rem. by apply Z.rem_small. Qed.

Lemma c_rem_next a :
  0 <= a < SENSOR_HISTORY_SIZE ->
  c_rem (a + 1) SENSOR_HISTORY_SIZE = if a + 1 <? SENSOR_HISTORY_SIZE then a + 1 else 0.
Proof.
  intros Ha. unfold c_rem, SENSOR_HISTORY_SIZE in *.
  destruct (Z.ltb_spec (a + 1) 20).
  - apply Z.rem_small. lia.
  - assert (a = 19) as -> by lia. reflexivity.
Qed.

Lemma store_sample_fields pv sv s :
  let s' := store_sample pv sv s in
  type s' = type s /\ name s' = name s /\ status s' = status s /\ data s' = data s
  /\ update_interval_ms s' = update_interval_ms s
  /\ last_update_time s' = last_update_time s /\ error_count s' = error_count s
  /\ is_enabled s' = is_enabled s /\ device_handle s' = device_handle s
  /\ stats s' = stats s /\ secondary_stats s' = secondary_stats s
  /\ history s' = arr_set (history s) (history_head s) pv
  /\ secondary_history s' =
       (if is_sht30 s then arr_set (secondary_history s) (history_head s) sv
        else secondary_history s)
  /\ history_head s' = c_rem (history_head s + 1) SENSOR_HISTORY_SIZE
  /\ history_count s' =
       (if history_count s <? SENSOR_HISTORY_SIZE then history_count s + 1
        else history_count s).
Proof.
  unfold store_sample, is_sht30. rsimpl.
  destruct (type s =? SENSOR_TYPE_SHT30)%nat; rsimpl;
    destruct (history_count s <? SENSOR_HISTORY_SIZE); rsimpl; repeat split.
Qed.

Lemma ring_ok_store_sample pv sv s : ring_ok s -> ring_ok (store_sample pv sv s).
Proof.
  intros [Hh Hs Hhead Hcount Hfill].
  destruct (store_sample_fields pv sv s)
    as (_ & _ & _ & _ & _ & _ & _ & _ & _ & _ & _ & Eh & Es & Ehead & Ecount).
  split.
  - rewrite Eh. by rewrite length_arr_set.
  - rewrite Es. destruct (is_sht30 s); [by rewrite length_arr_set | done].
  - rewrite Ehead, c_rem_next by done.
    destruct (Z.ltb_spec (history_head s + 1) SENSOR_HISTORY_SIZE);
      unfold SENSOR_HISTORY_SIZE in *; lia.
  - rewrite Ecount. destruct (Z.ltb_spec (history_count s) SENSOR_HISTORY_SIZE); lia.
  - rewrite Ecount, Ehead, c_rem_next by done.
    destruct (Z.ltb_spec (history_count s) SENSOR_HISTORY_SIZE) as [Hlt | Hge].
    + intros Hlt'. rewrite (Hfill Hlt). destruct (Z.ltb_spec (history_count s + 1) SENSOR_HISTORY_SIZE); lia.
    + intros. lia.
Qed.

Lemma update_stats_fields pv sv s :
  let s' := update_stats pv sv s in
  type s' = type s /\ name s' = name s /\ status s' = status s /\ data s' = data s
  /\ update_interval_ms s' = update_interval_ms s
  /\ last_update_time s' = last_update_time s /\ error_count s' = error_count s
  /\ is_enabled s' = is_enabled s /\ device_handle s' = device_handle s
  /\ history s' = history s /\ secondary_history s' = secondary_history s
  /\ history_head s' = history_head s /\ history_count s' = history_count s.
Proof.
  unfold update_stats, is_sht30. rsimpl.
  destruct (history_count s =? 1); rsimpl;
    destruct (type s =? SENSOR_TYPE_SHT30)%nat eqn:E; rsimpl; rewrite ?E; rsimpl;
    repeat split.
Qed.

Lemma record_sample_fields tick s :
  let s' := record_sample tick s in
  type s' = type s /\ name s' = name s /\ status s' = status s
  /\ update_interval_ms s' = update_interval_ms s
  /\ last_update_time s' = last_update_time s /\ error_count s' = 0
  /\ is_enabled s' = is_enabled s /\ device_handle s' = device_handle s
  /\ data s' = {| values := values (data s); timestamp := tick; is_valid := true |}.
Proof.
  unfold record_sample. cbn zeta.
  match goal with |- context [update_stats ?pv ?sv (store_sample ?pv ?sv ?s1)] =>
    destruct (update_stats_fields pv sv (store_sample pv sv s1))
      as (-> & -> & -> & -> & -> & -> & -> & -> & -> & _);
    destruct (store_sample_fields pv sv s1)
      as (-> & -> & -> & -> & -> & -> & -> & -> & -> & _)
  end.
  rsimpl. repeat split.
Qed.

Lemma ring_ok_record_sample tick s : ring_ok s -> ring_ok (record_sample tick s).
Proof.
  intros Hr. unfold record_sample. cbn zeta.
  match goal with |- context [update_stats ?pv ?sv (store_sample ?pv ?sv ?s1)] =>
    assert (ring_ok (store_sample pv sv s1)) as [Hh Hs Hhead Hcount Hfill]
      by (apply ring_ok_store_sample; destruct Hr; split; rsimpl; done);
    destruct (update_stats_fields pv sv (store_sample pv sv s1))
      as (_ & _ & _ & _ & _ & _ & _ & _ & _ & E1 & E2 & E3 & E4)
  end.
  split; rewrite ?E1, ?E2, ?E3, ?E4; done.
Qed.

Lemma ring_ok_adapter_read rd s : ring_ok s -> ring_ok (adapter_read rd s).
Proof. intros [? ? ? ? ?]. split; done. Qed.

(** *** Every operation keeps the state well formed *)

Lemma manager_notify et t d s st :
  g_sensor_manager (SensorTask_NotifyEvent et t d s st) = g_sensor_manager st.
Proof. unfold SensorTask_NotifyEvent. by destruct (g_event_callback st). Qed.

Lemma sensor_at_notify j et t d s st :
  sensor_at j (SensorTask_NotifyEvent et t d s st) = sensor_at j st.
Proof. unfold sensor_at. by rewrite manager_notify. Qed.

Lemma callbacks_at_notify j et t d s st :
  callbacks_at j (SensorTask_NotifyEvent et t d s st) = callbacks_at j st.
Proof. unfold callbacks_at. by rewrite manager_notify. Qed.

Lemma wf_Init mc tc st :
  wf (g_sensor_manager st) -> wf (g_sensor_manager (SensorTask_Init mc tc st).2).
Proof.
  intros Hwf. unfold SensorTask_Init.
  destruct (is_initialized (g_sensor_manager st)); [done |].
  destruct mc; cbn [negb].
  - destruct tc; cbn [negb snd]; rsimpl.
    + split; rsimpl; try done.
      * intros _ i s Hs. destruct i as [|[|[|[|i]]]]; cbn in Hs; by simplify_eq.
      * intros i s Hs. destruct i as [|[|[|[|i]]]]; cbn in Hs; by simplify_eq.
      * intros s Hs. cbn in Hs. by simplify_eq.
      * intros i s Hs. destruct i as [|[|[|[|i]]]]; cbn in Hs; by simplify_eq.
      * intros i s Hs.
        destruct i as [|[|[|[|i]]]]; cbn in Hs; simplify_eq; split; rsimpl; done.
    + split; rsimpl; try done.
      * intros i s Hs. destruct i as [|[|[|[|i]]]]; cbn in Hs; by simplify_eq.
      * intros s Hs. cbn in Hs. by simplify_eq.
      * intros i s Hs. destruct i as [|[|[|[|i]]]]; cbn in Hs; by simplify_eq.
      * intros i s Hs.
        destruct i as [|[|[|[|i]]]]; cbn in Hs; simplify_eq; split; rsimpl; done.
  - cbn [snd]. rsimpl. apply wf_boot.
Qed.

Lemma wf_EnableSensor t st :
  wf (g_sensor_manager st) -> wf (g_sensor_manager (SensorTask_EnableSensor t st).2).
Proof.
  intros Hwf. unfold SensorTask_EnableSensor.
  destruct (invalid_type t st) eqn:Hv; [done |].
  apply invalid_type_false in Hv as [Hi Ht].
  destruct (is_enabled (sensor_at t st)); cbn [negb snd]; [done |].
  apply wf_notify, wf_upd_manager_count, wf_upd_sensor; rsimpl; try done.
  - by apply wf_sensor_at_name.
  - by intros [? ? ? ? ?].
  - intros _. split; [done | lia].
  - lia.
Qed.

Lemma wf_DisableSensor t st :
  wf (g_sensor_manager st) -> wf (g_sensor_manager (SensorTask_DisableSensor t st).2).
Proof.
  intros Hwf. unfold SensorTask_DisableSensor.
  destruct (invalid_type t st) eqn:Hv; [done |].
  apply invalid_type_false in Hv as [Hi Ht].
  destruct (is_enabled (sensor_at t st)); cbn [negb snd]; [| done].
  apply wf_notify, wf_upd_manager_count.
  assert (forall st1, g_sensor_manager st1 = g_sensor_manager st ->
            wf (g_sensor_manager (upd_sensor t (fun s =>
              set_status SENSOR_STATUS_OFFLINE (set_is_enabled false s)) st1))) as Hgen.
  { intros st1 E. apply wf_upd_sensor; rsimpl; try done.
    - by rewrite E.
    - apply wf_sensor_at_name. by rewrite E.
    - by intros [? ? ? ? ?]. }
  destruct (deinit_func (callbacks_at t st)); by apply Hgen.
Qed.

Lemma wf_RegisterSensor t nm cbs h ms st :
  wf (g_sensor_manager st) ->
  wf (g_sensor_manager (SensorTask_RegisterSensor t nm cbs h ms st).2).
Proof.
  intros Hwf. unfold SensorTask_RegisterSensor.
  destruct cbs as [c |]; [| done].
  destruct (invalid_type t st) eqn:Hv; [done |].
  apply invalid_type_false in Hv as [Hi Ht].
  destruct (init_func c); [| done]. destruct (read_func c); [| done].
  cbn [snd]. apply wf_EnableSensor, wf_upd_callbacks, wf_upd_sensor; rsimpl; try done.
  - rewrite length_insert, length_strncpy; rewrite wf_sensor_at_name by done;
      unfold SENSOR_MAX_NAME_LEN; [done | lia].
  - by intros [? ? ? ? ?].
  - lia.
Qed.

Lemma wf_SetUpdateInterval t ms st :
  wf (g_sensor_manager st) ->
  wf (g_sensor_manager (SensorTask_SetUpdateInterval t ms st).2).
Proof.
  intros Hwf. unfold SensorTask_SetUpdateInterval.
  destruct (invalid_type t st) eqn:Hv; [done |].
  apply invalid_type_false in Hv as [Hi Ht].
  destruct (ms <? 100); cbn [orb snd]; [done |].
  apply wf_upd_sensor; rsimpl; try done.
  - by apply wf_sensor_at_name.
  - by intros [? ? ? ? ?].
  - intros He. by apply wf_sensor_at_enabled in He as [? [? ?]].
  - intros ->. by apply wf_sensor_at_none.
Qed.

Lemma manager_GetPrimaryHistory t lock st :
  g_sensor_manager (SensorTask_GetPrimaryHistory t lock st).2 = g_sensor_manager st.
Proof.
  unfold SensorTask_GetPrimaryHistory.
  repeat (match goal with |- context [if ?b then _ else _] => destruct b end); done.
Qed.

Lemma manager_GetSecondaryHistory t lock st :
  g_sensor_manager (SensorTask_GetSecondaryHistory t lock st).2 = g_sensor_manager st.
Proof.
  unfold SensorTask_GetSecondaryHistory.
  repeat (match goal with |- context [if ?b then _ else _] => destruct b end); done.
Qed.

Lemma manager_InitializeSensor i r st :
  g_sensor_manager (SensorTask_InitializeSensor i r st).2 = g_sensor_manager st.
Proof.
  unfold SensorTask_InitializeSensor.
  destruct (_ <=? _)%nat; [done |]. by destruct (init_func _).
Qed.

(** What a sample leaves of an instance outside the analytics. *)
Lemma wf_upd_sensor_frame t f st :
  wf (g_sensor_manager st) ->
  type (f (sensor_at t st)) = type (sensor_at t st) ->
  name (f (sensor_at t st)) = name (sensor_at t st) ->
  status (f (sensor_at t st)) = status (sensor_at t st) ->
  is_enabled (f (sensor_at t st)) = is_enabled (sensor_at t st) ->
  (ring_ok (sensor_at t st) -> ring_ok (f (sensor_at t st))) ->
  wf (g_sensor_manager (upd_sensor t f st)).
Proof.
  intros Hwf Ety Ename Est Een Hr. apply wf_upd_sensor; try done.
  - rewrite Ename. by apply wf_sensor_at_name.
  - rewrite Een. intros He. by apply wf_sensor_at_enabled in He as [? [? ?]].
  - intros ->. rewrite Est. by apply wf_sensor_at_none.
Qed.

Lemma wf_UpdateSensor i rd lock tick st :
  wf (g_sensor_manager st) ->
  wf (g_sensor_manager (SensorTask_UpdateSensor i rd lock tick st).2).
Proof.
  intros Hwf. unfold SensorTask_UpdateSensor.
  destruct (_ <=? _)%nat; [done |].
  destruct (read_func _) as [f |]; [| done].
  assert (wf (g_sensor_manager
            (upd_sensor i (adapter_read rd) (log_call SlotRead f (sensor_at i st) st))))
    as Hwf1 by (apply wf_upd_sensor_frame; try done; apply ring_ok_adapter_read).
  destruct (read_result rd); [| done]. destruct lock; [| done]. cbn [snd].
  match goal with |- context [record_sample tick] =>
    apply wf_upd_sensor_frame; try done
  end.
  all: match goal with |- context [record_sample ?tk ?s] =>
         destruct (record_sample_fields tk s) as (E1 & E2 & E3 & E4 & E5 & E6 & E7 & E8 & E9)
       end; try done.
  apply ring_ok_record_sample.
Qed.

Lemma wf_HandleSensorError i st :
  (1 <= i)%nat ->
  wf (g_sensor_manager st) -> wf (g_sensor_manager (SensorTask_HandleSensorError i st)).
Proof.
  intros Hi Hwf. unfold SensorTask_HandleSensorError.
  set (st1 := upd_sensor i _ st).
  assert (wf (g_sensor_manager st1)) as Hwf1.
  { apply wf_upd_sensor_frame; try done. by intros [? ? ? ? ?]. }
  set (st2 := if _ =? SOFT_THRESHOLD then _ else st1).
  assert (wf (g_sensor_manager st2)) as Hwf2.
  { subst st2. destruct (_ =? SOFT_THRESHOLD); [| done].
    apply wf_upd_sensor; rsimpl; try done.
    - by apply wf_sensor_at_name.
    - by intros [? ? ? ? ?].
    - intros He. by apply wf_sensor_at_enabled in He as [? [? ?]].
    - lia. }
  clearbody st2. clear st1 Hwf1.
  destruct (_ =? HARD_THRESHOLD); [| done].
  apply wf_notify.
  set (st3 := (SensorTask_DisableSensor _ st2).2).
  assert (wf (g_sensor_manager st3)) as Hwf3 by apply wf_DisableSensor, Hwf2.
  clearbody st3.
  apply wf_upd_sensor; rsimpl; try done.
  - by apply wf_sensor_at_name.
  - by intros [? ? ? ? ?].
  - intros He. by apply wf_sensor_at_enabled in He as [? [? ?]].
  - lia.
Qed.

Lemma wf_poll_sensor i o st :
  (1 <= i)%nat ->
  wf (g_sensor_manager st) -> wf (g_sensor_manager (poll_sensor i o st)).
Proof.
  intros Hi Hwf. unfold poll_sensor.
  destruct (_ <=? _); [| done].
  pose proof (wf_UpdateSensor i (read_outcome o) (read_lock o) (stamp_tick o) st Hwf) as H1.
  destruct (SensorTask_UpdateSensor _ _ _ _ st) as [ok st1]. cbn [snd] in H1.
  destruct ok.
  - apply wf_notify, wf_upd_sensor_frame; try done. by intros [? ? ? ? ?].
  - by apply wf_HandleSensorError.
Qed.

Lemma wf_MainLoop_visit i o st :
  (1 <= i)%nat ->
  wf (g_sensor_manager st) -> wf (g_sensor_manager (MainLoop_visit i o st)).
Proof.
  intros Hi Hwf. unfold MainLoop_visit.
  destruct (is_enabled (sensor_at i st)) eqn:Hen; cbn [negb]; [| done].
  destruct (SensorStatus_eqb _ _).
  - pose proof (manager_InitializeSensor i (init_result o) st) as H1.
    destruct (SensorTask_InitializeSensor _ _ st) as [ok st1]. cbn [snd] in H1.
    assert (wf (g_sensor_manager st1)) as Hwf1 by by rewrite H1.
    destruct ok; [| by apply wf_HandleSensorError].
    apply wf_poll_sensor, wf_notify; [done |].
    apply wf_upd_sensor; rsimpl; try done.
    + by apply wf_sensor_at_name.
    + by intros [? ? ? ? ?].
    + intros _. split; [| done]. rewrite H1.
      by apply wf_sensor_at_enabled in Hen as [? _].
    + lia.
  - by apply wf_poll_sensor.
Qed.

Lemma wf_run_call st c :
  wf (g_sensor_manager st) -> wf (g_sensor_manager (run_call st c)).
Proof.
  intros Hwf. destruct c; cbn [run_call].
  - by apply wf_Init.
  - by apply wf_RegisterSensor.
  - by apply wf_EnableSensor.
  - by apply wf_DisableSensor.
  - by apply wf_SetUpdateInterval.
  - done.
  - by rewrite manager_GetPrimaryHistory.
  - by rewrite manager_GetSecondaryHistory.
  - destruct (Nat.leb_spec 1 i); cbn [andb]; [| done].
    destruct (_ <? _)%nat; [| done]. by apply wf_MainLoop_visit.
Qed.

Lemma run_snoc calls c : run (calls ++ [c]) = run_call (run calls) c.
Proof. unfold run. by rewrite foldl_app. Qed.

Lemma wf_run calls : wf (g_sensor_manager (run calls)).
Proof.
  induction calls as [| c calls IH] using rev_ind.
  - apply wf_boot.
  - rewrite run_snoc. by apply wf_run_call.
Qed.

Lemma reachable_wf st : reachable st -> wf (g_sensor_manager st).
Proof. intros [calls ->]. apply wf_run. Qed.

Lemma reachable_step st c : reachable st -> reachable (run_call st c).
Proof. intros [calls ->]. exists (calls ++ [c]). by rewrite run_snoc. Qed.

(** ** Registration *)

Lemma analytics_upd_sensor j t f st :
  analytics (f (sensor_at t st)) = analytics (sensor_at t st) ->
  analytics (sensor_at j (upd_sensor t f st)) = analytics (sensor_at j st).
Proof.
  intros Hf. rewrite sensor_at_upd_sensor. destruct (decide _) as [[-> _] |]; done.
Qed.

Lemma analytics_EnableSensor j t st :
  analytics (sensor_at j (SensorTask_EnableSensor t st).2) = analytics (sensor_at j st).
Proof.
  unfold SensorTask_EnableSensor.
  destruct (invalid_type t st); [done |].
  destruct (is_enabled (sensor_at t st)); cbn [negb snd]; [done |].
  rewrite sensor_at_notify.
  change (sensor_at j (upd_manager ?f ?s)) with (sensor_at j s).
  by apply analytics_upd_sensor.
Qed.

(** C9: [SensorTask_RegisterSensor] leaves the analytics block of every slot
    as it was: the two history buffers, [history_head], [history_count],
    [stats] and [secondary_stats] are the same after the call as before,
    whatever the arguments and whether the call succeeds or not. *)
Theorem C9_register_keeps_analytics t nm cbs h ms st j :
  let st' := (SensorTask_RegisterSensor t nm cbs h ms st).2 in
  history (sensor_at j st') = history (sensor_at j st)
  /\ secondary_history (sensor_at j st') = secondary_history (sensor_at j st)
  /\ history_head (sensor_at j st') = history_head (sensor_at j st)
  /\ history_count (sensor_at j st') = history_count (sensor_at j st)
  /\ stats (sensor_at j st') = stats (sensor_at j st)
  /\ secondary_stats (sensor_at j st') = secondary_stats (sensor_at j st).
Proof.
  cbn zeta.
  assert (analytics (sensor_at j (SensorTask_RegisterSensor t nm cbs h ms st).2)
          = analytics (sensor_at j st)) as H.
  { unfold SensorTask_RegisterSensor.
    destruct cbs as [c |]; [| done].
    destruct (invalid_type t st); [done |].
    destruct (init_func c); [| done]. destruct (read_func c); [| done].
    cbn [snd]. rewrite analytics_EnableSensor.
    change (sensor_at j (upd_manager ?f ?s)) with (sensor_at j s).
    by apply analytics_upd_sensor. }
  unfold analytics in H. by simplify_eq.
Qed.

Lemma c_str_no_nul l : NUL ∉ c_str l.
Proof.
  induction l as [| c l IH]; cbn; [apply not_elem_of_nil |].
  destruct (Ascii.eqb_spec c NUL) as [-> | Hne]; [apply not_elem_of_nil |].
  apply not_elem_of_cons. split; [congruence | done].
Qed.

Lemma c_str_terminated s rest : NUL ∉ s -> c_str (s ++ NUL :: rest) = s.
Proof.
  induction s as [| c s IH]; intros Hs; cbn.
  - reflexivity.
  - apply not_elem_of_cons in Hs as [Hc Hs].
    destruct (Ascii.eqb_spec c NUL) as [-> | _]; [done |]. by rewrite IH.
Qed.

(** The name buffer after [strncpy] and the terminator written at its last
    index: the first 31 characters of the string, then NULs. *)
Lemma stored_name dst nm :
  length dst = SENSOR_MAX_NAME_LEN ->
  <[(SENSOR_MAX_NAME_LEN - 1)%nat := NUL]> (strncpy dst nm (SENSOR_MAX_NAME_LEN - 1))
  = take 31 (c_str nm) ++ replicate (32 - length (take 31 (c_str nm))) NUL.
Proof.
  unfold SENSOR_MAX_NAME_LEN, strncpy. intros Hlen. cbn [Nat.sub].
  set (s := take 31 (c_str nm)).
  assert (length s <= 31)%nat as Hs by (subst s; rewrite length_take; lia).
  assert (exists d, drop 31 dst = [d]) as [d Hd].
  { destruct (drop 31 dst) as [| d [| e r]] eqn:E;
      apply (f_equal length) in E; rewrite length_drop in E; cbn in E;
      [lia | by exists d | lia]. }
  rewrite Hd, Hlen. rewrite take_ge.
  2: { rewrite !length_app, length_replicate. cbn. lia. }
  rewrite insert_app_r_alt by lia.
  rewrite insert_app_r_alt by (rewrite length_replicate; lia).
  rewrite length_replicate.
  replace (31 - length s - (31 - length s))%nat with 0%nat by lia. cbn [list_insert insert].
  replace (32 - length s)%nat with (S (31 - length s)) by lia.
  by rewrite replicate_S_end.
Qed.

Lemma c_str_stored_name dst nm :
  length dst = SENSOR_MAX_NAME_LEN ->
  c_str (<[(SENSOR_MAX_NAME_LEN - 1)%nat := NUL]>
           (strncpy dst nm (SENSOR_MAX_NAME_LEN - 1)))
  = take (SENSOR_MAX_NAME_LEN - 1) (c_str nm).
Proof.
  intros Hlen. rewrite stored_name by done.
  assert (length (take 31 (c_str nm)) <= 31)%nat by (rewrite length_take; lia).
  replace (32 - length (take 31 (c_str nm)))%nat
    with (S (31 - length (take 31 (c_str nm)))) by lia.
  cbn [replicate]. apply c_str_terminated.
  intros Hin. apply elem_of_take in Hin as (i & Hin & _).
  apply list_elem_of_lookup_2 in Hin. by apply c_str_no_nul in Hin.
Qed.

Lemma length_sensors_upd_sensor t f st :
  length (sensors (g_sensor_manager (upd_sensor t f st)))
  = length (sensors (g_sensor_manager st)).
Proof. unfold upd_sensor. rsimpl. by rewrite length_insert. Qed.

Lemma registration_invalid_dec t cbs st :
  registration_invalid t cbs st \/
  exists c f g, cbs = Some c /\ init_func c = Some f /\ read_func c = Some g
                /\ invalid_type t st = false.
Proof.
  unfold registration_invalid.
  destruct cbs as [c |]; [| tauto].
  destruct (invalid_type t st) eqn:Hv.
  - left. unfold invalid_type, SENSOR_TYPE_NONE in *.
    destruct (is_initialized _); [| tauto]. cbn [negb orb] in Hv.
    apply orb_true_iff in Hv as [Hv | Hv].
    + apply Nat.leb_le in Hv. tauto.
    + apply Nat.eqb_eq in Hv. tauto.
  - destruct (init_func c) as [f |] eqn:Ef; [| left; right; right; right; right; eauto].
    destruct (read_func c) as [g |] eqn:Eg; [| left; right; right; right; right; eauto].
    right. by exists c, f, g.
Qed.

(** C7: [SensorTask_RegisterSensor] returns false and changes nothing (so
    neither the active-sensor count nor the instance table) when the
    registry is not initialised, the kind is the none sentinel or out of
    range, the callbacks pointer is NULL, or the init or the read callback
    is unset.  Otherwise it returns true, the slot holds the name cut to
    [SENSOR_MAX_NAME_LEN - 1] characters, the callbacks, the device handle
    and the interval, its error count is 0, it is enabled with status
    Initializing, a StatusChange(Initializing) event is handed to the
    registered callback, and the active-sensor count is one more. *)
Theorem C7_register_sensor t nm cbs h ms st :
  reachable st ->
  let r := SensorTask_RegisterSensor t nm cbs h ms st in
  (registration_invalid t cbs st -> r = (false, st))
  /\ (~ registration_invalid t cbs st ->
      exists c, cbs = Some c
      /\ r.1 = true
      /\ c_str (name (sensor_at t r.2)) = take (SENSOR_MAX_NAME_LEN - 1) (c_str nm)
      /\ callbacks_at t r.2 = c
      /\ device_handle (sensor_at t r.2) = h
      /\ update_interval_ms (sensor_at t r.2) = ms
      /\ error_count (sensor_at t r.2) = 0
      /\ is_enabled (sensor_at t r.2) = true
      /\ status (sensor_at t r.2) = SENSOR_STATUS_INITIALIZING
      /\ events r.2 = events st ++
           delivered st [status_change t SENSOR_STATUS_INITIALIZING]
      /\ active_sensor_count (g_sensor_manager r.2)
         = wrap32 (active_sensor_count (g_sensor_manager st) + 1)).
Proof.
  intros Hreach. apply reachable_wf in Hreach as Hwf. cbn zeta. split.
  - unfold registration_invalid, SensorTask_RegisterSensor.
    intros [Hi | [Hmax | [Hnone | [-> | (c & -> & Hcb)]]]].
    + destruct cbs; [| done]. unfold invalid_type. by rewrite Hi.
    + destruct cbs; [| done]. unfold invalid_type.
      apply Nat.leb_le in Hmax. rewrite Hmax. by rewrite orb_true_r.
    + destruct cbs; [| done]. unfold invalid_type. rewrite Hnone.
      by rewrite orb_true_r.
    + done.
    + destruct (invalid_type t st); [done |].
      destruct Hcb as [-> | Hr]; [done |]. rewrite Hr. by destruct (init_func c).
  - intros Hvalid.
    destruct (registration_invalid_dec t cbs st) as [? | (c & f & g & -> & Ef & Eg & Hv)];
      [done |].
    exists c. split; [done |].
    unfold SensorTask_RegisterSensor. rewrite Hv, Ef, Eg. cbn [fst snd].
    apply invalid_type_false in Hv as Hv'. destruct Hv' as [Hi Ht].
    set (st1 := upd_sensor t _ st).
    set (st2 := upd_manager _ st1).
    assert (length (sensors (g_sensor_manager st)) = SENSOR_TYPE_MAX) as Hlen
      by apply Hwf.
    assert (sensor_at t st2 =
            set_is_enabled false (set_error_count 0 (set_update_interval_ms ms
              (set_device_handle h (set_name
                 (<[(SENSOR_MAX_NAME_LEN - 1)%nat := NUL]>
                    (strncpy (name (sensor_at t st)) nm (SENSOR_MAX_NAME_LEN - 1)))
                 (sensor_at t st)))))) as Hs2.
    { change (sensor_at t st2) with (sensor_at t st1). subst st1.
      rewrite sensor_at_upd_same; [done | lia]. }
    assert (invalid_type t st2 = false) as Hv2 by done.
    unfold SensorTask_EnableSensor. rewrite Hv2, Hs2. rsimpl. cbn [negb snd].
    rewrite sensor_at_notify, callbacks_at_notify.
    change (sensor_at t (upd_manager ?f ?s)) with (sensor_at t s).
    rewrite sensor_at_upd_same
      by (subst st2 st1; rsimpl; rewrite length_sensors_upd_sensor; lia).
    rewrite Hs2. rsimpl.
    split; [done |]. split.
    { apply c_str_stored_name. by apply wf_sensor_at_name. }
    split.
    { subst st2 st1. unfold callbacks_at, upd_sensor. rsimpl.
      rewrite list_lookup_insert_eq; [done |]. rewrite (wf_callbacks _ Hwf). lia. }
    repeat (split; [done |]).
    subst st2 st1. unfold SensorTask_NotifyEvent, delivered, upd_sensor. rsimpl.
    destruct (g_event_callback st); rsimpl; split; try reflexivity.
    by rewrite app_nil_r.
Qed.

(** ** Enabling and disabling *)

Lemma events_notify et t d s st :
  events (SensorTask_NotifyEvent et t d s st)
  = events st ++ delivered st
      [{| event_type := et; sensor_type := t; event_data := default zero_data d;
          event_status := s |}].
Proof.
  unfold SensorTask_NotifyEvent, delivered.
  destruct (g_event_callback st); [done | by rewrite app_nil_r].
Qed.

Lemma adapter_calls_notify et t d s st :
  adapter_calls (SensorTask_NotifyEvent et t d s st) = adapter_calls st.
Proof. unfold SensorTask_NotifyEvent. by destruct (g_event_callback st). Qed.

Lemma event_callback_notify et t d s st :
  g_event_callback (SensorTask_NotifyEvent et t d s st) = g_event_callback st.
Proof. unfold SensorTask_NotifyEvent. by destruct (g_event_callback st) eqn:E. Qed.

Lemma sensor_at_log_call j slot fn arg st :
  sensor_at j (log_call slot fn arg st) = sensor_at j st.
Proof. reflexivity. Qed.

Lemma DisableSensor_enabled t st :
  invalid_type t st = false -> is_enabled (sensor_at t st) = true ->
  let r := SensorTask_DisableSensor t st in
  r.1 = true
  /\ sensor_at t r.2
     = set_status SENSOR_STATUS_OFFLINE (set_is_enabled false (sensor_at t st))
  /\ (forall j, j <> t -> sensor_at j r.2 = sensor_at j st)
  /\ adapter_calls r.2 = adapter_calls st ++ deinit_call_of t st
  /\ events r.2 = events st ++ delivered st [status_change t SENSOR_STATUS_OFFLINE]
  /\ active_sensor_count (g_sensor_manager r.2)
     = wrap32 (active_sensor_count (g_sensor_manager st) - 1)
  /\ callbacks (g_sensor_manager r.2) = callbacks (g_sensor_manager st)
  /\ is_initialized (g_sensor_manager r.2) = is_initialized (g_sensor_manager st)
  /\ g_event_callback r.2 = g_event_callback st
  /\ length (sensors (g_sensor_manager r.2)) = length (sensors (g_sensor_manager st)).
Proof.
  intros Hv He. cbn zeta. unfold SensorTask_DisableSensor. rewrite Hv, He.
  cbn [fst snd]. split; [done |].
  rewrite manager_notify. split; [| split].
  - rewrite sensor_at_notify. change (sensor_at t (upd_manager ?f ?s)) with (sensor_at t s).
    destruct (deinit_func _); rewrite sensor_at_upd_sensor;
      (rewrite decide_True; [done | split; [done |]]).
    + change (g_sensor_manager (log_call ?a ?b ?c st)) with (g_sensor_manager st).
      destruct (decide (t < length (sensors (g_sensor_manager st)))%nat); [done |].
      rewrite sensor_at_out_of_range in He; [done | lia].
    + destruct (decide (t < length (sensors (g_sensor_manager st)))%nat); [done |].
      rewrite sensor_at_out_of_range in He; [done | lia].
  - intros j Hj. rewrite sensor_at_notify.
    change (sensor_at j (upd_manager ?f ?s)) with (sensor_at j s).
    rewrite sensor_at_upd_other by done. by destruct (deinit_func _).
  - rewrite events_notify, adapter_calls_notify, event_callback_notify.
    unfold deinit_call_of, delivered, upd_sensor.
    destruct (deinit_func _); rsimpl;
      rewrite ?app_nil_r, ?length_insert; repeat split; reflexivity.
Qed.

Lemma DisableSensor_disabled t st :
  is_enabled (sensor_at t st) = false ->
  SensorTask_DisableSensor t st = (negb (invalid_type t st), st).
Proof.
  intros He. unfold SensorTask_DisableSensor. rewrite He. by destruct (invalid_type t st).
Qed.

(** C8 (as amended): once the registry is initialised, [SensorTask_DisableSensor]
    returns true for every valid kind.  When the instance is enabled, the
    deinit callback (if present) is called on the instance as it still is,
    after which the instance is disabled with status Offline, the count is
    decremented and StatusChange(Offline) is delivered.  When the instance is
    not enabled the call changes nothing: an instance left in Error by the
    hard threshold stays in Error. *)
Theorem C8_disable_sensor t st :
  reachable st -> is_initialized (g_sensor_manager st) = true ->
  (1 <= t < SENSOR_TYPE_MAX)%nat ->
  let r := SensorTask_DisableSensor t st in
  r.1 = true
  /\ (is_enabled (sensor_at t st) = true ->
        status (sensor_at t r.2) = SENSOR_STATUS_OFFLINE
        /\ is_enabled (sensor_at t r.2) = false
        /\ adapter_calls r.2 = adapter_calls st ++ deinit_call_of t st
        /\ events r.2 = events st ++ delivered st [status_change t SENSOR_STATUS_OFFLINE]
        /\ active_sensor_count (g_sensor_manager r.2)
           = wrap32 (active_sensor_count (g_sensor_manager st) - 1))
  /\ (is_enabled (sensor_at t st) = false -> r.2 = st).
Proof.
  intros Hreach Hi Ht. cbn zeta.
  assert (invalid_type t st = false) as Hv by by apply invalid_type_false.
  destruct (is_enabled (sensor_at t st)) eqn:He.
  - destruct (DisableSensor_enabled t st Hv He)
      as (Hr & Hs & _ & Hcalls & Hev & Hact & _).
    split; [done |]. split; [| done]. intros _. rewrite Hs. rsimpl. done.
  - rewrite DisableSensor_disabled, Hv by done. cbn. done.
Qed.

Lemma reachable_failed_inits n : reachable (run (failed_inits n)).
Proof. by exists (failed_inits n). Qed.

Lemma C8_disable_sensor_witness :
  let st := run (failed_inits 3) in
  reachable st /\ is_initialized (g_sensor_manager st) = true
  /\ (SensorTask_DisableSensor SENSOR_TYPE_GY30 st).1 = true.
Proof.
  cbn zeta. split; [apply reachable_failed_inits |]. split; [vm_compute; reflexivity |].
  apply (C8_disable_sensor SENSOR_TYPE_GY30 (run (failed_inits 3))).
  - apply reachable_failed_inits.
  - vm_compute; reflexivity.
  - unfold SENSOR_TYPE_GY30, SENSOR_TYPE_MAX. lia.
Defined.

(** C8 (as stated) fails: after ten failed initialisations the GY30 instance
    is disabled with status Error; [SensorTask_DisableSensor] then returns
    true and the status is still Error, not Offline. *)
Lemma C8_disable_from_error_counterexample : ~ disable_forces_offline.
Proof.
  intros H.
  destruct (H (run (failed_inits 10)) SENSOR_TYPE_GY30) as [_ Hst].
  - apply reachable_failed_inits.
  - vm_compute; reflexivity.
  - unfold SENSOR_TYPE_GY30, SENSOR_TYPE_MAX. lia.
  - vm_compute in Hst. discriminate Hst.
Qed.

(** ** The none sentinel *)

(** C10: once the registry is initialised, [SensorTask_GetSensorStatus]
    accepts [SENSOR_TYPE_NONE]: with an output pointer and the lock it
    returns true and writes the status of slot 0, which is Offline; while
    [SensorTask_GetSensorData], [SensorTask_EnableSensor],
    [SensorTask_DisableSensor] and [SensorTask_SetUpdateInterval] return
    false for [SENSOR_TYPE_NONE] and change nothing. *)
Theorem C10_none_sentinel st :
  reachable st -> is_initialized (g_sensor_manager st) = true ->
  SensorTask_GetSensorStatus SENSOR_TYPE_NONE true true st = Some SENSOR_STATUS_OFFLINE
  /\ (forall out lock, SensorTask_GetSensorData SENSOR_TYPE_NONE out lock st = None)
  /\ SensorTask_EnableSensor SENSOR_TYPE_NONE st = (false, st)
  /\ SensorTask_DisableSensor SENSOR_TYPE_NONE st = (false, st)
  /\ (forall ms, SensorTask_SetUpdateInterval SENSOR_TYPE_NONE ms st = (false, st)).
Proof.
  intros Hreach Hi. apply reachable_wf in Hreach as Hwf.
  assert (invalid_type SENSOR_TYPE_NONE st = true) as Hv
    by (unfold invalid_type; by rewrite orb_true_r).
  repeat split.
  - unfold SensorTask_GetSensorStatus. rewrite Hi. cbn.
    f_equal. by apply wf_sensor_at_none.
  - intros out lock. unfold SensorTask_GetSensorData. by rewrite Hv.
  - unfold SensorTask_EnableSensor. by rewrite Hv.
  - unfold SensorTask_DisableSensor. by rewrite Hv.
  - intros ms. unfold SensorTask_SetUpdateInterval. by rewrite Hv.
Qed.

Lemma C10_none_sentinel_witness :
  let st := run (failed_inits 10) in
  reachable st /\ is_initialized (g_sensor_manager st) = true
  /\ SensorTask_GetSensorStatus SENSOR_TYPE_NONE true true st = Some SENSOR_STATUS_OFFLINE.
Proof.
  cbn zeta. split; [apply reachable_failed_inits |]. split; [vm_compute; reflexivity |].
  apply (C10_none_sentinel (run (failed_inits 10))).
  - apply reachable_failed_inits.
  - vm_compute; reflexivity.
Defined.

(** ** Fault handling and escalation *)

Lemma EnableSensor_disabled t st :
  invalid_type t st = false -> is_enabled (sensor_at t st) = false ->
  (t < length (sensors (g_sensor_manager st)))%nat ->
  let r := SensorTask_EnableSensor t st in
  r.1 = true
  /\ sensor_at t r.2
     = set_error_count 0
         (set_status SENSOR_STATUS_INITIALIZING (set_is_enabled true (sensor_at t st))).
Proof.
  intros Hv He Hlt. cbn zeta. unfold SensorTask_EnableSensor. rewrite Hv, He.
  cbn [negb fst snd]. split; [done |].
  rewrite sensor_at_notify. change (sensor_at t (upd_manager ?f ?s)) with (sensor_at t s).
  by rewrite sensor_at_upd_same.
Qed.

Lemma same_standing_refl i st : same_standing i st st.
Proof. repeat split. exists []. by rewrite app_nil_r. Qed.

Lemma escalation_transfer i st0 st st' :
  same_standing i st0 st -> escalation i st st' -> escalation i st0 st'.
Proof.
  intros (Hec & Hcb & Hdc & Hact & Hcbk & pre & Hev) (Hn & Hsoft & Hhard).
  unfold escalation in *. cbn zeta in *. rewrite <- Hec.
  split; [done |]. split.
  - intros Hs. destruct (Hsoft Hs) as (? & ? & ? & ?). repeat split; congruence.
  - intros Hh. destruct (Hhard Hh) as (? & ? & Hd & ? & (pre' & Hev') & ?).
    split; [done |]. split; [done |]. split.
    { unfold deinit_ran in *. rewrite <- Hcb, <- Hdc. done. }
    split; [congruence |]. split; [| done].
    exists (pre ++ pre'). rewrite Hev', Hev. unfold delivered. rewrite Hcbk.
    by rewrite <- !app_assoc.
Qed.

Lemma HandleSensorError_escalation i st :
  wf (g_sensor_manager st) -> is_enabled (sensor_at i st) = true ->
  escalation i st (SensorTask_HandleSensorError i st).
Proof.
  intros Hwf He.
  destruct (wf_sensor_at_enabled _ _ Hwf He) as [Hi Ht].
  assert (length (sensors (g_sensor_manager st)) = SENSOR_TYPE_MAX) as Hlen by apply Hwf.
  assert (type (sensor_at i st) = i) as Hty by (apply wf_sensor_at_type; [done | done | lia]).
  unfold escalation, SensorTask_HandleSensorError. cbn zeta.
  set (n := wrap32 (error_count (sensor_at i st) + 1)).
  set (st1 := upd_sensor i _ st).
  assert (sensor_at i st1 = set_error_count n (sensor_at i st)) as Hs1
    by (subst st1; rewrite sensor_at_upd_same; [done | lia]).
  rewrite Hs1. rsimpl.
  destruct (Z.eqb_spec n SOFT_THRESHOLD) as [Hsoft | Hnsoft].
  - assert ((n =? HARD_THRESHOLD) = false) as Hnh by (rewrite Hsoft; reflexivity).
    rewrite sensor_at_upd_same by (subst st1; rewrite length_sensors_upd_sensor; lia).
    rewrite Hs1. rsimpl. rewrite Hnh.
    rewrite sensor_at_upd_same by (subst st1; rewrite length_sensors_upd_sensor; lia).
    rewrite Hs1. rsimpl.
    split; [done |]. split; [| intros Hh; rewrite Hh in Hnh; done].
    intros _. repeat split; done.
  - rewrite Hs1. rsimpl.
    destruct (Z.eqb_spec n HARD_THRESHOLD) as [Hhard | Hnhard].
    2: { rewrite Hs1. rsimpl. split; [done |]. split; intros; done. }
    rewrite Hty.
    assert (invalid_type i st1 = false) as Hv1 by (by apply invalid_type_false).
    assert (is_enabled (sensor_at i st1) = true) as He1 by (by rewrite Hs1).
    destruct (DisableSensor_enabled i st1 Hv1 He1)
      as (_ & Hs3 & _ & Hcalls & Hev & Hact & Hcbs & Hinit & Hcbk & Hlen3).
    set (st3 := (SensorTask_DisableSensor i st1).2) in *.
    assert (length (sensors (g_sensor_manager st3)) = SENSOR_TYPE_MAX) as Hlen3'
      by (rewrite Hlen3; subst st1; rewrite length_sensors_upd_sensor; done).
    rewrite sensor_at_upd_same by lia.
    rewrite !sensor_at_notify.
    rewrite sensor_at_upd_same by lia.
    rewrite Hs3, Hs1. rsimpl. rewrite Hty.
    set (st5 := SensorTask_NotifyEvent _ _ _ _ _).
    assert (sensor_at i st5 =
            set_status SENSOR_STATUS_ERROR
              (set_status SENSOR_STATUS_OFFLINE
                 (set_is_enabled false (set_error_count n (sensor_at i st))))) as Hs5.
    { subst st5. rewrite sensor_at_notify, sensor_at_upd_same by lia.
      by rewrite Hs3, Hs1. }
    split; [done |]. split; [intros; done |]. intros _.
    split; [done |]. split; [done |]. split.
    { unfold deinit_ran, deinit_calls. subst st5.
      rewrite adapter_calls_notify.
      change (adapter_calls (upd_sensor ?a ?b st3)) with (adapter_calls st3).
      rewrite Hcalls. unfold deinit_call_of.
      change (callbacks_at i st1) with (callbacks_at i st).
      change (adapter_calls st1) with (adapter_calls st).
      destruct (deinit_func (callbacks_at i st)) as [f |].
      - exists (sensor_at i st1). rewrite filter_app. split; [done |].
        rewrite Hs1. rsimpl. done.
      - by rewrite app_nil_r. }
    split.
    { subst st5. rewrite manager_notify.
      change (active_sensor_count (g_sensor_manager (upd_sensor ?a ?b st3)))
        with (active_sensor_count (g_sensor_manager st3)).
      by rewrite Hact. }
    split.
    { exists []. subst st5. rewrite events_notify.
      change (events (upd_sensor ?a ?b st3)) with (events st3).
      change (delivered (upd_sensor ?a ?b st3)) with (delivered st3).
      rewrite Hev. unfold delivered. rewrite Hcbk.
      change (g_event_callback st1) with (g_event_callback st).
      change (events st1) with (events st).
      destruct (g_event_callback st); cbn; rewrite <- ?app_assoc; done. }
    assert (invalid_type i st5 = false) as Hv5.
    { apply invalid_type_false. split; [| done]. subst st5.
      rewrite manager_notify.
      change (is_initialized (g_sensor_manager (upd_sensor ?a ?b st3)))
        with (is_initialized (g_sensor_manager st3)).
      by rewrite Hinit. }
    assert (length (sensors (g_sensor_manager st5)) = SENSOR_TYPE_MAX) as Hlen5
      by (subst st5; rewrite manager_notify, length_sensors_upd_sensor; done).
    destruct (EnableSensor_disabled i st5 Hv5) as [Hr Hs6].
    { by rewrite Hs5. }
    { lia. }
    split; [done |]. rewrite Hs6. done.
Qed.

Lemma deinit_calls_log_call slot fn arg st :
  slot <> SlotDeinit ->
  deinit_calls (log_call slot fn arg st) = deinit_calls st.
Proof.
  intros Hs. unfold deinit_calls, log_call. rsimpl. rewrite filter_app.
  rewrite filter_cons_False, filter_nil, app_nil_r; [done |].
  unfold is_deinit_call. cbn. by destruct slot.
Qed.

Lemma InitializeSensor_standing i r st :
  let st1 := (SensorTask_InitializeSensor i r st).2 in
  g_sensor_manager st1 = g_sensor_manager st
  /\ deinit_calls st1 = deinit_calls st
  /\ g_event_callback st1 = g_event_callback st
  /\ events st1 = events st.
Proof.
  cbn zeta. unfold SensorTask_InitializeSensor.
  destruct (_ <=? _)%nat; [done |].
  destruct (init_func _); [| done]. cbn [snd].
  by rewrite deinit_calls_log_call.
Qed.

Lemma read_ok_eq i o st :
  read_ok i o st =
  negb (SENSOR_TYPE_MAX <=? type (sensor_at i st))%nat
  && bool_decide (is_Some (read_func (callbacks_at (type (sensor_at i st)) st)))
  && read_result (read_outcome o).
Proof.
  unfold read_ok, SensorTask_UpdateSensor.
  destruct (_ <=? _)%nat; [done |]. cbn [negb andb].
  destruct (read_func _) as [f |].
  - rewrite bool_decide_eq_true_2 by eauto. cbn [andb].
    destruct (read_result _); [| done]. by destruct (read_lock o).
  - rewrite bool_decide_eq_false_2; [done |]. by intros [? ?].
Qed.

(** A failed read leaves the standing of the sensor as it was. *)
Lemma UpdateSensor_failed i rd lock tick st :
  (i < length (sensors (g_sensor_manager st)))%nat ->
  let r := SensorTask_UpdateSensor i rd lock tick st in
  r.1 = false ->
  same_standing i st r.2
  /\ is_enabled (sensor_at i r.2) = is_enabled (sensor_at i st)
  /\ status (sensor_at i r.2) = status (sensor_at i st).
Proof.
  intros Hlt. cbn zeta. unfold SensorTask_UpdateSensor.
  destruct (_ <=? _)%nat.
  { split; [apply same_standing_refl | done]. }
  destruct (read_func _) as [f |].
  2: { split; [apply same_standing_refl | done]. }
  set (st1 := upd_sensor i (adapter_read rd) _).
  assert (sensor_at i st1 = adapter_read rd (sensor_at i st)) as Hs1
    by (subst st1; rewrite sensor_at_upd_same; [done | done]).
  destruct (read_result rd); cbn [fst snd]; [by destruct lock |].
  intros _. rewrite Hs1. split; [| done].
  unfold same_standing. rewrite Hs1.
  split; [done |]. split; [done |]. split.
  - subst st1. change (deinit_calls (upd_sensor ?a ?b ?s)) with (deinit_calls s).
    by rewrite deinit_calls_log_call.
  - repeat split. exists []. by rewrite app_nil_r.
Qed.

(** A successful read under the lock records the sample. *)
Lemma UpdateSensor_succeeded i rd tick st :
  (i < length (sensors (g_sensor_manager st)))%nat ->
  let r := SensorTask_UpdateSensor i rd true tick st in
  r.1 = true ->
  sensor_at i r.2 = record_sample tick (adapter_read rd (sensor_at i st))
  /\ (forall j, j <> i -> sensor_at j r.2 = sensor_at j st)
  /\ callbacks (g_sensor_manager r.2) = callbacks (g_sensor_manager st)
  /\ is_initialized (g_sensor_manager r.2) = is_initialized (g_sensor_manager st)
  /\ length (sensors (g_sensor_manager r.2)) = length (sensors (g_sensor_manager st))
  /\ events r.2 = events st.
Proof.
  intros Hlt. cbn zeta. unfold SensorTask_UpdateSensor.
  destruct (_ <=? _)%nat; [done |].
  destruct (read_func _) as [f |]; [| done].
  set (st1 := upd_sensor i (adapter_read rd) _).
  assert (sensor_at i st1 = adapter_read rd (sensor_at i st)) as Hs1
    by (subst st1; rewrite sensor_at_upd_same; [done | done]).
  destruct (read_result rd); cbn [fst snd]; [| done].
  intros _. split.
  { rewrite sensor_at_upd_same, Hs1; [done |].
    subst st1. by rewrite length_sensors_upd_sensor. }
  split.
  { intros j Hj. subst st1. by rewrite !sensor_at_upd_other. }
  subst st1. rewrite !length_sensors_upd_sensor. done.
Qed.

Lemma poll_sensor_fails i o st :
  wf (g_sensor_manager st) -> is_enabled (sensor_at i st) = true ->
  read_due (current_tick o) (sensor_at i st) = true -> read_ok i o st = false ->
  escalation i st (poll_sensor i o st).
Proof.
  intros Hwf He Hdue Hread.
  destruct (wf_sensor_at_enabled _ _ Hwf He) as [Hi Ht].
  assert (i < length (sensors (g_sensor_manager st)))%nat as Hlt
    by (rewrite (wf_sensors _ Hwf); lia).
  unfold poll_sensor. unfold read_due in Hdue. rewrite Hdue.
  pose proof (UpdateSensor_failed i (read_outcome o) (read_lock o) (stamp_tick o) st Hlt)
    as Hf.
  pose proof (wf_UpdateSensor i (read_outcome o) (read_lock o) (stamp_tick o) st Hwf)
    as Hwf1.
  unfold read_ok in Hread. cbn zeta in Hf.
  destruct (SensorTask_UpdateSensor _ _ _ _ st) as [ok st1]. cbn [fst snd] in *.
  subst ok. destruct (Hf eq_refl) as (Hsame & Hen & _).
  eapply escalation_transfer; [done |].
  apply HandleSensorError_escalation; [done | congruence].
Qed.

(** C1: whenever a visit of the scheduler to an enabled sensor contains a
    failed init or a failed read, the error count of the instance goes up by
    one.  When it reaches 5 the status becomes Initializing and the sensor
    stays enabled (no deinit call, same active count).  When it reaches 10
    the sensor is disabled through [SensorTask_DisableSensor] (the deinit
    callback, if present, is called once, on the instance still enabled),
    the status is Error, StatusChange(Error) is the last event delivered,
    after StatusChange(Offline); and a following [SensorTask_EnableSensor]
    returns true, resets the error count to 0 and sets the status to
    Initializing. *)
Theorem C1_error_escalation i o st :
  reachable st -> is_enabled (sensor_at i st) = true -> visit_fails i o st ->
  escalation i st (MainLoop_visit i o st).
Proof.
  intros Hreach He Hfail. apply reachable_wf in Hreach as Hwf.
  destruct (wf_sensor_at_enabled _ _ Hwf He) as [Hi Ht].
  assert (i < length (sensors (g_sensor_manager st)))%nat as Hlt
    by (rewrite (wf_sensors _ Hwf); lia).
  unfold MainLoop_visit. rewrite He. cbn [negb].
  destruct (InitializeSensor_standing i (init_result o) st) as (Hm & Hdc & Hcbk & Hev).
  unfold visit_fails, init_ok in Hfail. cbn zeta in Hfail.
  destruct (SensorTask_InitializeSensor i (init_result o) st) as [ok st1].
  cbn [fst snd] in *.
  assert (forall j, sensor_at j st1 = sensor_at j st) as Hsen
    by (intros j; unfold sensor_at; by rewrite Hm).
  assert (same_standing i st st1) as Hsame1.
  { unfold same_standing, callbacks_at. rewrite Hsen, Hm, Hdc, Hcbk, Hev.
    repeat split. exists []. by rewrite app_nil_r. }
  destruct Hfail as [[Hst ->] | [(Hst & -> & Hdue & Hread) | (Hst & Hdue & Hread)]].
  - rewrite Hst. cbn [SensorStatus_eqb].
    eapply escalation_transfer; [done |].
    apply HandleSensorError_escalation; [by rewrite Hm | by rewrite Hsen].
  - rewrite Hst. cbn [SensorStatus_eqb].
    set (st2 := SensorTask_NotifyEvent _ _ _ _ _).
    assert (sensor_at i st2 =
            set_last_update_time (init_tick o)
              (set_status SENSOR_STATUS_ONLINE (sensor_at i st))) as Hs2.
    { subst st2. rewrite sensor_at_notify, sensor_at_upd_same, Hsen; [done |].
      by rewrite Hm. }
    assert (wf (g_sensor_manager st2)) as Hwf2.
    { subst st2. apply wf_notify, wf_upd_sensor; rsimpl; try done.
      - by rewrite Hm.
      - apply wf_sensor_at_name. by rewrite Hm.
      - by intros [? ? ? ? ?].
      - intros _. rewrite Hm. split; [done | lia].
      - lia. }
    assert (same_standing i st st2) as Hsame2.
    { unfold same_standing. rewrite Hs2. rsimpl. subst st2.
      rewrite event_callback_notify, events_notify.
      unfold callbacks_at, deinit_calls.
      rewrite manager_notify, adapter_calls_notify.
      change (g_sensor_manager (upd_sensor ?a ?b st1))
        with (set_sensors (<[a := b (sensor_at a st1)]> (sensors (g_sensor_manager st1)))
                (g_sensor_manager st1)).
      change (adapter_calls (upd_sensor ?a ?b st1)) with (adapter_calls st1).
      change (g_event_callback (upd_sensor ?a ?b st1)) with (g_event_callback st1).
      change (events (upd_sensor ?a ?b st1)) with (events st1).
      rsimpl. rewrite Hm, Hcbk, Hev. fold (deinit_calls st1). rewrite Hdc.
      repeat split. eauto. }
    eapply escalation_transfer; [done |].
    apply poll_sensor_fails; try done.
    + by rewrite Hs2.
    + by rewrite Hs2.
    + rewrite read_ok_eq in *. rewrite Hs2. rsimpl.
      replace (callbacks_at (type (sensor_at i st)) st2)
        with (callbacks_at (type (sensor_at i st)) st); [done |].
      subst st2. rewrite callbacks_at_notify. unfold callbacks_at.
      change (callbacks (g_sensor_manager (upd_sensor ?a ?b st1)))
        with (callbacks (g_sensor_manager st1)).
      by rewrite Hm.
  - destruct (SensorStatus_eqb _ _) eqn:E.
    { destruct (status (sensor_at i st)); done. }
    by apply poll_sensor_fails.
Qed.

Lemma C1_error_escalation_witness :
  let st := run (failed_inits 9) in
  reachable st
  /\ is_enabled (sensor_at SENSOR_TYPE_GY30 st) = true
  /\ visit_fails SENSOR_TYPE_GY30 (init_fails_at 1000) st
  /\ escalation SENSOR_TYPE_GY30 st
       (MainLoop_visit SENSOR_TYPE_GY30 (init_fails_at 1000) st).
Proof.
  cbn zeta.
  assert (visit_fails SENSOR_TYPE_GY30 (init_fails_at 1000) (run (failed_inits 9))) as Hf
    by (left; split; vm_compute; reflexivity).
  split; [apply reachable_failed_inits |]. split; [vm_compute; reflexivity |].
  split; [exact Hf |].
  apply (C1_error_escalation SENSOR_TYPE_GY30 (init_fails_at 1000) (run (failed_inits 9))).
  - apply reachable_failed_inits.
  - vm_compute; reflexivity.
  - exact Hf.
Defined.

(** The run of ten failed initialisations, observed through the API. *)
Example ten_failed_inits_end_in_error :
  SensorTask_GetSensorStatus SENSOR_TYPE_GY30 true true (run (failed_inits 10))
  = Some SENSOR_STATUS_ERROR
  /\ SensorTask_GetSensorStatus SENSOR_TYPE_GY30 true true (run (failed_inits 5))
     = Some SENSOR_STATUS_INITIALIZING
  /\ error_count (sensor_at SENSOR_TYPE_GY30 (run (failed_inits 10))) = 10
  /\ is_enabled (sensor_at SENSOR_TYPE_GY30 (run (failed_inits 10))) = false
  /\ map event_status (events (run (failed_inits 10)))
     = [SENSOR_STATUS_INITIALIZING; SENSOR_STATUS_OFFLINE; SENSOR_STATUS_ERROR]
  /\ map call_slot (adapter_calls (run (failed_inits 10)))
     = replicate 10 SlotInit ++ [SlotDeinit].
Proof. vm_compute. repeat split. Qed.

(** ** Resetting the error count *)

Lemma error_count_set_last_update_time v s :
  error_count (set_last_update_time v s) = error_count s.
Proof. reflexivity. Qed.

Lemma poll_sensor_succeeds i o st :
  (i < length (sensors (g_sensor_manager st)))%nat ->
  read_due (current_tick o) (sensor_at i st) = true ->
  read_ok i o st = true -> read_lock o = true ->
  error_count (sensor_at i (poll_sensor i o st)) = 0.
Proof.
  intros Hlt Hdue Hok Hlock. unfold poll_sensor. unfold read_due in Hdue. rewrite Hdue.
  unfold read_ok in Hok. rewrite Hlock in *.
  pose proof (UpdateSensor_succeeded i (read_outcome o) (stamp_tick o) st Hlt) as Hs.
  cbn zeta in Hs.
  destruct (SensorTask_UpdateSensor _ _ _ _ st) as [ok st1]. cbn [fst snd] in *.
  subst ok. destruct (Hs eq_refl) as (Hs1 & _ & _ & _ & Hlen & _).
  rewrite sensor_at_notify, sensor_at_upd_same by lia. rewrite Hs1.
  destruct (record_sample_fields (stamp_tick o)
              (adapter_read (read_outcome o) (sensor_at i st)))
    as (_ & _ & _ & _ & _ & E6 & _).
  by rewrite error_count_set_last_update_time.
Qed.

Lemma poll_sensor_not_due i o st :
  read_due (current_tick o) (sensor_at i st) = false -> poll_sensor i o st = st.
Proof. intros Hdue. unfold poll_sensor. unfold read_due in Hdue. by rewrite Hdue. Qed.

(** C2 (as amended): a successful read resets the error count of the
    instance to 0, whether the visit needed no init or the read follows a
    successful init in the same visit.  A successful init alone (no read due
    in that visit) puts the instance Online and leaves the error count as it
    was. *)
Theorem C2_error_count_reset i o st :
  reachable st -> is_enabled (sensor_at i st) = true ->
  let s := sensor_at i st in
  let s' := sensor_at i (MainLoop_visit i o st) in
  (status s <> SENSOR_STATUS_INITIALIZING ->
   read_due (current_tick o) s = true -> read_ok i o st = true -> read_lock o = true ->
   error_count s' = 0)
  /\ (status s = SENSOR_STATUS_INITIALIZING -> init_ok i o st = true ->
      read_due (current_tick o) (set_last_update_time (init_tick o) s) = true ->
      read_ok i o st = true -> read_lock o = true ->
      error_count s' = 0)
  /\ (status s = SENSOR_STATUS_INITIALIZING -> init_ok i o st = true ->
      read_due (current_tick o) (set_last_update_time (init_tick o) s) = false ->
      error_count s' = error_count s /\ status s' = SENSOR_STATUS_ONLINE).
Proof.
  intros Hreach He. apply reachable_wf in Hreach as Hwf. cbn zeta.
  destruct (wf_sensor_at_enabled _ _ Hwf He) as [Hi Ht].
  assert (i < length (sensors (g_sensor_manager st)))%nat as Hlt
    by (rewrite (wf_sensors _ Hwf); lia).
  unfold MainLoop_visit. rewrite He. cbn [negb].
  destruct (InitializeSensor_standing i (init_result o) st) as (Hm & Hdc & Hcbk & Hev).
  unfold init_ok.
  destruct (SensorTask_InitializeSensor i (init_result o) st) as [ok st1].
  cbn [fst snd] in *.
  assert (forall j, sensor_at j st1 = sensor_at j st) as Hsen
    by (intros j; unfold sensor_at; by rewrite Hm).
  set (st2 := SensorTask_NotifyEvent SENSOR_EVENT_STATUS_CHANGE i None
                SENSOR_STATUS_ONLINE _).
  assert (sensor_at i st2 =
          set_last_update_time (init_tick o)
            (set_status SENSOR_STATUS_ONLINE (sensor_at i st))) as Hs2.
  { subst st2. rewrite sensor_at_notify, sensor_at_upd_same, Hsen; [done |].
    by rewrite Hm. }
  assert (length (sensors (g_sensor_manager st2)) = length (sensors (g_sensor_manager st)))
    as Hlen2 by (subst st2; by rewrite manager_notify, length_sensors_upd_sensor, Hm).
  assert (read_ok i o st2 = read_ok i o st) as Hrd.
  { rewrite !read_ok_eq, Hs2. rsimpl.
    replace (callbacks_at (type (sensor_at i st)) st2)
      with (callbacks_at (type (sensor_at i st)) st); [done |].
    subst st2. rewrite callbacks_at_notify. unfold callbacks_at.
    change (callbacks (g_sensor_manager (upd_sensor ?a ?b st1)))
      with (callbacks (g_sensor_manager st1)).
    by rewrite Hm. }
  split; [| split].
  - intros Hst Hdue Hok Hlock.
    destruct (SensorStatus_eqb _ _) eqn:E.
    { destruct (status (sensor_at i st)); done. }
    by apply poll_sensor_succeeds.
  - intros Hst -> Hdue Hok Hlock. rewrite Hst. cbn [SensorStatus_eqb].
    apply poll_sensor_succeeds; try done.
    + lia.
    + by rewrite Hs2.
    + by rewrite Hrd.
  - intros Hst -> Hdue. rewrite Hst. cbn [SensorStatus_eqb].
    rewrite poll_sensor_not_due by (by rewrite Hs2).
    by rewrite Hs2.
Qed.

Lemma C2_error_count_reset_witness :
  let st := run (failed_inits 5) in
  let o := init_succeeds_at 1000 in
  reachable st /\ is_enabled (sensor_at SENSOR_TYPE_GY30 st) = true
  /\ status (sensor_at SENSOR_TYPE_GY30 st) = SENSOR_STATUS_INITIALIZING
  /\ init_ok SENSOR_TYPE_GY30 o st = true
  /\ read_due (current_tick o)
       (set_last_update_time (init_tick o) (sensor_at SENSOR_TYPE_GY30 st)) = false
  /\ error_count (sensor_at SENSOR_TYPE_GY30 (MainLoop_visit SENSOR_TYPE_GY30 o st))
     = error_count (sensor_at SENSOR_TYPE_GY30 st)
  /\ status (sensor_at SENSOR_TYPE_GY30 (MainLoop_visit SENSOR_TYPE_GY30 o st))
     = SENSOR_STATUS_ONLINE.
Proof.
  cbn zeta. split; [apply reachable_failed_inits |].
  split; [vm_compute; reflexivity |]. split; [vm_compute; reflexivity |].
  split; [vm_compute; reflexivity |]. split; [vm_compute; reflexivity |].
  apply (C2_error_count_reset SENSOR_TYPE_GY30 (init_succeeds_at 1000)
           (run (failed_inits 5))).
  - apply reachable_failed_inits.
  - vm_compute; reflexivity.
  - vm_compute; reflexivity.
  - vm_compute; reflexivity.
  - vm_compute; reflexivity.
Defined.

(** C2 (as stated) fails for the init: after five failed initialisations a
    successful one puts the GY30 instance Online with an error count that is
    still 5. *)
Lemma C2_init_keeps_error_count_counterexample : ~ init_success_resets_error_count.
Proof.
  intros H.
  specialize (H (run (failed_inits 5)) SENSOR_TYPE_GY30 (init_succeeds_at 1000)).
  assert (error_count (sensor_at SENSOR_TYPE_GY30
            (MainLoop_visit SENSOR_TYPE_GY30 (init_succeeds_at 1000)
               (run (failed_inits 5)))) = 5) as H5 by (vm_compute; reflexivity).
  rewrite H in H5.
  - discriminate H5.
  - apply reachable_failed_inits.
  - unfold SENSOR_TYPE_GY30, SENSOR_TYPE_MAX. lia.
  - vm_compute; reflexivity.
  - vm_compute; reflexivity.
  - vm_compute; reflexivity.
  - vm_compute; reflexivity.
Qed.

Lemma C7_register_sensor_witness :
  let st := run registered in
  reachable st
  /\ SensorTask_RegisterSensor SENSOR_TYPE_GY30 demo_name None 0 2000 st = (false, st).
Proof.
  cbn zeta. split; [by exists registered |].
  apply (C7_register_sensor SENSOR_TYPE_GY30 demo_name None 0 2000 (run registered)).
  - by exists registered.
  - unfold registration_invalid. tauto.
Defined.

(** ** The circular history *)

Lemma length_window_of h head count :
  length h = Z.to_nat SENSOR_HISTORY_SIZE -> 0 <= count <= SENSOR_HISTORY_SIZE ->
  length (window_of h head count) = Z.to_nat count.
Proof.
  intros Hlen Hc. unfold window_of.
  destruct (Z.ltb_spec count SENSOR_HISTORY_SIZE).
  - rewrite length_take. lia.
  - rewrite length_rotate. lia.
Qed.

Lemma keep_last_short {A} n (l : list A) : (length l <= n)%nat -> keep_last n l = l.
Proof. intros H. unfold keep_last. by replace (length l - n)%nat with 0%nat by lia. Qed.

Lemma keep_last_snoc {A} n (l : list A) x :
  (1 <= n)%nat -> keep_last n (keep_last n l ++ [x]) = keep_last n (l ++ [x]).
Proof.
  intros Hn. unfold keep_last. rewrite !length_app, length_drop. cbn [length].
  destruct (decide (length l <= n)%nat).
  - replace (length l - n)%nat with 0%nat by lia. cbn [drop].
    by replace (length l - 0 + 1 - n)%nat with (length l + 1 - n)%nat by lia.
  - rewrite drop_app_le by (rewrite length_drop; lia).
    rewrite drop_drop. rewrite (drop_app_le l) by lia.
    do 2 f_equal. lia.
Qed.

(** Writing at the head and advancing it appends to the chronological
    contents and, once the ring is full, drops the oldest sample. *)
Lemma window_of_push h head count v :
  length h = Z.to_nat SENSOR_HISTORY_SIZE ->
  0 <= head < SENSOR_HISTORY_SIZE -> 0 <= count <= SENSOR_HISTORY_SIZE ->
  (count < SENSOR_HISTORY_SIZE -> head = count) ->
  window_of (arr_set h head v) (c_rem (head + 1) SENSOR_HISTORY_SIZE)
    (if count <? SENSOR_HISTORY_SIZE then count + 1 else count)
  = keep_last (Z.to_nat SENSOR_HISTORY_SIZE) (window_of h head count ++ [v]).
Proof.
  intros Hlen Hhead Hcount Hfill.
  rewrite c_rem_next by done. unfold window_of, arr_set.
  assert ((head <? 0) = false) as -> by lia.
  unfold SENSOR_HISTORY_SIZE in *. change (Z.to_nat 20) with 20%nat in *.
  destruct (Z.ltb_spec count 20) as [Hlt | Hge].
  - rewrite (Hfill Hlt) in *. clear Hfill.
    rewrite keep_last_short by (rewrite length_app, length_take; cbn; lia).
    assert (take (Z.to_nat (count + 1)) (<[Z.to_nat count := v]> h)
            = take (Z.to_nat count) h ++ [v]) as Htake.
    { replace (Z.to_nat (count + 1)) with (S (Z.to_nat count)) by lia.
      erewrite take_S_r by (apply list_lookup_insert_eq; lia).
      by rewrite take_insert_ge by lia. }
    destruct (Z.ltb_spec (count + 1) 20) as [Hlt' | Hge']; [done |].
    rewrite <- Htake. change (Z.to_nat 0) with 0%nat.
    unfold rotate. rewrite length_insert, Hlen.
    change (0 `mod` 20)%nat with 0%nat. cbn [drop take].
    rewrite app_nil_r, take_ge; [done |]. rewrite length_insert. lia.
  - assert (count = 20) as -> by lia. clear Hfill Hcount Hge.
    change (20 <? 20) with false. cbv iota.
    unfold keep_last, rotate. rewrite length_app, length_app, length_drop, length_take.
    rewrite length_insert, Hlen. cbn [length].
    rewrite (Nat.mod_small (Z.to_nat head) 20) by lia.
    replace (20 - Z.to_nat head + Z.to_nat head `min` 20 + 1 - 20)%nat with 1%nat by lia.
    rewrite <- app_assoc.
    rewrite drop_app_le by (rewrite length_drop; lia). rewrite drop_drop.
    destruct (Z.ltb_spec (head + 1) 20) as [Hlt' | Hge'].
    + rewrite (Nat.mod_small (Z.to_nat (head + 1)) 20) by lia.
      replace (Z.to_nat (head + 1)) with (S (Z.to_nat head)) by lia.
      rewrite drop_insert_lt by lia.
      erewrite take_S_r by (apply list_lookup_insert_eq; lia).
      rewrite take_insert_ge by lia.
      replace (Z.to_nat head + 1)%nat with (S (Z.to_nat head)) by lia. done.
    + assert (head = 19) as -> by lia. change (Z.to_nat 19) with 19%nat.
      change (Z.to_nat 0) with 0%nat. change (0 `mod` 20)%nat with 0%nat.
      cbn [drop take].
      rewrite app_nil_r. rewrite (drop_ge h) by lia. cbn [app].
      rewrite insert_take_drop by lia. rewrite (drop_ge h 20) by lia. done.
Qed.

Lemma arr_get_lookup h j x : 0 <= j -> h !! Z.to_nat j = Some x -> arr_get h j = x.
Proof.
  intros Hj Hx. unfold arr_get. destruct (Z.ltb_spec j 0); [lia |]. by rewrite Hx.
Qed.

(** The element at chronological position [j] is the one the loops of the
    source read at [(start + j) % SENSOR_HISTORY_SIZE]. *)
Lemma window_of_lookup h head count j :
  length h = Z.to_nat SENSOR_HISTORY_SIZE ->
  0 <= head < SENSOR_HISTORY_SIZE -> 0 <= count <= SENSOR_HISTORY_SIZE ->
  (count < SENSOR_HISTORY_SIZE -> head = count) ->
  0 <= j < count ->
  window_of h head count !! Z.to_nat j
  = Some (arr_get h (c_rem ((if count <? SENSOR_HISTORY_SIZE then 0 else head) + j)
                       SENSOR_HISTORY_SIZE)).
Proof.
  intros Hlen Hhead Hcount Hfill Hj. unfold window_of, c_rem.
  unfold SENSOR_HISTORY_SIZE in *. change (Z.to_nat 20) with 20%nat in *.
  destruct (Z.ltb_spec count 20) as [Hlt | Hge].
  - rewrite Z.add_0_l, Z.rem_small by lia.
    rewrite lookup_take_lt by lia.
    destruct (lookup_lt_is_Some_2 h (Z.to_nat j)) as [x Hx]; [lia |].
    rewrite Hx. f_equal. symmetry. apply arr_get_lookup; [lia | done].
  - rewrite lookup_rotate_r by lia. rewrite Hlen.
    rewrite Z.rem_mod_nonneg by lia.
    unfold rotate_nat_add. rewrite !Z2Nat.id by lia. change (Z.of_nat 20) with 20.
    assert (0 <= (head + j) mod 20 < 20) as Hm by (apply Z.mod_pos_bound; lia).
    destruct (lookup_lt_is_Some_2 h (Z.to_nat ((head + j) mod 20))) as [x Hx]; [lia |].
    rewrite Hx. f_equal. symmetry. apply arr_get_lookup; [lia | done].
Qed.

Lemma unroll_loop h w r0 (n : nat) ordered :
  0 <= r0 < SENSOR_HISTORY_SIZE -> (n <= length ordered)%nat -> (n <= length w)%nat ->
  (forall j, 0 <= j < Z.of_nat n ->
     w !! Z.to_nat j = Some (arr_get h (c_rem (r0 + j) SENSOR_HISTORY_SIZE))) ->
  foldl (unroll_step h) (ordered, r0) (seqZ 0 (Z.of_nat n))
  = (take n w ++ drop n ordered, c_rem (r0 + Z.of_nat n) SENSOR_HISTORY_SIZE).
Proof.
  intros Hr0. induction n as [| n IH]; intros Ho Hw Hread.
  - cbn. rewrite Z.add_0_r, c_rem_small by done. done.
  - rewrite seqZ_S, foldl_app, IH; [| lia | lia | intros j Hj; apply Hread; lia].
    cbn [foldl unroll_step]. rewrite Z.add_0_l. f_equal.
    + unfold arr_set. destruct (Z.ltb_spec (Z.of_nat n) 0); [lia |].
      rewrite Nat2Z.id.
      rewrite insert_app_r_alt by (rewrite length_take; lia).
      rewrite length_take. replace (n - n `min` length w)%nat with 0%nat by lia.
      specialize (Hread (Z.of_nat n)). rewrite Nat2Z.id in Hread.
      erewrite (take_S_r w) by (apply Hread; lia).
      rewrite <- app_assoc. f_equal.
      destruct (drop n ordered) as [| x rest] eqn:E.
      { apply (f_equal length) in E. rewrite length_drop in E. cbn in E. lia. }
      cbn. f_equal.
      replace (S n) with (n + 1)%nat by lia. rewrite <- drop_drop, E. done.
    + unfold c_rem, SENSOR_HISTORY_SIZE in *.
      assert (0 <= (r0 + Z.of_nat n) mod 20 < 20) by (apply Z.mod_pos_bound; lia).
      rewrite (Z.rem_mod_nonneg (r0 + Z.of_nat n)) by lia.
      rewrite !Z.rem_mod_nonneg by lia.
      rewrite Nat2Z.inj_succ. rewrite Z.add_mod_idemp_l by lia. f_equal. lia.
Qed.

(** The snapshot written by the history getters: the chronological contents
    of the ring, followed by what the buffer held beyond them. *)
Lemma unroll_window h ordered head count :
  length h = Z.to_nat SENSOR_HISTORY_SIZE ->
  length ordered = Z.to_nat SENSOR_HISTORY_SIZE ->
  0 <= head < SENSOR_HISTORY_SIZE -> 0 <= count <= SENSOR_HISTORY_SIZE ->
  (count < SENSOR_HISTORY_SIZE -> head = count) ->
  unroll h ordered head count
  = window_of h head count ++ drop (Z.to_nat count) ordered.
Proof.
  intros Hlen Hord Hhead Hcount Hfill. unfold unroll. cbn zeta.
  rewrite <- (Z2Nat.id count) at 2 by lia.
  rewrite (unroll_loop h (window_of h head count)).
  - cbn [fst]. rewrite take_ge; [done |]. rewrite length_window_of by done. lia.
  - destruct (count <? SENSOR_HISTORY_SIZE); unfold SENSOR_HISTORY_SIZE in *; lia.
  - rewrite Hord. lia.
  - rewrite length_window_of by done. lia.
  - intros j Hj. apply window_of_lookup; try done. lia.
Qed.

(** *** One sample, on the instance *)

Lemma primary_value_of s : primary_value s = primary_of (type s) (values (data s)).
Proof. reflexivity. Qed.

Lemma secondary_value_of s : secondary_value s = secondary_of (type s) (values (data s)).
Proof. reflexivity. Qed.

(** The ring after a sample. *)
Lemma record_sample_ring tick s :
  let pv := primary_of (type s) (values (data s)) in
  let sv := secondary_of (type s) (values (data s)) in
  let s' := record_sample tick s in
  history s' = arr_set (history s) (history_head s) pv
  /\ secondary_history s' =
       (if is_sht30 s then arr_set (secondary_history s) (history_head s) sv
        else secondary_history s)
  /\ history_head s' = c_rem (history_head s + 1) SENSOR_HISTORY_SIZE
  /\ history_count s' =
       (if history_count s <? SENSOR_HISTORY_SIZE then history_count s + 1
        else history_count s).
Proof.
  cbn zeta. unfold record_sample. cbn zeta.
  match goal with |- context [update_stats ?pv ?sv (store_sample ?pv ?sv ?s1)] =>
    destruct (update_stats_fields pv sv (store_sample pv sv s1))
      as (_ & _ & _ & _ & _ & _ & _ & _ & _ & -> & -> & -> & ->);
    destruct (store_sample_fields pv sv s1)
      as (_ & _ & _ & _ & _ & _ & _ & _ & _ & _ & _ & -> & -> & -> & ->)
  end.
  repeat split.
Qed.

Lemma window_record_sample tick s :
  ring_ok s ->
  window (record_sample tick s)
  = keep_last (Z.to_nat SENSOR_HISTORY_SIZE)
      (window s ++ [primary_of (type s) (values (data s))]).
Proof.
  intros [Hh Hs Hhead Hcount Hfill]. unfold window.
  destruct (record_sample_ring tick s) as (-> & _ & -> & ->).
  by apply window_of_push.
Qed.

Lemma secondary_window_record_sample tick s :
  ring_ok s -> is_sht30 s = true ->
  secondary_window (record_sample tick s)
  = keep_last (Z.to_nat SENSOR_HISTORY_SIZE)
      (secondary_window s ++ [secondary_of (type s) (values (data s))]).
Proof.
  intros [Hh Hs Hhead Hcount Hfill] Hsht. unfold secondary_window.
  destruct (record_sample_ring tick s) as (_ & -> & -> & ->). rewrite Hsht.
  by apply window_of_push.
Qed.

Lemma length_window s : ring_ok s -> length (window s) = Z.to_nat (history_count s).
Proof. intros [? ? ? ? ?]. by apply length_window_of. Qed.

(** *** A sequence of samples, on the instance *)

Lemma sample_all_snoc reads r s :
  sample_all (reads ++ [r]) s
  = record_sample r.2 (adapter_read (successful_read r.1) (sample_all reads s)).
Proof. unfold sample_all. by rewrite foldl_app. Qed.

Lemma sample_all_type reads s : type (sample_all reads s) = type s.
Proof.
  induction reads as [| r reads IH] using rev_ind; [done |].
  rewrite sample_all_snoc.
  destruct (record_sample_fields r.2 (adapter_read (successful_read r.1) (sample_all reads s)))
    as (-> & _).
  exact IH.
Qed.

Lemma sample_all_ring_ok reads s : ring_ok s -> ring_ok (sample_all reads s).
Proof.
  intros Hr. induction reads as [| r reads IH] using rev_ind; [done |].
  rewrite sample_all_snoc. by apply ring_ok_record_sample, ring_ok_adapter_read.
Qed.

Lemma sample_all_enabled reads s : is_enabled (sample_all reads s) = is_enabled s.
Proof.
  induction reads as [| r reads IH] using rev_ind; [done |].
  rewrite sample_all_snoc.
  destruct (record_sample_fields r.2 (adapter_read (successful_read r.1) (sample_all reads s)))
    as (_ & _ & _ & _ & _ & _ & -> & _).
  exact IH.
Qed.

(** The chronological contents after a sequence of samples: the previous
    contents and the fed values, cut to the last [SENSOR_HISTORY_SIZE]. *)
Lemma window_sample_all reads s :
  ring_ok s ->
  window (sample_all reads s)
  = keep_last (Z.to_nat SENSOR_HISTORY_SIZE)
      (window s ++ map (fun r => primary_of (type s) r.1) reads).
Proof.
  intros Hr. induction reads as [| r reads IH] using rev_ind.
  - cbn. rewrite app_nil_r. symmetry. apply keep_last_short.
    rewrite length_window by done. destruct Hr. lia.
  - rewrite sample_all_snoc, window_record_sample
      by (apply ring_ok_adapter_read, sample_all_ring_ok, Hr).
    change (window (adapter_read ?rd ?x)) with (window x).
    change (type (adapter_read ?rd ?x)) with (type x).
    change (values (data (adapter_read (successful_read r.1) ?x))) with r.1.
    rewrite IH, sample_all_type, map_app, app_assoc. cbn [map].
    apply keep_last_snoc. unfold SENSOR_HISTORY_SIZE. lia.
Qed.

(** *** The snapshot buffers are only written by the history getters *)

Lemma buffers_notify et t d s st :
  snapshot_buffers (SensorTask_NotifyEvent et t d s st) = snapshot_buffers st.
Proof. unfold SensorTask_NotifyEvent. by destruct (g_event_callback st). Qed.

Lemma buffers_EnableSensor t st :
  snapshot_buffers (SensorTask_EnableSensor t st).2 = snapshot_buffers st.
Proof.
  unfold SensorTask_EnableSensor. destruct (invalid_type t st); [done |].
  destruct (is_enabled _); cbn [negb snd]; [done |]. by rewrite buffers_notify.
Qed.

Lemma buffers_DisableSensor t st :
  snapshot_buffers (SensorTask_DisableSensor t st).2 = snapshot_buffers st.
Proof.
  unfold SensorTask_DisableSensor. destruct (invalid_type t st); [done |].
  destruct (is_enabled _); cbn [snd]; [| done]. rewrite buffers_notify.
  by destruct (deinit_func _).
Qed.

Lemma buffers_RegisterSensor t nm cbs h ms st :
  snapshot_buffers (SensorTask_RegisterSensor t nm cbs h ms st).2 = snapshot_buffers st.
Proof.
  unfold SensorTask_RegisterSensor. destruct cbs as [c |]; [| done].
  destruct (invalid_type t st); [done |].
  destruct (init_func c); [| done]. destruct (read_func c); [| done].
  cbn [snd]. by rewrite buffers_EnableSensor.
Qed.

Lemma buffers_Init mc tc st :
  snapshot_buffers (SensorTask_Init mc tc st).2 = snapshot_buffers st.
Proof.
  unfold SensorTask_Init. destruct (is_initialized _); [done |].
  destruct mc; [| done]. by destruct tc.
Qed.

Lemma buffers_SetUpdateInterval t ms st :
  snapshot_buffers (SensorTask_SetUpdateInterval t ms st).2 = snapshot_buffers st.
Proof. unfold SensorTask_SetUpdateInterval. by destruct (_ || _). Qed.

Lemma buffers_InitializeSensor i r st :
  snapshot_buffers (SensorTask_InitializeSensor i r st).2 = snapshot_buffers st.
Proof.
  unfold SensorTask_InitializeSensor. destruct (_ <=? _)%nat; [done |].
  by destruct (init_func _).
Qed.

Lemma buffers_UpdateSensor i rd lock tick st :
  snapshot_buffers (SensorTask_UpdateSensor i rd lock tick st).2 = snapshot_buffers st.
Proof.
  unfold SensorTask_UpdateSensor. destruct (_ <=? _)%nat; [done |].
  destruct (read_func _); [| done]. destruct (read_result rd); [| done]. by destruct lock.
Qed.

Lemma buffers_HandleSensorError i st :
  snapshot_buffers (SensorTask_HandleSensorError i st) = snapshot_buffers st.
Proof.
  unfold SensorTask_HandleSensorError.
  set (st1 := upd_sensor i _ st).
  set (st2 := if _ =? SOFT_THRESHOLD then _ else st1).
  assert (snapshot_buffers st2 = snapshot_buffers st) as H2
    by (subst st2; by destruct (_ =? SOFT_THRESHOLD)).
  clearbody st2. destruct (_ =? HARD_THRESHOLD); [| done].
  rewrite buffers_notify.
  change (snapshot_buffers (upd_sensor ?a ?b ?s)) with (snapshot_buffers s).
  by rewrite buffers_DisableSensor.
Qed.

Lemma buffers_poll_sensor i o st :
  snapshot_buffers (poll_sensor i o st) = snapshot_buffers st.
Proof.
  unfold poll_sensor. destruct (_ <=? _); [| done].
  pose proof (buffers_UpdateSensor i (read_outcome o) (read_lock o) (stamp_tick o) st) as H.
  destruct (SensorTask_UpdateSensor _ _ _ _ st) as [ok st1]. cbn [snd] in H.
  destruct ok.
  - rewrite buffers_notify.
    change (snapshot_buffers (upd_sensor ?a ?b ?s)) with (snapshot_buffers s). done.
  - by rewrite buffers_HandleSensorError.
Qed.

Lemma buffers_MainLoop_visit i o st :
  snapshot_buffers (MainLoop_visit i o st) = snapshot_buffers st.
Proof.
  unfold MainLoop_visit. destruct (is_enabled _); cbn [negb]; [| done].
  destruct (SensorStatus_eqb _ _); [| apply buffers_poll_sensor].
  pose proof (buffers_InitializeSensor i (init_result o) st) as H.
  destruct (SensorTask_InitializeSensor _ _ st) as [ok st1]. cbn [snd] in H.
  destruct ok.
  - rewrite buffers_poll_sensor, buffers_notify.
    change (snapshot_buffers (upd_sensor ?a ?b ?s)) with (snapshot_buffers s). done.
  - by rewrite buffers_HandleSensorError.
Qed.

Lemma length_arr_set_fold h buf r0 l :
  length (foldl (unroll_step h) (buf, r0) l).1 = length buf.
Proof.
  revert buf r0. induction l as [| x l IH]; intros buf r0; [done |].
  cbn [foldl unroll_step]. rewrite IH. apply length_arr_set.
Qed.

Lemma length_unroll h buf head count : length (unroll h buf head count) = length buf.
Proof. unfold unroll. apply length_arr_set_fold. Qed.

Lemma buffers_len_run calls :
  length (ordered_primary_history (run calls)) = Z.to_nat SENSOR_HISTORY_SIZE
  /\ length (ordered_secondary_history (run calls)) = Z.to_nat SENSOR_HISTORY_SIZE.
Proof.
  induction calls as [| c calls IH] using rev_ind; [done |].
  rewrite run_snoc.
  assert (forall st', snapshot_buffers st' = snapshot_buffers (run calls) ->
            length (ordered_primary_history st') = Z.to_nat SENSOR_HISTORY_SIZE
            /\ length (ordered_secondary_history st') = Z.to_nat SENSOR_HISTORY_SIZE) as Hsame.
  { intros st' E. unfold snapshot_buffers in E. injection E as -> ->. exact IH. }
  destruct c; cbn [run_call].
  - apply Hsame, buffers_Init.
  - apply Hsame, buffers_RegisterSensor.
  - apply Hsame, buffers_EnableSensor.
  - apply Hsame, buffers_DisableSensor.
  - apply Hsame, buffers_SetUpdateInterval.
  - by apply Hsame.
  - unfold SensorTask_GetPrimaryHistory.
    repeat (match goal with |- context [if ?b then _ else _] => destruct b end);
      cbn [snd]; rsimpl; try done.
    rewrite length_unroll. done.
  - unfold SensorTask_GetSecondaryHistory.
    repeat (match goal with |- context [if ?b then _ else _] => destruct b end);
      cbn [snd]; rsimpl; try done.
    rewrite length_unroll. done.
  - destruct (_ && _); [| done]. apply Hsame, buffers_MainLoop_visit.
Qed.

(** *** A sequence of successful reads, on the registry *)

Lemma feed_snoc k reads r st :
  feed k (reads ++ [r]) st
  = (SensorTask_UpdateSensor k (successful_read r.1) true r.2 (feed k reads st)).2.
Proof. unfold feed. by rewrite foldl_app. Qed.

Lemma UpdateSensor_ok i rd lock tick st :
  type (sensor_at i st) = i -> (i < SENSOR_TYPE_MAX)%nat ->
  is_Some (read_func (callbacks_at i st)) -> read_result rd = true ->
  (SensorTask_UpdateSensor i rd lock tick st).1 = true.
Proof.
  intros Hty Hi [f Hf] Hrd. unfold SensorTask_UpdateSensor. rewrite Hty, Hf, Hrd.
  apply Nat.leb_gt in Hi. rewrite Hi. by destruct lock.
Qed.

(** Feeding successful reads to a registered sensor records each of them on
    its instance and touches nothing else of what the getters look at. *)
Lemma feed_spec k reads st :
  wf (g_sensor_manager st) -> is_initialized (g_sensor_manager st) = true ->
  (k < SENSOR_TYPE_MAX)%nat -> is_Some (read_func (callbacks_at k st)) ->
  let st' := feed k reads st in
  sensor_at k st' = sample_all reads (sensor_at k st)
  /\ (forall j, j <> k -> sensor_at j st' = sensor_at j st)
  /\ wf (g_sensor_manager st')
  /\ is_initialized (g_sensor_manager st') = true
  /\ callbacks (g_sensor_manager st') = callbacks (g_sensor_manager st)
  /\ snapshot_buffers st' = snapshot_buffers st
  /\ events st' = events st.
Proof.
  intros Hwf Hi Hk Hrf. cbn zeta.
  induction reads as [| r reads IH] using rev_ind; [done |].
  destruct IH as (Hs & Hother & Hwf' & Hi' & Hcb & Hbuf & Hev).
  rewrite feed_snoc, sample_all_snoc.
  set (st1 := feed k reads st) in *.
  assert (k < length (sensors (g_sensor_manager st1)))%nat as Hlt
    by (by rewrite (wf_sensors _ Hwf')).
  pose proof (UpdateSensor_succeeded k (successful_read r.1) r.2 st1 Hlt) as Hu.
  cbn zeta in Hu. destruct Hu as (Hs2 & Ho2 & Hcb2 & Hi2 & Hlen2 & Hev2).
  { apply UpdateSensor_ok; try done.
    - by apply wf_sensor_at_type.
    - unfold callbacks_at. rewrite Hcb. exact Hrf. }
  split; [by rewrite Hs2, Hs |]. split.
  { intros j Hj. rewrite Ho2 by done. by apply Hother. }
  split; [by apply wf_UpdateSensor |]. split; [congruence |]. split; [congruence |].
  split; [by rewrite buffers_UpdateSensor | congruence].
Qed.

Lemma length_keep_last {A} n (l : list A) : length (keep_last n l) = Nat.min (length l) n.
Proof. unfold keep_last. rewrite length_drop. lia. Qed.

(** What [SensorTask_GetPrimaryHistory] returns for an enabled sensor of a
    well-formed registry: the number of samples held and, when there is one,
    the snapshot buffer starting with the chronological contents. *)
Lemma GetPrimaryHistory_window k st :
  wf (g_sensor_manager st) -> is_enabled (sensor_at k st) = true ->
  length (ordered_primary_history st) = Z.to_nat SENSOR_HISTORY_SIZE ->
  let r := (SensorTask_GetPrimaryHistory k true st).1 in
  r.1 = Z.of_nat (length (window (sensor_at k st)))
  /\ (window (sensor_at k st) = [] -> r.2 = None)
  /\ (window (sensor_at k st) <> [] ->
      exists buf, r.2 = Some buf
        /\ take (length (window (sensor_at k st))) buf = window (sensor_at k st)).
Proof.
  intros Hwf He Hbuf. cbn zeta.
  destruct (wf_sensor_at_enabled _ _ Hwf He) as [Hi Hk].
  pose proof (wf_sensor_at_ring st k Hwf) as Hr.
  pose proof (length_window _ Hr) as Hlen.
  destruct Hr as [Hh Hs Hhead Hcount Hfill].
  unfold SensorTask_GetPrimaryHistory. rewrite Hi, He.
  assert ((SENSOR_TYPE_MAX <=? k)%nat = false) as -> by (apply Nat.leb_gt; lia).
  cbn [negb orb andb].
  destruct (Z.ltb_spec 0 (history_count (sensor_at k st))) as [Hpos | Hzero].
  - cbn [fst snd]. split; [lia |]. split.
    + intros Hnil. rewrite Hnil in Hlen. cbn in Hlen. lia.
    + intros _. eexists. split; [reflexivity |].
      rewrite unroll_window by done. by rewrite take_app_length.
  - cbn [fst snd]. split; [lia |]. split; [done |].
    intros Hne. destruct (window (sensor_at k st)); [done |]. cbn in Hlen. lia.
Qed.

(** C3: for a registered and enabled sensor with no sample yet, after [n]
    successful reads [SensorTask_GetPrimaryHistory] returns the count
    [min n H] (H = SENSOR_HISTORY_SIZE = 20) and a snapshot whose first
    [min n H] elements are the primary values fed, oldest first, without the
    first [n - H] of them when [n] exceeds H: all [n] values for [n <= H],
    the most recent H values after H + k reads.  For [n = 0] the count is 0
    and the pointer NULL. *)
Theorem C3_primary_history k reads st :
  reachable st ->
  is_Some (read_func (callbacks_at k st)) ->
  is_enabled (sensor_at k st) = true ->
  history_count (sensor_at k st) = 0 ->
  let n := length reads in
  let fed := map (fun r => primary_of k r.1) reads in
  let r := (SensorTask_GetPrimaryHistory k true (feed k reads st)).1 in
  r.1 = Z.of_nat (Nat.min n (Z.to_nat SENSOR_HISTORY_SIZE))
  /\ (n = 0%nat -> r.2 = None)
  /\ ((0 < n)%nat ->
      exists buf, r.2 = Some buf
        /\ take (Nat.min n (Z.to_nat SENSOR_HISTORY_SIZE)) buf
           = drop (n - Z.to_nat SENSOR_HISTORY_SIZE) fed).
Proof.
  intros Hreach Hrf He Hc0. cbn zeta.
  pose proof (reachable_wf _ Hreach) as Hwf.
  destruct (wf_sensor_at_enabled _ _ Hwf He) as [Hi Hk].
  destruct (feed_spec k reads st Hwf Hi ltac:(lia) Hrf)
    as (Hs & _ & Hwf' & Hi' & _ & Hbuf & _).
  assert (type (sensor_at k st) = k) as Hty by (apply wf_sensor_at_type; [done | done | lia]).
  pose proof (wf_sensor_at_ring st k Hwf) as Hr.
  assert (window (sensor_at k (feed k reads st))
          = keep_last (Z.to_nat SENSOR_HISTORY_SIZE)
              (map (fun r => primary_of k r.1) reads)) as Hwin.
  { rewrite Hs, window_sample_all by done. rewrite Hty.
    unfold window at 1, window_of. rewrite Hc0. done. }
  assert (length (ordered_primary_history (feed k reads st))
          = Z.to_nat SENSOR_HISTORY_SIZE) as Hlenbuf.
  { unfold snapshot_buffers in Hbuf. injection Hbuf as -> _.
    destruct Hreach as [calls ->]. apply buffers_len_run. }
  destruct (GetPrimaryHistory_window k (feed k reads st) Hwf') as (Hcnt & Hnone & Hsome);
    [by rewrite Hs, sample_all_enabled | done |].
  rewrite Hwin in *. rewrite length_keep_last, length_map in *.
  split; [done |]. split.
  - intros Hn. apply Hnone. destruct reads; [done | cbn in Hn; lia].
  - intros Hn. destruct Hsome as (buf & Hb & Htake).
    + intros Hnil. apply (f_equal length) in Hnil.
      rewrite length_keep_last, length_map in Hnil. cbn in Hnil.
      unfold SENSOR_HISTORY_SIZE in Hnil. lia.
    + exists buf. split; [done |]. rewrite Htake. unfold keep_last.
      by rewrite length_map.
Qed.

Lemma reachable_registered : reachable (run registered).
Proof. by exists registered. Qed.

Lemma C3_primary_history_witness :
  let st := run registered in
  let reads := [(zero_values, 1000); (zero_values, 3000)] in
  reachable st
  /\ is_Some (read_func (callbacks_at SENSOR_TYPE_GY30 st))
  /\ is_enabled (sensor_at SENSOR_TYPE_GY30 st) = true
  /\ history_count (sensor_at SENSOR_TYPE_GY30 st) = 0
  /\ (SensorTask_GetPrimaryHistory SENSOR_TYPE_GY30 true
        (feed SENSOR_TYPE_GY30 reads st)).1.1 = 2.
Proof.
  cbn zeta.
  assert (is_Some (read_func (callbacks_at SENSOR_TYPE_GY30 (run registered)))) as Hrf
    by (exists 2%nat; vm_compute; reflexivity).
  split; [apply reachable_registered |]. split; [exact Hrf |].
  split; [vm_compute; reflexivity |]. split; [vm_compute; reflexivity |].
  apply (C3_primary_history SENSOR_TYPE_GY30 [(zero_values, 1000); (zero_values, 3000)]
           (run registered)).
  - apply reachable_registered.
  - exact Hrf.
  - vm_compute; reflexivity.
  - vm_compute; reflexivity.
Defined.

(** ** The order of the floats *)

Lemma SFcompare_rank x y :
  match SFcompare x y with
  | None => f32_rank x = None \/ f32_rank y = None
  | Some c => exists a b, f32_rank x = Some a /\ f32_rank y = Some b
                          /\ (c = Lt <-> lex_lt a b)
  end.
Proof.
  destruct x as [sx | sx | | sx mx ex], y as [sy | sy | | sy my ey];
    try destruct sx; try destruct sy; cbn [SFcompare f32_rank];
    try (by left); try (by right);
    eexists _, _; (split; [reflexivity |]); (split; [reflexivity |]);
    unfold lex_lt; cbn [fst snd];
    try (split; [discriminate | intros; lia]);
    try (split; [intros _; lia | done]).
  - rewrite Pos.compare_cont_spec. cbn [Pos.switch_Eq].
    destruct (Z.compare_spec ex ey) as [-> | Hlt | Hgt];
      [destruct (Pos.compare_spec mx my) as [-> | Hm | Hm]; cbn [CompOpp] | |];
      split; try discriminate; try (intros _; lia); try done; intros; lia.
  - rewrite Pos.compare_cont_spec. cbn [Pos.switch_Eq].
    destruct (Z.compare_spec ex ey) as [-> | Hlt | Hgt];
      [destruct (Pos.compare_spec mx my) as [-> | Hm | Hm] | |];
      split; try discriminate; try (intros _; lia); try done; intros; lia.
Qed.

Lemma f32_lt_rank x y :
  f32_lt x y = true <->
  exists a b, f32_rank x = Some a /\ f32_rank y = Some b /\ lex_lt a b.
Proof.
  unfold f32_lt, SFltb. pose proof (SFcompare_rank x y) as H.
  destruct (SFcompare x y) as [c |].
  - destruct H as (a & b & Ha & Hb & Hc). split.
    + intros Hlt. exists a, b. split; [done |]. split; [done |]. apply Hc. by destruct c.
    + intros (a' & b' & Ha' & Hb' & Hl). simplify_eq. apply Hc in Hl. by rewrite Hl.
  - split; [done |]. intros (a & b & Ha & Hb & _). destruct H; congruence.
Qed.

Lemma f32_lt_trans x y z : f32_lt x y = true -> f32_lt y z = true -> f32_lt x z = true.
Proof.
  rewrite !f32_lt_rank. intros (a & b & Ha & Hb & Hab) (b' & c & Hb' & Hc & Hbc).
  simplify_eq. exists a, c. split; [done |]. split; [done |].
  unfold lex_lt in *. lia.
Qed.

Lemma f32_lt_irrefl x : f32_lt x x = false.
Proof.
  destruct (f32_lt x x) eqn:E; [| done].
  apply f32_lt_rank in E as (a & b & Ha & Hb & Hl). simplify_eq.
  unfold lex_lt in Hl. lia.
Qed.

Lemma f32_le_refl a : f32_le a a.
Proof. by left. Qed.

Lemma f32_le_trans a b c : f32_le a b -> f32_le b c -> f32_le a c.
Proof.
  intros [-> | Hab] [-> | Hbc]; [by left | by right | by right |].
  right. by eapply f32_lt_trans.
Qed.

(** ** Statistics *)

Lemma rescan_frame X t1 t2 :
  rescan (set_secondary_stats t2 (set_stats t1 X)) = rescan X
  /\ rescan (set_stats t1 X) = rescan X.
Proof. split; reflexivity. Qed.

(** The first sample seeds the lifetime statistics only. *)
Lemma update_stats_first pv sv X :
  history_count X = 1 ->
  stats (update_stats pv sv X) = seed_stats pv (stats X)
  /\ secondary_stats (update_stats pv sv X)
     = (if is_sht30 X then seed_stats sv (secondary_stats X) else secondary_stats X).
Proof.
  intros Hc. unfold update_stats. rewrite Hc. cbn [Z.eqb Pos.eqb].
  change (is_sht30 (set_stats ?t X)) with (is_sht30 X).
  destruct (is_sht30 X); split; reflexivity.
Qed.

(** Every later sample widens the lifetime minimum and maximum, rescans the
    ring for the windowed statistics and copies the windowed average. *)
Lemma update_stats_later pv sv X :
  history_count X <> 1 ->
  stats (update_stats pv sv X)
  = window_stats (p_min (rescan X)) (p_max (rescan X)) (p_sum (rescan X))
      (history_count X) (widen_stats pv (stats X))
  /\ secondary_stats (update_stats pv sv X)
     = (if is_sht30 X
        then window_stats (s_min (rescan X)) (s_max (rescan X)) (s_sum (rescan X))
               (history_count X) (widen_stats sv (secondary_stats X))
        else secondary_stats X).
Proof.
  intros Hc. unfold update_stats. apply Z.eqb_neq in Hc. rewrite Hc.
  change (is_sht30 (set_stats ?t X)) with (is_sht30 X).
  destruct (is_sht30 X) eqn:E.
  - change (is_sht30 (set_stats ?t (set_secondary_stats ?u (set_stats ?v X))))
      with (is_sht30 X). rewrite E.
    split; reflexivity.
  - change (is_sht30 (set_stats ?t (set_stats ?v X))) with (is_sht30 X). rewrite E.
    split; reflexivity.
Qed.

Lemma window_stats_fields lmin lmax sum count t :
  let t' := window_stats lmin lmax sum count t in
  min t' = min t /\ max t' = max t
  /\ local_min t' = lmin /\ local_max t' = lmax
  /\ local_avg t' = f32_div sum (f32_of_int count)
  /\ avg t' = local_avg t'.
Proof. repeat split. Qed.

Lemma widen_stats_fields v t :
  let t' := widen_stats v t in
  min t' = (if f32_lt v (min t) then v else min t)
  /\ max t' = (if f32_gt v (max t) then v else max t)
  /\ avg t' = avg t /\ local_min t' = local_min t /\ local_max t' = local_max t
  /\ local_avg t' = local_avg t.
Proof.
  cbn zeta. unfold widen_stats.
  destruct (f32_lt v (min t)); rsimpl; destruct (f32_gt v (max t)); repeat split.
Qed.

Lemma widen_stats_le v t :
  f32_le (min (widen_stats v t)) (min t) /\ f32_le (max t) (max (widen_stats v t)).
Proof.
  destruct (widen_stats_fields v t) as (-> & -> & _). split.
  - destruct (f32_lt v (min t)) eqn:E; [by right | by left].
  - unfold f32_gt. destruct (SFltb (max t) v) eqn:E; [by right | by left].
Qed.

Lemma record_sample_eq tick s :
  record_sample tick s
  = update_stats (primary_of (type s) (values (data s)))
      (secondary_of (type s) (values (data s)))
      (store_sample (primary_of (type s) (values (data s)))
         (secondary_of (type s) (values (data s)))
         (set_error_count 0
            (set_data {| values := values (data s); timestamp := tick;
                         is_valid := true |} s))).
Proof. reflexivity. Qed.

Lemma rescan_update_stats pv sv X : rescan (update_stats pv sv X) = rescan X.
Proof.
  unfold update_stats. destruct (history_count X =? 1).
  - change (is_sht30 (set_stats ?t X)) with (is_sht30 X).
    destruct (is_sht30 X); reflexivity.
  - change (is_sht30 (set_stats ?t X)) with (is_sht30 X).
    destruct (is_sht30 X) eqn:E.
    + change (is_sht30 (set_stats ?t (set_secondary_stats ?u (set_stats ?v X))))
        with (is_sht30 X). rewrite E. reflexivity.
    + change (is_sht30 (set_stats ?t (set_stats ?v X))) with (is_sht30 X).
      rewrite E. reflexivity.
Qed.

(** The statistics of the instance after a sample that is not its first. *)
Lemma record_sample_stats_later tick s :
  1 <= history_count s ->
  let pv := primary_of (type s) (values (data s)) in
  let sv := secondary_of (type s) (values (data s)) in
  let s' := record_sample tick s in
  stats s' = window_stats (p_min (rescan s')) (p_max (rescan s')) (p_sum (rescan s'))
               (history_count s') (widen_stats pv (stats s))
  /\ secondary_stats s'
     = (if is_sht30 s
        then window_stats (s_min (rescan s')) (s_max (rescan s')) (s_sum (rescan s'))
               (history_count s') (widen_stats sv (secondary_stats s))
        else secondary_stats s).
Proof.
  intros Hc. cbn zeta. rewrite record_sample_eq.
  pose proof (store_sample_fields (primary_of (type s) (values (data s)))
                (secondary_of (type s) (values (data s)))
                (set_error_count 0
                   (set_data {| values := values (data s); timestamp := tick;
                                is_valid := true |} s))) as Hf.
  cbn zeta in Hf.
  remember (store_sample _ _ _) as X eqn:EX. clear EX.
  destruct Hf as (Ety & _ & _ & _ & _ & _ & _ & _ & _ & Est & Esec & _ & _ & _ & Ecount).
  rsimpl.
  assert (history_count X <> 1) as Hne.
  { rewrite Ecount. destruct (Z.ltb_spec (history_count s) SENSOR_HISTORY_SIZE);
      unfold SENSOR_HISTORY_SIZE in *; lia. }
  rewrite rescan_update_stats.
  destruct (update_stats_fields (primary_of (type s) (values (data s)))
              (secondary_of (type s) (values (data s))) X)
    as (_ & _ & _ & _ & _ & _ & _ & _ & _ & _ & _ & _ & ->).
  destruct (update_stats_later (primary_of (type s) (values (data s)))
              (secondary_of (type s) (values (data s))) X Hne) as [-> ->].
  assert (is_sht30 X = is_sht30 s) as -> by (unfold is_sht30; by rewrite Ety).
  by rewrite Est, Esec.
Qed.

Lemma record_sample_stats_first tick s :
  history_count s = 0 ->
  let pv := primary_of (type s) (values (data s)) in
  let sv := secondary_of (type s) (values (data s)) in
  let s' := record_sample tick s in
  stats s' = seed_stats pv (stats s)
  /\ secondary_stats s'
     = (if is_sht30 s then seed_stats sv (secondary_stats s) else secondary_stats s).
Proof.
  intros Hc. cbn zeta. rewrite record_sample_eq.
  pose proof (store_sample_fields (primary_of (type s) (values (data s)))
                (secondary_of (type s) (values (data s)))
                (set_error_count 0
                   (set_data {| values := values (data s); timestamp := tick;
                                is_valid := true |} s))) as Hf.
  cbn zeta in Hf.
  remember (store_sample _ _ _) as X eqn:EX. clear EX.
  destruct Hf as (Ety & _ & _ & _ & _ & _ & _ & _ & _ & Est & Esec & _ & _ & _ & Ecount).
  rsimpl. rewrite Hc in Ecount. cbn in Ecount.
  destruct (update_stats_first (primary_of (type s) (values (data s)))
              (secondary_of (type s) (values (data s))) X Ecount) as [-> ->].
  assert (is_sht30 X = is_sht30 s) as -> by (unfold is_sht30; by rewrite Ety).
  by rewrite Est, Esec.
Qed.

(** *** The lifetime minimum and maximum only widen *)

Lemma record_sample_widens tick s :
  1 <= history_count s ->
  let s' := record_sample tick s in
  f32_le (min (stats s')) (min (stats s))
  /\ f32_le (max (stats s)) (max (stats s'))
  /\ f32_le (min (secondary_stats s')) (min (secondary_stats s))
  /\ f32_le (max (secondary_stats s)) (max (secondary_stats s')).
Proof.
  intros Hc. cbn zeta.
  destruct (record_sample_stats_later tick s Hc) as [-> ->].
  match goal with |- context [window_stats ?a ?b ?c ?d ?t] =>
    destruct (window_stats_fields a b c d t) as (-> & -> & _)
  end.
  split; [apply widen_stats_le |]. split; [apply widen_stats_le |].
  destruct (is_sht30 s).
  - match goal with |- context [window_stats ?a ?b ?c ?d ?t] =>
      destruct (window_stats_fields a b c d t) as (-> & -> & _)
    end.
    split; apply widen_stats_le.
  - split; apply f32_le_refl.
Qed.

Lemma record_sample_count_pos tick s :
  0 <= history_count s -> 1 <= history_count (record_sample tick s).
Proof.
  intros Hc. destruct (record_sample_ring tick s) as (_ & _ & _ & ->).
  destruct (Z.ltb_spec (history_count s) SENSOR_HISTORY_SIZE);
    unfold SENSOR_HISTORY_SIZE in *; lia.
Qed.

Lemma sample_all_count_pos reads s :
  1 <= history_count s -> 1 <= history_count (sample_all reads s).
Proof.
  intros Hc. induction reads as [| r reads IH] using rev_ind; [done |].
  rewrite sample_all_snoc. apply record_sample_count_pos.
  change (history_count (adapter_read ?rd ?x)) with (history_count x). lia.
Qed.

Lemma sample_all_widens reads s :
  1 <= history_count s ->
  let s' := sample_all reads s in
  f32_le (min (stats s')) (min (stats s))
  /\ f32_le (max (stats s)) (max (stats s'))
  /\ f32_le (min (secondary_stats s')) (min (secondary_stats s))
  /\ f32_le (max (secondary_stats s)) (max (secondary_stats s')).
Proof.
  intros Hc. cbn zeta. induction reads as [| r reads IH] using rev_ind.
  - repeat split; apply f32_le_refl.
  - rewrite sample_all_snoc.
    destruct IH as (H1 & H2 & H3 & H4).
    destruct (record_sample_widens r.2 (adapter_read (successful_read r.1) (sample_all reads s)))
      as (G1 & G2 & G3 & G4).
    { change (history_count (adapter_read ?rd ?x)) with (history_count x).
      by apply sample_all_count_pos. }
    change (stats (adapter_read ?rd ?x)) with (stats x) in *.
    change (secondary_stats (adapter_read ?rd ?x)) with (secondary_stats x) in *.
    repeat split; eapply f32_le_trans; eassumption.
Qed.

(** C6: once a sensor has a sample, any further sequence of successful
    reads leaves its lifetime minimum at most what it was and its lifetime
    maximum at least what it was, however long the sequence (so also when
    the samples that set them have left the history window); for the
    primary and for the secondary statistics. *)
Theorem C6_lifetime_extremes_widen k reads st :
  reachable st ->
  is_Some (read_func (callbacks_at k st)) ->
  is_enabled (sensor_at k st) = true ->
  1 <= history_count (sensor_at k st) ->
  let s := sensor_at k st in
  let s' := sensor_at k (feed k reads st) in
  f32_le (min (stats s')) (min (stats s))
  /\ f32_le (max (stats s)) (max (stats s'))
  /\ f32_le (min (secondary_stats s')) (min (secondary_stats s))
  /\ f32_le (max (secondary_stats s)) (max (secondary_stats s')).
Proof.
  intros Hreach Hrf He Hc. cbn zeta.
  pose proof (reachable_wf _ Hreach) as Hwf.
  destruct (wf_sensor_at_enabled _ _ Hwf He) as [Hi Hk].
  destruct (feed_spec k reads st Hwf Hi ltac:(lia) Hrf) as (-> & _).
  by apply sample_all_widens.
Qed.

Lemma reachable_sampled k reads : reachable (run (sampled k reads)).
Proof. by exists (sampled k reads). Qed.

Lemma C6_lifetime_extremes_widen_witness :
  let st := run (sampled SENSOR_TYPE_GY30 [(2000, lux 10)]) in
  let reads := [(lux 30, 4000); (lux 5, 6000)] in
  reachable st
  /\ is_Some (read_func (callbacks_at SENSOR_TYPE_GY30 st))
  /\ is_enabled (sensor_at SENSOR_TYPE_GY30 st) = true
  /\ 1 <= history_count (sensor_at SENSOR_TYPE_GY30 st)
  /\ f32_le (min (stats (sensor_at SENSOR_TYPE_GY30 (feed SENSOR_TYPE_GY30 reads st))))
            (min (stats (sensor_at SENSOR_TYPE_GY30 st))).
Proof.
  cbn zeta.
  assert (is_Some (read_func (callbacks_at SENSOR_TYPE_GY30
            (run (sampled SENSOR_TYPE_GY30 [(2000, lux 10)]))))) as Hrf
    by (exists 2%nat; vm_compute; reflexivity).
  assert (1 <= history_count (sensor_at SENSOR_TYPE_GY30
            (run (sampled SENSOR_TYPE_GY30 [(2000, lux 10)])))) as Hc
    by (vm_compute; discriminate).
  split; [apply reachable_sampled |]. split; [exact Hrf |].
  split; [vm_compute; reflexivity |]. split; [exact Hc |].
  apply (C6_lifetime_extremes_widen SENSOR_TYPE_GY30 [(lux 30, 4000); (lux 5, 6000)]
           (run (sampled SENSOR_TYPE_GY30 [(2000, lux 10)]))).
  - apply reachable_sampled.
  - exact Hrf.
  - vm_compute; reflexivity.
  - exact Hc.
Defined.

(** ** The windowed statistics *)

(** C4 (the code at the failing input): after the first successful read of
    the GY30 sensor, with 10 lux, the history holds the single sample 10 and
    the lifetime minimum, maximum and average are 10, but the windowed
    minimum, maximum and average that [SensorTask_GetStats] returns are
    still the 0.0 of the zeroed registry. *)
Theorem C4_first_sample_windowed_stats :
  let st := run (sampled SENSOR_TYPE_GY30 [(2000, lux 10)]) in
  window (sensor_at SENSOR_TYPE_GY30 st) = [f32_of_int 10]
  /\ SensorTask_GetStats SENSOR_TYPE_GY30 true true st
     = Some {| min := f32_of_int 10; max := f32_of_int 10; avg := f32_of_int 10;
               local_min := f32_zero; local_max := f32_zero; local_avg := f32_zero |}.
Proof. vm_compute. split; reflexivity. Qed.

(** C5 (the code at the failing input): after the first successful read of
    the SHT30 sensor, with 20 degrees and 50 percent, the lifetime average is
    the sample while the windowed average is still 0.0, for the primary and
    for the secondary statistics. *)
Theorem C5_first_sample_averages_differ :
  let st := run (sampled SENSOR_TYPE_SHT30 [(2000, temp_humi 20 50)]) in
  (exists t, SensorTask_GetStats SENSOR_TYPE_SHT30 true true st = Some t
             /\ avg t = f32_of_int 20 /\ local_avg t = f32_zero /\ avg t <> local_avg t)
  /\ (exists t, SensorTask_GetSecondaryStats SENSOR_TYPE_SHT30 true true st = Some t
             /\ avg t = f32_of_int 50 /\ local_avg t = f32_zero /\ avg t <> local_avg t).
Proof.
  cbn zeta. split; eexists; (split; [vm_compute; reflexivity |]);
    vm_compute; repeat split; discriminate.
Qed.

(** * Further properties of sensor_task.c *)

(** ** Invariants of every run *)

(** The ring of every slot stays inside its arrays: at most
    [SENSOR_HISTORY_SIZE] samples are counted, the head is an index of the
    buffers, and while the ring is filling the head is the count. *)
Theorem history_ring_invariant calls i :
  let s := sensor_at i (run calls) in
  0 <= history_count s <= SENSOR_HISTORY_SIZE
  /\ 0 <= history_head s < SENSOR_HISTORY_SIZE
  /\ (history_count s < SENSOR_HISTORY_SIZE -> history_head s = history_count s)
  /\ length (history s) = Z.to_nat SENSOR_HISTORY_SIZE
  /\ length (secondary_history s) = Z.to_nat SENSOR_HISTORY_SIZE.
Proof.
  cbn zeta. destruct (wf_sensor_at_ring (run calls) i (wf_run calls)) as [? ? ? ? ?].
  repeat split; tauto || lia.
Qed.

(** The table always has one instance per kind; once the registry is
    initialised the instance at index [i] has kind [i]; only a kind between
    the sentinel and [SENSOR_TYPE_MAX] is ever enabled, and only in an
    initialised registry; the sentinel slot stays Offline. *)
Theorem registry_invariant calls :
  let st := run calls in
  length (sensors (g_sensor_manager st)) = SENSOR_TYPE_MAX
  /\ length (callbacks (g_sensor_manager st)) = SENSOR_TYPE_MAX
  /\ (is_initialized (g_sensor_manager st) = true ->
      forall i, (i < SENSOR_TYPE_MAX)%nat -> type (sensor_at i st) = i)
  /\ (forall i, is_enabled (sensor_at i st) = true ->
        is_initialized (g_sensor_manager st) = true
        /\ (SENSOR_TYPE_NONE < i < SENSOR_TYPE_MAX)%nat)
  /\ status (sensor_at SENSOR_TYPE_NONE st) = SENSOR_STATUS_OFFLINE
  /\ is_enabled (sensor_at SENSOR_TYPE_NONE st) = false.
Proof.
  cbn zeta. pose proof (wf_run calls) as Hwf.
  split; [apply Hwf |]. split; [apply Hwf |]. split.
  { intros Hi i Hlt. by apply wf_sensor_at_type. }
  split.
  { intros i He. destruct (wf_sensor_at_enabled _ _ Hwf He) as [? ?].
    split; [done |]. unfold SENSOR_TYPE_NONE. lia. }
  split; [by apply wf_sensor_at_none |].
  destruct (is_enabled (sensor_at SENSOR_TYPE_NONE (run calls))) eqn:E; [| done].
  destruct (wf_sensor_at_enabled _ _ Hwf E) as [_ ?]. unfold SENSOR_TYPE_NONE in *. lia.
Qed.

(** *** The state machine *)

Lemma fsm_ok_zero : fsm_ok zero_instance.
Proof. left. split; [done |]. unfold HARD_THRESHOLD. cbn. lia. Qed.

Lemma fsm_ok_upd_sensor t f st :
  (forall j, fsm_ok (sensor_at j st)) -> fsm_ok (f (sensor_at t st)) ->
  forall j, fsm_ok (sensor_at j (upd_sensor t f st)).
Proof.
  intros Hall Hf j. rewrite sensor_at_upd_sensor.
  destruct (decide _) as [[-> _] |]; [done | apply Hall].
Qed.

Lemma fsm_ok_Init mc tc st :
  (forall j, fsm_ok (sensor_at j st)) ->
  forall j, fsm_ok (sensor_at j (SensorTask_Init mc tc st).2).
Proof.
  intros Hall j. unfold SensorTask_Init.
  destruct (is_initialized (g_sensor_manager st)); [apply Hall |].
  destruct mc; cbn [negb].
  - destruct tc; cbn [negb snd]; unfold sensor_at; rsimpl;
      destruct j as [|[|[|[|j]]]]; cbn; try apply fsm_ok_zero;
      (left; split; [reflexivity | unfold HARD_THRESHOLD; lia]).
  - cbn [snd]. unfold sensor_at. rsimpl.
    destruct j as [|[|[|[|j]]]]; cbn; try apply fsm_ok_zero;
      (left; split; [reflexivity | unfold HARD_THRESHOLD; lia]).
Qed.

Lemma fsm_ok_EnableSensor t st :
  (forall j, fsm_ok (sensor_at j st)) ->
  forall j, fsm_ok (sensor_at j (SensorTask_EnableSensor t st).2).
Proof.
  intros Hall j. unfold SensorTask_EnableSensor.
  destruct (invalid_type t st); [apply Hall |].
  destruct (is_enabled (sensor_at t st)); cbn [negb snd]; [apply Hall |].
  rewrite sensor_at_notify. change (sensor_at j (upd_manager ?f ?s)) with (sensor_at j s).
  apply fsm_ok_upd_sensor; [done |].
  unfold fsm_ok. rsimpl. split; [by left |]. unfold HARD_THRESHOLD. lia.
Qed.

Lemma fsm_ok_DisableSensor t st :
  (forall j, fsm_ok (sensor_at j st)) ->
  forall j, fsm_ok (sensor_at j (SensorTask_DisableSensor t st).2).
Proof.
  intros Hall j. unfold SensorTask_DisableSensor.
  destruct (invalid_type t st); [apply Hall |].
  destruct (is_enabled (sensor_at t st)) eqn:He; cbn [negb snd]; [| apply Hall].
  rewrite sensor_at_notify. change (sensor_at j (upd_manager ?f ?s)) with (sensor_at j s).
  assert (fsm_ok (set_status SENSOR_STATUS_OFFLINE (set_is_enabled false (sensor_at t st))))
    as Hf.
  { pose proof (Hall t) as Ht. unfold fsm_ok in *. rewrite He in Ht. rsimpl.
    left. split; [done | apply Ht]. }
  destruct (deinit_func _); by apply fsm_ok_upd_sensor.
Qed.

Lemma fsm_ok_RegisterSensor t nm cbs h ms st :
  (forall j, fsm_ok (sensor_at j st)) ->
  forall j, fsm_ok (sensor_at j (SensorTask_RegisterSensor t nm cbs h ms st).2).
Proof.
  intros Hall j. unfold SensorTask_RegisterSensor.
  destruct cbs as [c |]; [| apply Hall].
  destruct (invalid_type t st) eqn:Hv; [apply Hall |].
  destruct (init_func c); [| apply Hall]. destruct (read_func c); [| apply Hall].
  cbn [snd].
  set (st1 := upd_sensor t _ st). set (st2 := upd_manager _ st1).
  assert (forall j', sensor_at j' st2 = sensor_at j' st1) as H21 by done.
  assert (length (sensors (g_sensor_manager st2)) = length (sensors (g_sensor_manager st)))
    as Hlen by (subst st2 st1; apply length_sensors_upd_sensor).
  assert (is_enabled (sensor_at t st2) = false) as He.
  { rewrite H21. subst st1. rewrite sensor_at_upd_sensor.
    destruct (decide _) as [_ | Hn]; [done |].
    rewrite sensor_at_out_of_range; [done |].
    destruct (decide (t < length (sensors (g_sensor_manager st)))%nat); [tauto | lia]. }
  unfold SensorTask_EnableSensor.
  assert (invalid_type t st2 = false) as -> by done.
  rewrite He. cbn [negb snd].
  rewrite sensor_at_notify.
  change (sensor_at j (upd_manager ?f ?s)) with (sensor_at j s).
  rewrite sensor_at_upd_sensor. rewrite Hlen.
  destruct (decide _) as [[-> Hlt] | Hn].
  - unfold fsm_ok. rsimpl. split; [by left |]. unfold HARD_THRESHOLD. lia.
  - rewrite H21. subst st1. rewrite sensor_at_upd_sensor.
    rewrite decide_False by done. apply Hall.
Qed.

Lemma fsm_ok_SetUpdateInterval t ms st :
  (forall j, fsm_ok (sensor_at j st)) ->
  forall j, fsm_ok (sensor_at j (SensorTask_SetUpdateInterval t ms st).2).
Proof.
  intros Hall j. unfold SensorTask_SetUpdateInterval.
  destruct (_ || _); [apply Hall |]. cbn [snd].
  apply fsm_ok_upd_sensor; [done |]. apply (Hall t).
Qed.

Lemma fsm_ok_HandleSensorError i st :
  wf (g_sensor_manager st) -> is_enabled (sensor_at i st) = true ->
  (forall j, fsm_ok (sensor_at j st)) ->
  forall j, fsm_ok (sensor_at j (SensorTask_HandleSensorError i st)).
Proof.
  intros Hwf He Hall.
  destruct (wf_sensor_at_enabled _ _ Hwf He) as [Hi Ht].
  assert (length (sensors (g_sensor_manager st)) = SENSOR_TYPE_MAX) as Hlen by apply Hwf.
  assert (type (sensor_at i st) = i) as Hty by (apply wf_sensor_at_type; [done | done | lia]).
  pose proof (Hall i) as Hfi. unfold fsm_ok in Hfi. rewrite He in Hfi.
  destruct Hfi as [Hst Hec]. unfold HARD_THRESHOLD in Hec.
  assert (wrap32 (error_count (sensor_at i st) + 1) = error_count (sensor_at i st) + 1)
    as Hw by (unfold wrap32; apply Z.mod_small; lia).
  unfold SensorTask_HandleSensorError.
  set (st1 := upd_sensor i _ st).
  assert (sensor_at i st1
          = set_error_count (error_count (sensor_at i st) + 1) (sensor_at i st)) as Hs1
    by (subst st1; rewrite sensor_at_upd_same, Hw; [done | lia]).
  assert (forall j, j <> i -> sensor_at j st1 = sensor_at j st) as Ho1
    by (intros j Hj; subst st1; by rewrite sensor_at_upd_other).
  assert (length (sensors (g_sensor_manager st1)) = SENSOR_TYPE_MAX) as Hlen1
    by (subst st1; by rewrite length_sensors_upd_sensor).
  assert (is_initialized (g_sensor_manager st1) = true) as Hi1 by done.
  clearbody st1. rewrite Hs1. rsimpl.
  destruct (Z.eqb_spec (error_count (sensor_at i st) + 1) SOFT_THRESHOLD) as [H5 | H5].
  - rewrite sensor_at_upd_same, Hs1 by lia. rsimpl.
    assert ((error_count (sensor_at i st) + 1 =? HARD_THRESHOLD) = false) as ->
      by (rewrite H5; reflexivity).
    intros j. rewrite sensor_at_upd_sensor.
    destruct (decide _) as [[-> _] | Hn].
    + rewrite Hs1. unfold fsm_ok. rsimpl. rewrite He.
      split; [by left |]. unfold HARD_THRESHOLD, SOFT_THRESHOLD in *. lia.
    + destruct (decide (j = i)) as [-> | Hj]; [exfalso; apply Hn; split; [done | lia] |].
      rewrite Ho1 by done. apply Hall.
  - rewrite Hs1. rsimpl.
    destruct (Z.eqb_spec (error_count (sensor_at i st) + 1) HARD_THRESHOLD) as [H10 | H10].
    + rewrite Hty.
      assert (invalid_type i st1 = false) as Hv1 by (by apply invalid_type_false).
      assert (is_enabled (sensor_at i st1) = true) as He1 by (by rewrite Hs1).
      destruct (DisableSensor_enabled i st1 Hv1 He1)
        as (_ & Hs3 & Ho3 & _ & _ & _ & _ & _ & _ & Hlen3).
      set (st3 := (SensorTask_DisableSensor i st1).2) in *. clearbody st3.
      intros j. rewrite sensor_at_notify, sensor_at_upd_sensor.
      destruct (decide _) as [[-> _] | Hn].
      * rewrite Hs3, Hs1. unfold fsm_ok. rsimpl. right. done.
      * destruct (decide (j = i)) as [-> | Hj]; [exfalso; apply Hn; split; [done | lia] |].
        rewrite Ho3, Ho1 by done. apply Hall.
    + intros j. destruct (decide (j = i)) as [-> | Hj].
      * rewrite Hs1. unfold fsm_ok. rsimpl. rewrite He.
        split; [done |]. unfold HARD_THRESHOLD in *. lia.
      * rewrite Ho1 by done. apply Hall.
Qed.

Lemma fsm_ok_UpdateSensor i rd lock tick st :
  is_enabled (sensor_at i st) = true ->
  (forall j, fsm_ok (sensor_at j st)) ->
  forall j, fsm_ok (sensor_at j (SensorTask_UpdateSensor i rd lock tick st).2).
Proof.
  intros He Hall. unfold SensorTask_UpdateSensor.
  destruct (_ <=? _)%nat; [done |].
  destruct (read_func _) as [f |]; [| done].
  pose proof (Hall i) as Hfi. unfold fsm_ok in Hfi. rewrite He in Hfi.
  set (st1 := upd_sensor i (adapter_read rd) _).
  assert (forall j, fsm_ok (sensor_at j st1)) as Hall1.
  { subst st1. apply fsm_ok_upd_sensor; [done |].
    change (sensor_at i (log_call ?a ?b ?c st)) with (sensor_at i st).
    unfold fsm_ok, adapter_read. rsimpl. by rewrite He. }
  destruct (read_result rd); [| done]. destruct lock; [| done]. cbn [snd].
  apply fsm_ok_upd_sensor; [done |].
  assert (is_enabled (sensor_at i st1) = true
          /\ status (sensor_at i st1) = status (sensor_at i st)) as [He1 Hst1].
  { subst st1. rewrite sensor_at_upd_sensor. destruct (decide _); done. }
  destruct (record_sample_fields tick (sensor_at i st1))
    as (_ & _ & E3 & _ & _ & E6 & E7 & _).
  unfold fsm_ok. rewrite E3, E6, E7, He1, Hst1.
  split; [apply Hfi |]. unfold HARD_THRESHOLD. lia.
Qed.

Lemma fsm_ok_poll_sensor i o st :
  wf (g_sensor_manager st) -> is_enabled (sensor_at i st) = true ->
  (forall j, fsm_ok (sensor_at j st)) ->
  forall j, fsm_ok (sensor_at j (poll_sensor i o st)).
Proof.
  intros Hwf He Hall. unfold poll_sensor.
  destruct (_ <=? _); [| done].
  destruct (wf_sensor_at_enabled _ _ Hwf He) as [Hi Ht].
  assert (i < length (sensors (g_sensor_manager st)))%nat as Hlt
    by (rewrite (wf_sensors _ Hwf); lia).
  pose proof (fsm_ok_UpdateSensor i (read_outcome o) (read_lock o) (stamp_tick o) st He Hall)
    as Hf.
  pose proof (wf_UpdateSensor i (read_outcome o) (read_lock o) (stamp_tick o) st Hwf) as Hwf1.
  pose proof (UpdateSensor_failed i (read_outcome o) (read_lock o) (stamp_tick o) st Hlt)
    as Hfail.
  cbn zeta in Hfail.
  destruct (SensorTask_UpdateSensor _ _ _ _ st) as [ok st1]. cbn [fst snd] in *.
  destruct ok.
  - intros j. rewrite sensor_at_notify. apply fsm_ok_upd_sensor; [done |]. apply (Hf i).
  - destruct (Hfail eq_refl) as (_ & Hen & _).
    apply fsm_ok_HandleSensorError; [done | congruence | done].
Qed.

Lemma fsm_ok_MainLoop_visit i o st :
  wf (g_sensor_manager st) ->
  (forall j, fsm_ok (sensor_at j st)) ->
  forall j, fsm_ok (sensor_at j (MainLoop_visit i o st)).
Proof.
  intros Hwf Hall. unfold MainLoop_visit.
  destruct (is_enabled (sensor_at i st)) eqn:He; cbn [negb]; [| done].
  destruct (wf_sensor_at_enabled _ _ Hwf He) as [Hi Ht].
  destruct (SensorStatus_eqb _ _); [| by apply fsm_ok_poll_sensor].
  destruct (InitializeSensor_standing i (init_result o) st) as (Hm & _).
  destruct (SensorTask_InitializeSensor i (init_result o) st) as [ok st1].
  cbn [fst snd] in *.
  assert (forall j, sensor_at j st1 = sensor_at j st) as Hsen
    by (intros j; unfold sensor_at; by rewrite Hm).
  assert (wf (g_sensor_manager st1)) as Hwf1 by (by rewrite Hm).
  assert (forall j, fsm_ok (sensor_at j st1)) as Hall1 by (intros j; by rewrite Hsen).
  destruct ok.
  - set (st2 := SensorTask_NotifyEvent _ _ _ _ _).
    assert (sensor_at i st2 =
            set_last_update_time (init_tick o)
              (set_status SENSOR_STATUS_ONLINE (sensor_at i st))) as Hs2.
    { subst st2. rewrite sensor_at_notify, sensor_at_upd_same, Hsen; [done |].
      rewrite Hm, (wf_sensors _ Hwf). lia. }
    apply fsm_ok_poll_sensor.
    + subst st2. apply wf_notify, wf_upd_sensor; rsimpl; try done.
      * by apply wf_sensor_at_name.
      * by intros [? ? ? ? ?].
      * intros _. rewrite Hm. split; [done | lia].
      * lia.
    + by rewrite Hs2.
    + subst st2. intros j. rewrite sensor_at_notify.
      apply fsm_ok_upd_sensor; [done |]. rewrite Hsen.
      pose proof (Hall i) as Hfi. unfold fsm_ok in *. rsimpl. rewrite He in *.
      split; [by right | apply Hfi].
  - apply fsm_ok_HandleSensorError; [done | by rewrite Hsen | done].
Qed.

Lemma fsm_ok_run calls i : fsm_ok (sensor_at i (run calls)).
Proof.
  revert i. induction calls as [| c calls IH] using rev_ind.
  - intros i. unfold sensor_at.
    destruct (sensors (g_sensor_manager (run [])) !! i) as [s |] eqn:E;
      [| apply fsm_ok_zero].
    apply list_elem_of_lookup_2 in E. apply elem_of_replicate in E as [-> _].
    apply fsm_ok_zero.
  - rewrite run_snoc. pose proof (wf_run calls) as Hwf.
    destruct c; cbn [run_call].
    + by apply fsm_ok_Init.
    + by apply fsm_ok_RegisterSensor.
    + by apply fsm_ok_EnableSensor.
    + by apply fsm_ok_DisableSensor.
    + by apply fsm_ok_SetUpdateInterval.
    + done.
    + intros j. unfold sensor_at. rewrite manager_GetPrimaryHistory. apply IH.
    + intros j. unfold sensor_at. rewrite manager_GetSecondaryHistory. apply IH.
    + destruct (_ && _); [| done]. by apply fsm_ok_MainLoop_visit.
Qed.


(** In every run each instance is in a state of the machine: enabled,
    Initializing or Online, with fewer than ten failures counted; or
    disabled, Offline with fewer than ten or in Error with exactly ten.  So
    the error count never exceeds the hard threshold, an instance is in Error
    exactly when it has counted ten failures, and an instance that
    [SENSOR_IS_HEALTHY] accepts is enabled. *)
Theorem state_machine_invariant calls i :
  let s := sensor_at i (run calls) in
  fsm_ok s
  /\ 0 <= error_count s <= HARD_THRESHOLD
  /\ (status s = SENSOR_STATUS_ERROR <-> error_count s = HARD_THRESHOLD)
  /\ (SENSOR_IS_HEALTHY s = true -> is_enabled s = true).
Proof.
  cbn zeta. pose proof (fsm_ok_run calls i) as H.
  split; [exact H |].
  unfold fsm_ok, HARD_THRESHOLD, SENSOR_IS_HEALTHY in *.
  destruct (is_enabled (sensor_at i (run calls))).
  - destruct H as [[-> | ->] Hc]; (split; [lia |]); (split; [split; [done | lia] | done]).
  - destruct H as [[-> Hc] | [-> Hc]]; (split; [lia |]);
      (split; [split; [done || lia | done || lia] | done]).
Qed.

(** ** Error is terminal *)

Lemma MainLoop_visit_disabled i o st :
  is_enabled (sensor_at i st) = false -> MainLoop_visit i o st = st.
Proof. intros He. unfold MainLoop_visit. by rewrite He. Qed.

(** An instance in Error has failed ten times and is disabled: no visit of
    the scheduler and no [SensorTask_DisableSensor] changes anything, and
    the data, statistics and history getters answer as for a sensor without
    data, although its history is still in the registry. *)
Theorem error_is_terminal calls i :
  let st := run calls in
  status (sensor_at i st) = SENSOR_STATUS_ERROR ->
  error_count (sensor_at i st) = HARD_THRESHOLD
  /\ is_enabled (sensor_at i st) = false
  /\ (forall o, MainLoop_visit i o st = st)
  /\ (SensorTask_DisableSensor i st).2 = st
  /\ (forall out lock, SensorTask_GetSensorData i out lock st = None)
  /\ (forall out lock, SensorTask_GetStats i out lock st = None)
  /\ (forall lock, SensorTask_GetPrimaryHistory i lock st = ((0, None), st)).
Proof.
  cbn zeta. intros Hst.
  pose proof (fsm_ok_run calls i) as H. unfold fsm_ok in H.
  destruct (is_enabled (sensor_at i (run calls))) eqn:He.
  { destruct H as [[H | H] _]; congruence. }
  destruct H as [[H _] | [_ Hec]]; [congruence |].
  split; [done |]. split; [done |]. split.
  { intros o. by apply MainLoop_visit_disabled. }
  split.
  { rewrite DisableSensor_disabled by done. done. }
  split.
  { intros out lock. unfold SensorTask_GetSensorData. rewrite He.
    by destruct (_ || _). }
  split.
  { intros out lock. unfold SensorTask_GetStats. rewrite He. by destruct (_ || _). }
  intros lock. unfold SensorTask_GetPrimaryHistory. rewrite He. by destruct (_ || _).
Qed.

Lemma error_is_terminal_witness :
  let st := run (failed_inits 10) in
  status (sensor_at SENSOR_TYPE_GY30 st) = SENSOR_STATUS_ERROR
  /\ error_count (sensor_at SENSOR_TYPE_GY30 st) = HARD_THRESHOLD.
Proof.
  cbn zeta.
  assert (status (sensor_at SENSOR_TYPE_GY30 (run (failed_inits 10))) = SENSOR_STATUS_ERROR)
    as H by (vm_compute; reflexivity).
  split; [exact H |].
  apply (error_is_terminal (failed_inits 10) SENSOR_TYPE_GY30). exact H.
Defined.

(** ** A visit concerns one sensor *)

Lemma others_DisableSensor t st j :
  j <> t -> sensor_at j (SensorTask_DisableSensor t st).2 = sensor_at j st.
Proof.
  intros Hj. unfold SensorTask_DisableSensor.
  destruct (invalid_type t st); [done |].
  destruct (is_enabled _); cbn [snd]; [| done].
  rewrite sensor_at_notify. change (sensor_at j (upd_manager ?f ?s)) with (sensor_at j s).
  rewrite sensor_at_upd_other by done. by destruct (deinit_func _).
Qed.

Lemma table_DisableSensor t st :
  callbacks (g_sensor_manager (SensorTask_DisableSensor t st).2)
  = callbacks (g_sensor_manager st)
  /\ is_initialized (g_sensor_manager (SensorTask_DisableSensor t st).2)
     = is_initialized (g_sensor_manager st).
Proof.
  unfold SensorTask_DisableSensor.
  destruct (invalid_type t st); [done |].
  destruct (is_enabled _); cbn [snd]; [| done].
  rewrite manager_notify. by destruct (deinit_func _).
Qed.

Lemma others_HandleSensorError i st j :
  type (sensor_at i st) = i -> (i < length (sensors (g_sensor_manager st)))%nat ->
  j <> i ->
  sensor_at j (SensorTask_HandleSensorError i st) = sensor_at j st.
Proof.
  intros Hty Hlt Hj. unfold SensorTask_HandleSensorError.
  set (st1 := upd_sensor i _ st).
  assert (sensor_at j st1 = sensor_at j st) as H1
    by (subst st1; by rewrite sensor_at_upd_other).
  assert (type (sensor_at i st1) = i) as Hty1
    by (subst st1; rewrite sensor_at_upd_same by done; done).
  assert (i < length (sensors (g_sensor_manager st1)))%nat as Hlt1
    by (subst st1; by rewrite length_sensors_upd_sensor).
  clearbody st1.
  set (st2 := if _ =? SOFT_THRESHOLD then _ else st1).
  assert (sensor_at j st2 = sensor_at j st1 /\ type (sensor_at i st2) = i) as [H2 Hty2].
  { subst st2. destruct (_ =? SOFT_THRESHOLD); [| done].
    rewrite sensor_at_upd_other by done. by rewrite sensor_at_upd_same by done. }
  clearbody st2. destruct (_ =? HARD_THRESHOLD); [| congruence].
  rewrite sensor_at_notify, sensor_at_upd_other by done.
  rewrite Hty2, others_DisableSensor by done. congruence.
Qed.

Lemma others_UpdateSensor i rd lock tick st j :
  j <> i -> sensor_at j (SensorTask_UpdateSensor i rd lock tick st).2 = sensor_at j st.
Proof.
  intros Hj. unfold SensorTask_UpdateSensor.
  destruct (_ <=? _)%nat; [done |]. destruct (read_func _); [| done].
  destruct (read_result rd); cbn [snd]; [destruct lock; cbn [snd] |];
    by rewrite ?sensor_at_upd_other by done.
Qed.

Lemma type_UpdateSensor i rd lock tick st :
  type (sensor_at i (SensorTask_UpdateSensor i rd lock tick st).2) = type (sensor_at i st)
  /\ length (sensors (g_sensor_manager (SensorTask_UpdateSensor i rd lock tick st).2))
     = length (sensors (g_sensor_manager st)).
Proof.
  unfold SensorTask_UpdateSensor.
  destruct (_ <=? _)%nat; [done |]. destruct (read_func _) as [f |]; [| done].
  set (st1 := upd_sensor i (adapter_read rd) _).
  assert (type (sensor_at i st1) = type (sensor_at i st)
          /\ length (sensors (g_sensor_manager st1))
             = length (sensors (g_sensor_manager st))) as [H1 L1].
  { subst st1. rewrite length_sensors_upd_sensor. split; [| done].
    rewrite sensor_at_upd_sensor. by destruct (decide _). }
  destruct (read_result rd); cbn [snd]; [| done].
  destruct lock; cbn [snd]; [| done].
  rewrite length_sensors_upd_sensor. split; [| done].
  rewrite sensor_at_upd_sensor. destruct (decide _); [| done].
  by destruct (record_sample_fields tick (sensor_at i st1)) as (-> & _).
Qed.

Lemma others_poll_sensor i o st j :
  type (sensor_at i st) = i -> (i < length (sensors (g_sensor_manager st)))%nat ->
  j <> i -> sensor_at j (poll_sensor i o st) = sensor_at j st.
Proof.
  intros Hty Hlt Hj. unfold poll_sensor. destruct (_ <=? _); [| done].
  pose proof (others_UpdateSensor i (read_outcome o) (read_lock o) (stamp_tick o) st j Hj)
    as Ho.
  destruct (type_UpdateSensor i (read_outcome o) (read_lock o) (stamp_tick o) st)
    as [Ht Hl].
  destruct (SensorTask_UpdateSensor _ _ _ _ st) as [ok st1]. cbn [snd] in *.
  destruct ok.
  - by rewrite sensor_at_notify, sensor_at_upd_other.
  - rewrite others_HandleSensorError; [done | congruence | lia | done].
Qed.

Lemma others_MainLoop_visit i o st j :
  wf (g_sensor_manager st) -> j <> i ->
  sensor_at j (MainLoop_visit i o st) = sensor_at j st.
Proof.
  intros Hwf Hj.
  unfold MainLoop_visit.
  destruct (is_enabled (sensor_at i st)) eqn:He; cbn [negb]; [| done].
  destruct (wf_sensor_at_enabled _ _ Hwf He) as [Hi Ht].
  assert (type (sensor_at i st) = i) as Hty by (apply wf_sensor_at_type; [done | done | lia]).
  assert (i < length (sensors (g_sensor_manager st)))%nat as Hlt
    by (rewrite (wf_sensors _ Hwf); lia).
  destruct (SensorStatus_eqb _ _); [| by apply others_poll_sensor].
  destruct (InitializeSensor_standing i (init_result o) st) as (Hm & _).
  destruct (SensorTask_InitializeSensor i (init_result o) st) as [ok st1].
  cbn [fst snd] in *.
  assert (forall j, sensor_at j st1 = sensor_at j st) as Hsen
    by (intros j'; unfold sensor_at; by rewrite Hm).
  destruct ok.
  - rewrite others_poll_sensor; [| | | done].
    + by rewrite sensor_at_notify, sensor_at_upd_other, Hsen.
    + rewrite sensor_at_notify, sensor_at_upd_same by (rewrite Hm; done).
      by rewrite Hsen.
    + by rewrite manager_notify, length_sensors_upd_sensor, Hm.
  - rewrite others_HandleSensorError; [by rewrite Hsen | by rewrite Hsen | by rewrite Hm | done].
Qed.

(** A visit of the scheduler to sensor [i] leaves every other instance as
    it was: a failing or escalating sensor does not disturb the others. *)
Theorem visit_touches_one_sensor calls i o j :
  j <> i ->
  sensor_at j (MainLoop_visit i o (run calls)) = sensor_at j (run calls).
Proof. intros Hj. apply others_MainLoop_visit; [apply wf_run | done]. Qed.

Lemma visit_touches_one_sensor_witness :
  sensor_at SENSOR_TYPE_SHT30
    (MainLoop_visit SENSOR_TYPE_GY30 (init_fails_at 1000) (run (failed_inits 9)))
  = sensor_at SENSOR_TYPE_SHT30 (run (failed_inits 9)).
Proof.
  apply (visit_touches_one_sensor (failed_inits 9) SENSOR_TYPE_GY30 (init_fails_at 1000)
           SENSOR_TYPE_SHT30).
  discriminate.
Defined.

(** ** The rescan of the ring *)

Lemma start_index_ring s :
  ring_ok s ->
  start_index s = (if history_count s <? SENSOR_HISTORY_SIZE then 0 else history_head s).
Proof.
  intros [_ _ Hhead Hcount Hfill]. unfold start_index, c_rem, SENSOR_HISTORY_SIZE in *.
  destruct (Z.ltb_spec (history_count s) 20) as [Hlt | Hge].
  - rewrite (Hfill Hlt). replace (history_count s - history_count s + 20) with 20 by lia.
    reflexivity.
  - replace (history_head s - history_count s + 20) with (history_head s) by lia.
    apply Z.rem_small. lia.
Qed.

(** The loop, read as three folds over the samples it visits. *)
Lemma scan_loop s start w sw (n : nat) a0 :
  (n <= length w)%nat -> (n <= length sw)%nat ->
  (forall j, 0 <= j < Z.of_nat n ->
     w !! Z.to_nat j = Some (arr_get (history s) (c_rem (start + j) SENSOR_HISTORY_SIZE))) ->
  (forall j, 0 <= j < Z.of_nat n ->
     sw !! Z.to_nat j
     = Some (arr_get (secondary_history s) (c_rem (start + j) SENSOR_HISTORY_SIZE))) ->
  foldl (scan_step s start) a0 (seqZ 0 (Z.of_nat n))
  = {| p_sum := foldl f32_add (p_sum a0) (take n w);
       p_min := foldl min_step (p_min a0) (take n w);
       p_max := foldl max_step (p_max a0) (take n w);
       s_sum := if is_sht30 s then foldl f32_add (s_sum a0) (take n sw) else s_sum a0;
       s_min := if is_sht30 s then foldl min_step (s_min a0) (take n sw) else s_min a0;
       s_max := if is_sht30 s then foldl max_step (s_max a0) (take n sw) else s_max a0 |}.
Proof.
  induction n as [| n IH]; intros Hw Hsw Hr Hsr.
  - cbn. destruct a0, (is_sht30 s); reflexivity.
  - rewrite seqZ_S, foldl_app, IH;
      [| lia | lia | intros j Hj; apply Hr; lia | intros j Hj; apply Hsr; lia].
    cbn [foldl]. rewrite Z.add_0_l.
    specialize (Hr (Z.of_nat n)). rewrite Nat2Z.id in Hr.
    specialize (Hsr (Z.of_nat n)). rewrite Nat2Z.id in Hsr.
    rewrite (take_S_r w n _ (Hr ltac:(lia))), (take_S_r sw n _ (Hsr ltac:(lia))).
    rewrite !foldl_app. cbn [foldl].
    unfold scan_step. cbn [p_sum p_min p_max s_sum s_min s_max].
    destruct (is_sht30 s); reflexivity.
Qed.

Lemma rescan_window s :
  ring_ok s ->
  let first := arr_get (history s) (start_index s) in
  let sfirst := arr_get (secondary_history s) (start_index s) in
  p_sum (rescan s) = f32_sum (window s)
  /\ p_min (rescan s) = foldl min_step first (window s)
  /\ p_max (rescan s) = foldl max_step first (window s)
  /\ (is_sht30 s = true ->
      s_sum (rescan s) = f32_sum (secondary_window s)
      /\ s_min (rescan s) = foldl min_step sfirst (secondary_window s)
      /\ s_max (rescan s) = foldl max_step sfirst (secondary_window s)).
Proof.
  intros Hr. pose proof Hr as [Hh Hs Hhead Hcount Hfill]. cbn zeta.
  unfold rescan. cbn zeta.
  rewrite <- (Z2Nat.id (history_count s)) at 1 2 3 4 5 6 by lia.
  rewrite !(scan_loop s (start_index s) (window s) (secondary_window s)).
  - cbn [p_sum p_min p_max s_sum s_min s_max].
    rewrite !take_ge by (unfold window, secondary_window; rewrite length_window_of; done || lia).
    split; [done |]. split; [done |]. split; [done |].
    intros ->. done.
  - unfold window. rewrite length_window_of by done. lia.
  - unfold secondary_window. rewrite length_window_of by done. lia.
  - intros j Hj. rewrite start_index_ring by done.
    apply window_of_lookup; try done. lia.
  - intros j Hj. rewrite start_index_ring by done.
    apply window_of_lookup; try done. lia.
Qed.

(** The first sample the loops read is the oldest one. *)
Lemma window_first h head count :
  length h = Z.to_nat SENSOR_HISTORY_SIZE ->
  0 <= head < SENSOR_HISTORY_SIZE -> 1 <= count <= SENSOR_HISTORY_SIZE ->
  (count < SENSOR_HISTORY_SIZE -> head = count) ->
  exists rest,
    window_of h head count
    = arr_get h (if count <? SENSOR_HISTORY_SIZE then 0 else head) :: rest.
Proof.
  intros Hlen Hhead Hcount Hfill.
  pose proof (window_of_lookup h head count 0 Hlen Hhead ltac:(lia) Hfill ltac:(lia)) as H0.
  rewrite Z.add_0_r, c_rem_small in H0
    by (destruct (count <? SENSOR_HISTORY_SIZE); unfold SENSOR_HISTORY_SIZE in *; lia).
  change (Z.to_nat 0) with 0%nat in H0.
  destruct (window_of h head count) as [| x rest]; [done |].
  cbn in H0. injection H0 as ->. by exists rest.
Qed.

(** *** Minimum and maximum by one pass *)

Lemma fold_min_step_spec m0 w :
  let m := foldl min_step m0 w in
  (m = m0 \/ m ∈ w) /\ f32_le m m0 /\ (forall x, x ∈ w -> f32_lt x m = false).
Proof.
  cbn zeta. induction w as [| x w IH] using rev_ind.
  - cbn. split; [by left |]. split; [apply f32_le_refl |]. intros x Hx.
    by apply elem_of_nil in Hx.
  - rewrite foldl_app. cbn [foldl]. destruct IH as (Hin & Hle & Hall).
    set (m := foldl min_step m0 w) in *. unfold min_step.
    destruct (f32_lt x m) eqn:E.
    + split; [right; apply elem_of_app; right; by apply list_elem_of_singleton |].
      split; [eapply f32_le_trans; [right; exact E | done] |].
      intros y Hy. apply elem_of_app in Hy as [Hy | Hy].
      * destruct (f32_lt y x) eqn:Eyx; [| done].
        rewrite <- (Hall y Hy). symmetry. by eapply f32_lt_trans.
      * apply list_elem_of_singleton in Hy as ->. apply f32_lt_irrefl.
    + split; [destruct Hin as [-> | Hin]; [by left | right; apply elem_of_app; by left] |].
      split; [done |].
      intros y Hy. apply elem_of_app in Hy as [Hy | Hy]; [by apply Hall |].
      by apply list_elem_of_singleton in Hy as ->.
Qed.

Lemma fold_max_step_spec m0 w :
  let m := foldl max_step m0 w in
  (m = m0 \/ m ∈ w) /\ f32_le m0 m /\ (forall x, x ∈ w -> f32_gt x m = false).
Proof.
  cbn zeta. induction w as [| x w IH] using rev_ind.
  - cbn. split; [by left |]. split; [apply f32_le_refl |]. intros x Hx.
    by apply elem_of_nil in Hx.
  - rewrite foldl_app. cbn [foldl]. destruct IH as (Hin & Hle & Hall).
    set (m := foldl max_step m0 w) in *. unfold max_step.
    destruct (f32_gt x m) eqn:E.
    + split; [right; apply elem_of_app; right; by apply list_elem_of_singleton |].
      split; [eapply f32_le_trans; [done | right; exact E] |].
      intros y Hy. apply elem_of_app in Hy as [Hy | Hy].
      * destruct (f32_gt y x) eqn:Eyx; [| done].
        rewrite <- (Hall y Hy). symmetry. unfold f32_gt in *.
        eapply f32_lt_trans; [exact E | exact Eyx].
      * apply list_elem_of_singleton in Hy as ->. apply f32_lt_irrefl.
    + split; [destruct Hin as [-> | Hin]; [by left | right; apply elem_of_app; by left] |].
      split; [done |].
      intros y Hy. apply elem_of_app in Hy as [Hy | Hy]; [by apply Hall |].
      by apply list_elem_of_singleton in Hy as ->.
Qed.

Lemma fold_min_is_minimum x w : is_minimum (foldl min_step x (x :: w)) (x :: w).
Proof.
  destruct (fold_min_step_spec x (x :: w)) as ([E | Hin] & _ & Hall).
  - split; [rewrite E; apply elem_of_cons; by left | done].
  - by split.
Qed.

Lemma fold_max_is_maximum x w : is_maximum (foldl max_step x (x :: w)) (x :: w).
Proof.
  destruct (fold_max_step_spec x (x :: w)) as ([E | Hin] & _ & Hall).
  - split; [rewrite E; apply elem_of_cons; by left | done].
  - by split.
Qed.

(** *** The windowed statistics after a sample that is not the first *)

Lemma windowed_of_rescan h head count lmin lmax sum first :
  length h = Z.to_nat SENSOR_HISTORY_SIZE ->
  0 <= head < SENSOR_HISTORY_SIZE -> 1 <= count <= SENSOR_HISTORY_SIZE ->
  (count < SENSOR_HISTORY_SIZE -> head = count) ->
  first = arr_get h (if count <? SENSOR_HISTORY_SIZE then 0 else head) ->
  lmin = foldl min_step first (window_of h head count) ->
  lmax = foldl max_step first (window_of h head count) ->
  sum = f32_sum (window_of h head count) ->
  is_minimum lmin (window_of h head count)
  /\ is_maximum lmax (window_of h head count)
  /\ f32_div sum (f32_of_int count) = f32_mean (window_of h head count).
Proof.
  intros Hlen Hhead Hcount Hfill -> -> -> ->.
  pose proof (length_window_of h head count Hlen ltac:(lia)) as Hl.
  destruct (window_first h head count Hlen Hhead Hcount Hfill) as [rest Hw].
  rewrite Hw in *.
  split; [apply fold_min_is_minimum |]. split; [apply fold_max_is_maximum |].
  unfold f32_mean. rewrite Hl, Z2Nat.id by lia. done.
Qed.

Lemma rescan_windowed s :
  ring_ok s -> 1 <= history_count s ->
  (is_minimum (p_min (rescan s)) (window s)
   /\ is_maximum (p_max (rescan s)) (window s)
   /\ f32_div (p_sum (rescan s)) (f32_of_int (history_count s)) = f32_mean (window s))
  /\ (is_sht30 s = true ->
      is_minimum (s_min (rescan s)) (secondary_window s)
      /\ is_maximum (s_max (rescan s)) (secondary_window s)
      /\ f32_div (s_sum (rescan s)) (f32_of_int (history_count s))
         = f32_mean (secondary_window s)).
Proof.
  intros Hr Hc.
  destruct (rescan_window s Hr) as (Hsum & Hmin & Hmax & Hsecw).
  pose proof (start_index_ring s Hr) as Hstart.
  pose proof Hr as [Hh Hs Hhead Hcount Hfill].
  unfold window, secondary_window in *.
  split.
  - apply (windowed_of_rescan (history s) (history_head s) (history_count s)
             (p_min (rescan s)) (p_max (rescan s)) (p_sum (rescan s))
             (arr_get (history s) (start_index s)) Hh Hhead ltac:(lia) Hfill).
    + by rewrite Hstart.
    + exact Hmin.
    + exact Hmax.
    + exact Hsum.
  - intros Hsht. destruct (Hsecw Hsht) as (Hssum & Hsmin & Hsmax).
    apply (windowed_of_rescan (secondary_history s) (history_head s) (history_count s)
             (s_min (rescan s)) (s_max (rescan s)) (s_sum (rescan s))
             (arr_get (secondary_history s) (start_index s)) Hs Hhead ltac:(lia) Hfill).
    + by rewrite Hstart.
    + exact Hsmin.
    + exact Hsmax.
    + exact Hssum.
Qed.

Lemma record_sample_windowed tick s :
  ring_ok s -> 1 <= history_count s ->
  let s' := record_sample tick s in
  (is_minimum (local_min (stats s')) (window s')
   /\ is_maximum (local_max (stats s')) (window s')
   /\ local_avg (stats s') = f32_mean (window s')
   /\ avg (stats s') = local_avg (stats s'))
  /\ (is_sht30 s = true ->
      is_minimum (local_min (secondary_stats s')) (secondary_window s')
      /\ is_maximum (local_max (secondary_stats s')) (secondary_window s')
      /\ local_avg (secondary_stats s') = f32_mean (secondary_window s')
      /\ avg (secondary_stats s') = local_avg (secondary_stats s')).
Proof.
  intros Hr Hc. cbn zeta.
  pose proof (ring_ok_record_sample tick s Hr) as Hr'.
  pose proof (record_sample_count_pos tick s ltac:(lia)) as Hc'.
  destruct (record_sample_stats_later tick s Hc) as [Hst Hsec].
  destruct (record_sample_fields tick s) as (Hty & _).
  revert Hr' Hc' Hst Hsec Hty. generalize (record_sample tick s).
  intros s' Hr' Hc' Hst Hsec Hty.
  destruct (rescan_windowed s' Hr' ltac:(lia)) as [(H1 & H2 & H3) Hsecw].
  split.
  - rewrite Hst.
    match goal with |- context [window_stats ?a ?b ?c ?d ?t] =>
      destruct (window_stats_fields a b c d t) as (_ & _ & E1 & E2 & Havg & E3)
    end.
    rewrite E1, E2, E3, Havg.
    split; [exact H1 |]. split; [exact H2 |]. split; [exact H3 | reflexivity].
  - intros Hsht. rewrite Hsec, Hsht.
    assert (is_sht30 s' = true) as Hsht' by (unfold is_sht30 in *; by rewrite Hty).
    destruct (Hsecw Hsht') as (G1 & G2 & G3).
    match goal with |- context [window_stats ?a ?b ?c ?d ?t] =>
      destruct (window_stats_fields a b c d t) as (_ & _ & E1 & E2 & Havg & E3)
    end.
    rewrite E1, E2, E3, Havg.
    split; [exact G1 |]. split; [exact G2 |]. split; [exact G3 | reflexivity].
Qed.

Lemma sample_all_count reads s :
  ring_ok s ->
  history_count (sample_all reads s)
  = Z.min SENSOR_HISTORY_SIZE (history_count s + Z.of_nat (length reads)).
Proof.
  intros Hr.
  pose proof (sample_all_ring_ok reads s Hr) as Hr'.
  pose proof (length_window _ Hr') as Hl.
  rewrite window_sample_all, length_keep_last, length_app, length_map, length_window in Hl
    by done.
  destruct Hr as [_ _ _ Hc _]. destruct Hr' as [_ _ _ Hc' _].
  unfold SENSOR_HISTORY_SIZE in *. lia.
Qed.

Lemma sample_all_sht30 reads s : is_sht30 (sample_all reads s) = is_sht30 s.
Proof. unfold is_sht30. by rewrite sample_all_type. Qed.

Lemma secondary_window_sample_all reads s :
  ring_ok s -> is_sht30 s = true ->
  secondary_window (sample_all reads s)
  = keep_last (Z.to_nat SENSOR_HISTORY_SIZE)
      (secondary_window s ++ map (fun r => secondary_of (type s) r.1) reads).
Proof.
  intros Hr Hsht. induction reads as [| r reads IH] using rev_ind.
  - cbn. rewrite app_nil_r. symmetry. apply keep_last_short.
    unfold secondary_window. rewrite length_window_of by (destruct Hr; done || lia).
    destruct Hr. lia.
  - rewrite sample_all_snoc, secondary_window_record_sample.
    + change (secondary_window (adapter_read ?rd ?x)) with (secondary_window x).
      change (type (adapter_read ?rd ?x)) with (type x).
      change (values (data (adapter_read (successful_read r.1) ?x))) with r.1.
      rewrite IH, sample_all_type, map_app, app_assoc. cbn [map].
      apply keep_last_snoc. unfold SENSOR_HISTORY_SIZE. lia.
    + apply ring_ok_adapter_read, sample_all_ring_ok, Hr.
    + change (is_sht30 (adapter_read ?rd ?x)) with (is_sht30 x).
      by rewrite sample_all_sht30.
Qed.

(** ** What [SensorTask_GetStats] reports from the second sample on *)

(** Once a sensor holds a sample, after any further successful reads the
    statistics that [SensorTask_GetStats] hands out are those of the history
    window, which holds the most recent [SENSOR_HISTORY_SIZE] samples: the
    windowed minimum and maximum are a least and a greatest sample of the
    window, the windowed average is its binary32 mean, and the lifetime
    average is overwritten with the windowed one.  For the SHT30 the same
    holds of the humidity statistics. *)
Theorem windowed_stats_from_second_sample k reads st :
  reachable st ->
  is_Some (read_func (callbacks_at k st)) ->
  is_enabled (sensor_at k st) = true ->
  reads <> [] ->
  2 <= history_count (sensor_at k st) + Z.of_nat (length reads) ->
  let s := sensor_at k st in
  let st' := feed k reads st in
  let s' := sensor_at k st' in
  SensorTask_GetStats k true true st' = Some (stats s')
  /\ window s' = keep_last (Z.to_nat SENSOR_HISTORY_SIZE)
                   (window s ++ map (fun r => primary_of k r.1) reads)
  /\ is_minimum (local_min (stats s')) (window s')
  /\ is_maximum (local_max (stats s')) (window s')
  /\ local_avg (stats s') = f32_mean (window s')
  /\ avg (stats s') = local_avg (stats s')
  /\ (k = SENSOR_TYPE_SHT30 ->
      SensorTask_GetSecondaryStats k true true st' = Some (secondary_stats s')
      /\ secondary_window s'
         = keep_last (Z.to_nat SENSOR_HISTORY_SIZE)
             (secondary_window s ++ map (fun r => secondary_of k r.1) reads)
      /\ is_minimum (local_min (secondary_stats s')) (secondary_window s')
      /\ is_maximum (local_max (secondary_stats s')) (secondary_window s')
      /\ local_avg (secondary_stats s') = f32_mean (secondary_window s')
      /\ avg (secondary_stats s') = local_avg (secondary_stats s')).
Proof.
  intros Hreach Hrf He Hne Hc. cbn zeta.
  pose proof (reachable_wf _ Hreach) as Hwf.
  destruct (wf_sensor_at_enabled _ _ Hwf He) as [Hi Hk].
  destruct (feed_spec k reads st Hwf Hi ltac:(lia) Hrf)
    as (Hs & _ & Hwf' & Hi' & _ & _ & _).
  assert (type (sensor_at k st) = k) as Hty by (apply wf_sensor_at_type; [done | done | lia]).
  pose proof (wf_sensor_at_ring st k Hwf) as Hr.
  assert ((SENSOR_TYPE_MAX <=? k)%nat = false) as Hkb by (apply Nat.leb_gt; lia).
  assert (1 <= history_count (sensor_at k (feed k reads st))) as Hpos.
  { rewrite Hs, sample_all_count by done. destruct Hr as [_ _ _ ? _].
    unfold SENSOR_HISTORY_SIZE in *. lia. }
  assert (is_enabled (sensor_at k (feed k reads st)) = true) as He'
    by (by rewrite Hs, sample_all_enabled).
  assert ((0 <? history_count (sensor_at k (feed k reads st))) = true) as Hposb
    by (apply Z.ltb_lt; lia).
  (* the last read is a sample on an instance that already holds one *)
  destruct reads as [| r reads _] using rev_ind; [done |].
  pose proof Hs as Hs1. rewrite sample_all_snoc in Hs1.
  set (s1 := adapter_read (successful_read r.1) (sample_all reads (sensor_at k st))) in *.
  assert (ring_ok s1) as Hr1 by (apply ring_ok_adapter_read, sample_all_ring_ok, Hr).
  assert (1 <= history_count s1) as Hc1.
  { unfold s1. change (history_count (adapter_read ?rd ?x)) with (history_count x).
    rewrite sample_all_count by done. destruct Hr as [_ _ _ ? _].
    rewrite length_app in Hc. cbn [length] in Hc.
    unfold SENSOR_HISTORY_SIZE in *. lia. }
  assert (is_sht30 s1 = is_sht30 (sensor_at k st)) as Hsht1.
  { unfold s1. change (is_sht30 (adapter_read ?rd ?x)) with (is_sht30 x).
    apply sample_all_sht30. }
  destruct (record_sample_windowed r.2 s1 Hr1 Hc1) as [(H1 & H2 & H3 & H4) Hsec].
  rewrite <- Hs1 in H1, H2, H3, H4, Hsec.
  split.
  { unfold SensorTask_GetStats. by rewrite Hi', Hkb, He', Hposb. }
  split.
  { rewrite Hs, window_sample_all by done. by rewrite Hty. }
  split; [exact H1 |]. split; [exact H2 |]. split; [exact H3 |]. split; [exact H4 |].
  intros ->.
  assert (is_sht30 (sensor_at SENSOR_TYPE_SHT30 st) = true) as Hsht
    by (unfold is_sht30; by rewrite Hty).
  split.
  { unfold SensorTask_GetSecondaryStats. by rewrite Hi', He', Hposb. }
  split.
  { rewrite Hs, secondary_window_sample_all by done. by rewrite Hty. }
  apply Hsec. by rewrite Hsht1.
Qed.

Lemma windowed_stats_from_second_sample_witness :
  let st := run (sampled SENSOR_TYPE_GY30 [(2000, lux 10)]) in
  let reads := [(lux 30, 4000); (lux 20, 6000)] in
  let s' := sensor_at SENSOR_TYPE_GY30 (feed SENSOR_TYPE_GY30 reads st) in
  window s' = [f32_of_int 10; f32_of_int 30; f32_of_int 20]
  /\ is_minimum (local_min (stats s')) (window s')
  /\ local_avg (stats s') = f32_mean (window s').
Proof.
  cbn zeta.
  assert (is_Some (read_func (callbacks_at SENSOR_TYPE_GY30
            (run (sampled SENSOR_TYPE_GY30 [(2000, lux 10)]))))) as Hrf
    by (exists 2%nat; vm_compute; reflexivity).
  destruct (windowed_stats_from_second_sample SENSOR_TYPE_GY30
              [(lux 30, 4000); (lux 20, 6000)]
              (run (sampled SENSOR_TYPE_GY30 [(2000, lux 10)])))
    as (_ & Hw & Hmin & _ & Havg & _).
  - apply reachable_sampled.
  - exact Hrf.
  - vm_compute; reflexivity.
  - discriminate.
  - vm_compute. discriminate.
  - split; [| split; [exact Hmin | exact Havg]].
    rewrite Hw. vm_compute. reflexivity.
Defined.

(** ** The analytics block under every operation *)

Lemma analytics_DisableSensor j t st :
  analytics (sensor_at j (SensorTask_DisableSensor t st).2) = analytics (sensor_at j st).
Proof.
  unfold SensorTask_DisableSensor.
  destruct (invalid_type t st); [done |].
  destruct (is_enabled (sensor_at t st)); cbn [negb snd]; [| done].
  rewrite sensor_at_notify.
  change (sensor_at j (upd_manager ?f ?s)) with (sensor_at j s).
  destruct (deinit_func _).
  - rewrite analytics_upd_sensor by done. by rewrite sensor_at_log_call.
  - by apply analytics_upd_sensor.
Qed.

Lemma analytics_RegisterSensor j t nm cbs h ms st :
  analytics (sensor_at j (SensorTask_RegisterSensor t nm cbs h ms st).2)
  = analytics (sensor_at j st).
Proof.
  unfold SensorTask_RegisterSensor.
  destruct cbs as [c |]; [| done].
  destruct (invalid_type t st); [done |].
  destruct (init_func c); [| done]. destruct (read_func c); [| done].
  cbn [snd]. rewrite analytics_EnableSensor.
  change (sensor_at j (upd_manager ?f ?s)) with (sensor_at j s).
  by apply analytics_upd_sensor.
Qed.

Lemma analytics_SetUpdateInterval j t ms st :
  analytics (sensor_at j (SensorTask_SetUpdateInterval t ms st).2)
  = analytics (sensor_at j st).
Proof.
  unfold SensorTask_SetUpdateInterval. destruct (_ || _); [done |]. cbn [snd].
  by apply analytics_upd_sensor.
Qed.

Lemma analytics_Init j mc tc st :
  let st' := (SensorTask_Init mc tc st).2 in
  analytics (sensor_at j st') = analytics (sensor_at j st)
  \/ analytics (sensor_at j st') = analytics zero_instance.
Proof.
  cbn zeta. unfold SensorTask_Init.
  destruct (is_initialized (g_sensor_manager st)); [by left |]. right.
  destruct mc; cbn [negb].
  - destruct tc; cbn [negb snd]; unfold sensor_at; rsimpl;
      by destruct j as [|[|[|[|j]]]].
  - cbn [snd]. unfold sensor_at. rsimpl. by destruct j as [|[|[|[|j]]]].
Qed.

Lemma analytics_HandleSensorError j i st :
  analytics (sensor_at j (SensorTask_HandleSensorError i st)) = analytics (sensor_at j st).
Proof.
  unfold SensorTask_HandleSensorError.
  set (st1 := upd_sensor i _ st).
  assert (analytics (sensor_at j st1) = analytics (sensor_at j st)) as H1
    by (subst st1; by apply analytics_upd_sensor).
  clearbody st1.
  set (st2 := if _ =? SOFT_THRESHOLD then _ else st1).
  assert (analytics (sensor_at j st2) = analytics (sensor_at j st1)) as H2.
  { subst st2. destruct (_ =? SOFT_THRESHOLD); [| done]. by apply analytics_upd_sensor. }
  clearbody st2. destruct (_ =? HARD_THRESHOLD); [| congruence].
  rewrite sensor_at_notify, analytics_upd_sensor by done.
  rewrite analytics_DisableSensor. congruence.
Qed.

(** A call of [SensorTask_UpdateSensor] leaves the analytics of every
    instance as they were, or records one sample on the instance it was
    called on. *)
Lemma analytics_UpdateSensor j i rd lock tick st :
  let r := SensorTask_UpdateSensor i rd lock tick st in
  analytics (sensor_at j r.2) = analytics (sensor_at j st)
  \/ (j = i /\ r.1 = true
      /\ sensor_at i r.2 = record_sample tick (adapter_read rd (sensor_at i st))).
Proof.
  cbn zeta. unfold SensorTask_UpdateSensor.
  destruct (_ <=? _)%nat; [by left |]. destruct (read_func _) as [f |]; [| by left].
  set (st1 := upd_sensor i (adapter_read rd) _).
  assert (analytics (sensor_at j st1) = analytics (sensor_at j st)) as H1.
  { subst st1. rewrite analytics_upd_sensor by done. by rewrite sensor_at_log_call. }
  destruct (read_result rd); cbn [fst snd]; [| by left].
  destruct lock; cbn [fst snd]; [| by left].
  rewrite !sensor_at_upd_sensor.
  destruct (decide (j = i /\ _)) as [[-> Hlt] | Hn]; [| by left].
  right. split; [done |]. split; [done |].
  rewrite decide_True by done.
  subst st1. rewrite sensor_at_upd_sensor, sensor_at_log_call.
  rewrite length_sensors_upd_sensor in Hlt.
  change (length (sensors (g_sensor_manager (log_call ?a ?b ?c st))))
    with (length (sensors (g_sensor_manager st))) in *.
  by rewrite decide_True.
Qed.

Lemma analytics_set_last_update_time v s :
  analytics (set_last_update_time v s) = analytics s.
Proof. reflexivity. Qed.

Lemma type_set_last_update_time v s : type (set_last_update_time v s) = type s.
Proof. reflexivity. Qed.

Lemma analytics_poll_sensor j i o st :
  analytics (sensor_at j (poll_sensor i o st)) = analytics (sensor_at j st)
  \/ (j = i /\ exists tick rd,
        analytics (sensor_at i (poll_sensor i o st))
        = analytics (record_sample tick (adapter_read rd (sensor_at i st)))).
Proof.
  unfold poll_sensor. destruct (_ <=? _); [| by left].
  pose proof (analytics_UpdateSensor j i (read_outcome o) (read_lock o) (stamp_tick o) st)
    as Hu. cbn zeta in Hu.
  destruct (SensorTask_UpdateSensor _ _ _ _ st) as [ok st1]. cbn [fst snd] in *.
  destruct ok.
  - rewrite !sensor_at_notify.
    destruct Hu as [Hu | (-> & _ & Hu)].
    + left. by rewrite analytics_upd_sensor.
    + right. split; [done |]. exists (stamp_tick o), (read_outcome o).
      rewrite analytics_upd_sensor by apply analytics_set_last_update_time.
      by rewrite Hu.
  - left. rewrite analytics_HandleSensorError.
    destruct Hu as [Hu | (_ & Hu & _)]; [done | discriminate].
Qed.

(** A visit of the scheduler leaves the analytics of every instance as they
    were, or records one sample on the visited instance, which is enabled. *)
Lemma analytics_MainLoop_visit j i o st :
  analytics (sensor_at j (MainLoop_visit i o st)) = analytics (sensor_at j st)
  \/ (j = i /\ is_enabled (sensor_at i st) = true
      /\ exists tick s1,
           analytics s1 = analytics (sensor_at i st)
           /\ type s1 = type (sensor_at i st)
           /\ analytics (sensor_at i (MainLoop_visit i o st))
              = analytics (record_sample tick s1)).
Proof.
  unfold MainLoop_visit.
  destruct (is_enabled (sensor_at i st)) eqn:He; cbn [negb]; [| by left].
  destruct (SensorStatus_eqb _ _).
  - destruct (InitializeSensor_standing i (init_result o) st) as (Hm & _).
    destruct (SensorTask_InitializeSensor i (init_result o) st) as [ok st1].
    cbn [fst snd] in *.
    assert (forall j, sensor_at j st1 = sensor_at j st) as Hsen
      by (intros j'; unfold sensor_at; by rewrite Hm).
    destruct ok.
    + set (st2 := SensorTask_NotifyEvent _ _ _ _ _).
      assert (analytics (sensor_at j st2) = analytics (sensor_at j st)) as Hj.
      { subst st2. rewrite sensor_at_notify, analytics_upd_sensor by done.
        by rewrite Hsen. }
      assert (analytics (sensor_at i st2) = analytics (sensor_at i st)
              /\ type (sensor_at i st2) = type (sensor_at i st)) as [Hi Hty].
      { subst st2. rewrite sensor_at_notify, sensor_at_upd_sensor, Hsen.
        by destruct (decide _). }
      clearbody st2.
      destruct (analytics_poll_sensor j i o st2) as [H | (-> & tick & rd & H)].
      * left. by rewrite H.
      * right. split; [done |]. split; [done |].
        exists tick, (adapter_read rd (sensor_at i st2)). done.
    + left. by rewrite analytics_HandleSensorError, Hsen.
  - destruct (analytics_poll_sensor j i o st) as [H | (-> & tick & rd & H)]; [by left |].
    right. split; [done |]. split; [done |].
    exists tick, (adapter_read rd (sensor_at i st)). done.
Qed.

Lemma ring_ok_analytics s s' : analytics s' = analytics s -> ring_ok s -> ring_ok s'.
Proof.
  unfold analytics. intros H [? ? ? ? ?]. injection H as E1 E2 E3 E4 _ _.
  split; rewrite ?E1, ?E2, ?E3, ?E4; done.
Qed.

Lemma sensor_at_boot j : sensor_at j boot = zero_instance.
Proof. unfold sensor_at. by destruct j as [|[|[|[|j]]]]. Qed.

(** *** Invariants of the analytics block

    A property of the analytics of slot [j] that holds of the zeroed
    instance and survives one sample on an instance of kind [j] holds in
    every run. *)
Section AnalyticsInvariant.

Variable Q : nat -> SensorInstance_t -> Prop.
Hypothesis Q_ext : forall j s s', analytics s' = analytics s -> Q j s -> Q j s'.
Hypothesis Q_zero : forall j, Q j zero_instance.
Hypothesis Q_sample : forall j tick s,
  type s = j -> (1 <= j < SENSOR_TYPE_MAX)%nat -> ring_ok s ->
  Q j s -> Q j (record_sample tick s).

Lemma analytics_invariant calls j : Q j (sensor_at j (run calls)).
Proof.
  revert j. induction calls as [| c calls IH] using rev_ind.
  - intros j. change (run []) with boot. rewrite sensor_at_boot. apply Q_zero.
  - intros j. rewrite run_snoc. pose proof (wf_run calls) as Hwf.
    destruct c; cbn [run_call].
    + destruct (analytics_Init j mutex_created task_created (run calls)) as [H | H].
      * by apply (Q_ext j _ _ H).
      * by apply (Q_ext j _ _ H).
    + by apply (Q_ext j _ _ (analytics_RegisterSensor _ _ _ _ _ _ _)).
    + by apply (Q_ext j _ _ (analytics_EnableSensor _ _ _)).
    + by apply (Q_ext j _ _ (analytics_DisableSensor _ _ _)).
    + by apply (Q_ext j _ _ (analytics_SetUpdateInterval _ _ _ _)).
    + apply IH.
    + unfold sensor_at. rewrite manager_GetPrimaryHistory. apply IH.
    + unfold sensor_at. rewrite manager_GetSecondaryHistory. apply IH.
    + destruct (_ && _); [| apply IH].
      destruct (analytics_MainLoop_visit j i o (run calls))
        as [H | (-> & He & tick & s1 & Ha & Hty & H)].
      * by apply (Q_ext j _ _ H).
      * destruct (wf_sensor_at_enabled _ _ Hwf He) as [Hi Hk].
        apply (Q_ext i _ _ H). apply Q_sample.
        -- rewrite Hty. apply wf_sensor_at_type; [done | done | lia].
        -- done.
        -- apply (ring_ok_analytics _ _ Ha). by apply wf_sensor_at_ring.
        -- by apply (Q_ext i _ _ Ha).
Qed.

End AnalyticsInvariant.

(** ** The statistics agree with the window in every run *)

Lemma elem_of_keep_last {A} n (l : list A) x : x ∈ keep_last n l -> x ∈ l.
Proof. unfold keep_last. apply subseteq_drop. Qed.

Lemma lifetime_bounds_first v t : lifetime_bounds [v] (seed_stats v t).
Proof.
  intros x Hx. apply list_elem_of_singleton in Hx as ->.
  unfold seed_stats, f32_gt. rsimpl. split; apply f32_lt_irrefl.
Qed.

Lemma lifetime_bounds_widen n v w t :
  lifetime_bounds w t -> lifetime_bounds (keep_last n (w ++ [v])) (widen_stats v t).
Proof.
  intros Hb x Hx. apply elem_of_keep_last in Hx.
  destruct (widen_stats_fields v t) as (-> & -> & _).
  unfold f32_gt. change (SFltb ?a ?b) with (f32_lt a b).
  apply elem_of_app in Hx as [Hx | Hx].
  - destruct (Hb x Hx) as [Hlo Hhi].
    unfold f32_gt in Hhi. change (SFltb ?a ?b) with (f32_lt a b) in Hhi. split.
    + destruct (f32_lt v (min t)) eqn:E; [| done].
      destruct (f32_lt x v) eqn:E2; [| done].
      by rewrite (f32_lt_trans _ _ _ E2 E) in Hlo.
    + destruct (SFltb (max t) v) eqn:E; [| done].
      destruct (f32_lt v x) eqn:E2; [| done].
      by rewrite (f32_lt_trans _ _ _ E E2) in Hhi.
  - apply list_elem_of_singleton in Hx as ->. split.
    + destruct (f32_lt v (min t)) eqn:E; [apply f32_lt_irrefl | done].
    + destruct (SFltb (max t) v) eqn:E; [apply f32_lt_irrefl | done].
Qed.

Lemma lifetime_bounds_window_stats lmin lmax sum count w t :
  lifetime_bounds w t -> lifetime_bounds w (window_stats lmin lmax sum count t).
Proof.
  intros Hb x Hx.
  destruct (window_stats_fields lmin lmax sum count t) as (-> & -> & _). by apply Hb.
Qed.

Lemma window_empty s :
  ring_ok s -> history_count s = 0 -> window s = [] /\ secondary_window s = [].
Proof.
  intros Hr H0. pose proof Hr as [Hh Hs Hhead Hcount Hfill].
  split; apply nil_length_inv; unfold window, secondary_window;
    rewrite length_window_of by done; lia.
Qed.

Lemma keep_last_singleton (v : float) :
  keep_last (Z.to_nat SENSOR_HISTORY_SIZE) ([] ++ [v]) = [v].
Proof. reflexivity. Qed.

Lemma record_sample_consistent tick s :
  ring_ok s -> stats_consistent (is_sht30 s) s ->
  stats_consistent (is_sht30 s) (record_sample tick s).
Proof.
  intros Hr [[Hb Hw] Hsec].
  pose proof (window_record_sample tick s Hr) as Hwin.
  destruct (record_sample_ring tick s) as (_ & _ & _ & Hcnt).
  pose proof Hr as [_ _ _ Hc _].
  destruct (decide (history_count s = 0)) as [H0 | Hn0].
  - destruct (record_sample_stats_first tick s H0) as [Hst Hsst].
    destruct (window_empty s Hr H0) as [Hw0 Hsw0].
    rewrite H0 in Hcnt. change (0 <? SENSOR_HISTORY_SIZE) with true in Hcnt.
    cbv iota in Hcnt. change (0 + 1) with 1 in Hcnt.
    rewrite Hw0, keep_last_singleton in Hwin.
    split.
    + unfold channel_consistent. rewrite Hcnt, Hwin, Hst.
      split; [intros _; apply lifetime_bounds_first | lia].
    + intros Hsht. rewrite Hsht in Hsst.
      unfold channel_consistent.
      rewrite Hcnt, Hsst, (secondary_window_record_sample tick s Hr Hsht), Hsw0,
        keep_last_singleton.
      split; [intros _; apply lifetime_bounds_first | lia].
  - assert (1 <= history_count s) as H1 by lia.
    destruct (record_sample_stats_later tick s H1) as [Hst Hsst].
    destruct (record_sample_windowed tick s Hr H1) as [Hwok Hswok].
    pose proof (record_sample_count_pos tick s ltac:(lia)) as Hpos.
    split.
    + split.
      * intros _. rewrite Hst, Hwin.
        apply lifetime_bounds_window_stats, lifetime_bounds_widen, Hb, H1.
      * intros _. unfold windowed_ok. exact Hwok.
    + intros Hsht. rewrite Hsht in Hsst. split.
      * intros _. rewrite Hsst, (secondary_window_record_sample tick s Hr Hsht).
        apply lifetime_bounds_window_stats, lifetime_bounds_widen.
        by apply (Hsec Hsht).
      * intros _. unfold windowed_ok. exact (Hswok Hsht).
Qed.

Lemma stats_consistent_ext b s s' :
  analytics s' = analytics s -> stats_consistent b s -> stats_consistent b s'.
Proof.
  unfold analytics. intros H. injection H as E1 E2 E3 E4 E5 E6.
  unfold stats_consistent, window, secondary_window.
  by rewrite E1, E2, E3, E4, E5, E6.
Qed.

Lemma stats_consistent_zero b : stats_consistent b zero_instance.
Proof.
  split; [| intros _]; (split; intros H; cbn in H; lia).
Qed.

Lemma stats_consistent_run calls i :
  stats_consistent (i =? SENSOR_TYPE_SHT30)%nat (sensor_at i (run calls)).
Proof.
  apply (analytics_invariant
           (fun j s => stats_consistent (j =? SENSOR_TYPE_SHT30)%nat s)).
  - intros j s s'. apply stats_consistent_ext.
  - intros j. apply stats_consistent_zero.
  - intros j tick s Hty _ Hr HQ.
    assert (is_sht30 s = (j =? SENSOR_TYPE_SHT30)%nat) as E
      by (unfold is_sht30; by rewrite Hty).
    rewrite <- E in *. by apply record_sample_consistent.
Qed.

(** In every run, whatever was called in between, the statistics of an
    instance agree with its history window: as soon as it holds a sample no
    sample of the window is below the lifetime minimum or above the lifetime
    maximum, and as soon as it holds two the windowed minimum, maximum and
    average are a least sample, a greatest sample and the binary32 mean of
    the window, and the lifetime average is the windowed one.  For the SHT30
    the same holds of the humidity statistics and window. *)
Theorem stats_agree_with_window calls i :
  let s := sensor_at i (run calls) in
  (1 <= history_count s -> lifetime_bounds (window s) (stats s))
  /\ (2 <= history_count s -> windowed_ok (window s) (stats s))
  /\ (i = SENSOR_TYPE_SHT30 ->
      (1 <= history_count s ->
       lifetime_bounds (secondary_window s) (secondary_stats s))
      /\ (2 <= history_count s ->
          windowed_ok (secondary_window s) (secondary_stats s))).
Proof.
  cbn zeta. destruct (stats_consistent_run calls i) as [[H1 H2] Hsec].
  split; [exact H1 |]. split; [exact H2 |].
  intros ->. by apply Hsec.
Qed.

(** ** The statistics before the second sample *)

Lemma seed_zero_stats v : seed_stats v zero_stats = first_sample_stats v.
Proof. reflexivity. Qed.

Lemma record_sample_young tick s :
  ring_ok s -> stats_young (is_sht30 s) s ->
  stats_young (is_sht30 s) (record_sample tick s).
Proof.
  intros Hr [[Hz Hone] Hsec].
  pose proof (window_record_sample tick s Hr) as Hwin.
  destruct (record_sample_ring tick s) as (_ & Hsh & _ & Hcnt).
  pose proof Hr as [_ _ _ Hc _].
  pose proof (record_sample_count_pos tick s ltac:(lia)) as Hpos.
  assert (history_count (record_sample tick s) = 1 -> history_count s = 0) as Hback.
  { rewrite Hcnt. destruct (Z.ltb_spec (history_count s) SENSOR_HISTORY_SIZE);
      unfold SENSOR_HISTORY_SIZE in *; lia. }
  split.
  - split; [lia |]. intros H1. pose proof (Hback H1) as H0.
    destruct (record_sample_stats_first tick s H0) as [Hst _].
    destruct (window_empty s Hr H0) as [Hw0 _].
    exists (primary_of (type s) (values (data s))).
    rewrite Hwin, Hw0, keep_last_singleton, Hst, (Hz H0). split; [done |].
    apply seed_zero_stats.
  - destruct (is_sht30 s) eqn:Hsht.
    + destruct Hsec as [Hsz Hsone].
      split; [lia |]. intros H1. pose proof (Hback H1) as H0.
      destruct (record_sample_stats_first tick s H0) as [_ Hsst]. rewrite Hsht in Hsst.
      destruct (window_empty s Hr H0) as [_ Hsw0].
      exists (secondary_of (type s) (values (data s))).
      rewrite (secondary_window_record_sample tick s Hr Hsht), Hsw0, keep_last_singleton,
        Hsst, (Hsz H0).
      split; [done |]. apply seed_zero_stats.
    + destruct Hsec as [Hsz Hsh0]. rewrite Hsh. split; [| done].
      destruct (decide (history_count s = 0)) as [H0 | Hn0].
      * destruct (record_sample_stats_first tick s H0) as [_ Hsst].
        rewrite Hsht in Hsst. congruence.
      * destruct (record_sample_stats_later tick s ltac:(lia)) as [_ Hsst].
        rewrite Hsht in Hsst. congruence.
Qed.

Lemma stats_young_ext b s s' :
  analytics s' = analytics s -> stats_young b s -> stats_young b s'.
Proof.
  unfold analytics. intros H. injection H as E1 E2 E3 E4 E5 E6.
  unfold stats_young, window, secondary_window.
  by rewrite E1, E2, E3, E4, E5, E6.
Qed.

Lemma stats_young_zero b : stats_young b zero_instance.
Proof.
  split; [| destruct b]; try (split; [done |]; intros H; cbn in H; lia).
  done.
Qed.

Lemma stats_young_run calls i :
  stats_young (i =? SENSOR_TYPE_SHT30)%nat (sensor_at i (run calls)).
Proof.
  apply (analytics_invariant (fun j s => stats_young (j =? SENSOR_TYPE_SHT30)%nat s)).
  - intros j s s'. apply stats_young_ext.
  - intros j. apply stats_young_zero.
  - intros j tick s Hty _ Hr HQ.
    assert (is_sht30 s = (j =? SENSOR_TYPE_SHT30)%nat) as E
      by (unfold is_sht30; by rewrite Hty).
    rewrite <- E in *. by apply record_sample_young.
Qed.

(** In every run, an instance that holds no sample has zeroed statistics,
    which [SensorTask_GetStats] does not hand out; one that holds a single
    sample [v] has [v] as lifetime minimum, maximum and average while its
    windowed minimum, maximum and average are still 0.0, and that is what
    [SensorTask_GetStats] hands out for it while it is enabled.  For the
    SHT30 the humidity statistics behave alike. *)
Theorem stats_before_second_sample calls i :
  let st := run calls in
  let s := sensor_at i st in
  (history_count s = 0 ->
     stats s = zero_stats
     /\ forall out lock, SensorTask_GetStats i out lock st = None)
  /\ (history_count s = 1 ->
      exists v, window s = [v] /\ stats s = first_sample_stats v
        /\ (is_enabled s = true ->
            SensorTask_GetStats i true true st = Some (first_sample_stats v)))
  /\ (i = SENSOR_TYPE_SHT30 -> history_count s = 1 ->
      exists h, secondary_window s = [h] /\ secondary_stats s = first_sample_stats h
        /\ (is_enabled s = true ->
            SensorTask_GetSecondaryStats i true true st = Some (first_sample_stats h))).
Proof.
  cbn zeta. destruct (stats_young_run calls i) as [[Hz Hone] Hsec].
  pose proof (wf_run calls) as Hwf.
  split.
  { intros H0. split; [by apply Hz |]. intros out lock.
    unfold SensorTask_GetStats. rewrite H0.
    destruct (_ || _); [done |]. by rewrite andb_false_r. }
  split.
  { intros H1. destruct (Hone H1) as (v & Hw & Hst). exists v.
    split; [done |]. split; [done |]. intros He.
    destruct (wf_sensor_at_enabled _ _ Hwf He) as [Hi Hk].
    unfold SensorTask_GetStats. rewrite Hi, He, H1, Hst.
    assert ((SENSOR_TYPE_MAX <=? i)%nat = false) as -> by (apply Nat.leb_gt; lia).
    done. }
  intros -> H1. cbn in Hsec. destruct Hsec as [_ Hsone].
  destruct (Hsone H1) as (h & Hw & Hst). exists h.
  split; [done |]. split; [done |]. intros He.
  destruct (wf_sensor_at_enabled _ _ Hwf He) as [Hi Hk].
  unfold SensorTask_GetSecondaryStats. rewrite Hi, He, H1, Hst. done.
Qed.

(** ** The secondary channel belongs to the SHT30 *)

(** In every run, the humidity statistics and history buffer of an instance
    of any other kind than SHT30 are never written: they stay zeroed, and
    the two secondary getters refuse the kind whatever its state. *)
Theorem secondary_channel_only_sht30 calls i :
  i <> SENSOR_TYPE_SHT30 ->
  let st := run calls in
  secondary_stats (sensor_at i st) = zero_stats
  /\ secondary_history (sensor_at i st)
     = replicate (Z.to_nat SENSOR_HISTORY_SIZE) f32_zero
  /\ (forall out lock, SensorTask_GetSecondaryStats i out lock st = None)
  /\ (forall lock, SensorTask_GetSecondaryHistory i lock st = ((0, None), st)).
Proof.
  intros Hi. cbn zeta. destruct (stats_young_run calls i) as [_ Hsec].
  assert ((i =? SENSOR_TYPE_SHT30)%nat = false) as E by (by apply Nat.eqb_neq).
  rewrite E in Hsec. destruct Hsec as [H1 H2].
  split; [done |]. split; [done |]. split.
  - intros out lock. unfold SensorTask_GetSecondaryStats. rewrite E.
    by destruct (_ || _).
  - intros lock. unfold SensorTask_GetSecondaryHistory. rewrite E.
    by destruct (_ || _).
Qed.

Lemma secondary_channel_only_sht30_witness :
  let st := run (sampled SENSOR_TYPE_GY30 [(2000, lux 10); (4000, lux 30)]) in
  history_count (sensor_at SENSOR_TYPE_GY30 st) = 2
  /\ secondary_stats (sensor_at SENSOR_TYPE_GY30 st) = zero_stats.
Proof.
  cbn zeta. split; [vm_compute; reflexivity |].
  apply (secondary_channel_only_sht30
           (sampled SENSOR_TYPE_GY30 [(2000, lux 10); (4000, lux 30)]) SENSOR_TYPE_GY30).
  discriminate.
Defined.

(** ** Time: the tick counter wraps around *)

Lemma wrap32_elapsed t0 d :
  0 <= t0 < 2 ^ 32 -> 0 <= d < 2 ^ 32 -> wrap32 (wrap32 (t0 + d) - t0) = d.
Proof.
  intros H0 Hd. unfold wrap32.
  rewrite Zminus_mod_idemp_l. replace (t0 + d - t0) with d by lia.
  apply Z.mod_small. lia.
Qed.



(** The delay at the end of a sweep: when the sweep took [d] milliseconds,
    the task sleeps for the rest of a 100 ms period, and for 10 ms when the
    sweep took 100 ms or longer; also when the tick counter wrapped around
    during the sweep.  The delay is never 0 and never more than 100 ms. *)
Theorem sleep_time_period loop_start_time d :
  0 <= loop_start_time < 2 ^ 32 -> 0 <= d < 2 ^ 32 ->
  let sleep := sleep_time loop_start_time (wrap32 (loop_start_time + d)) in
  sleep = (if d <? 100 then 100 - d else 10) /\ 1 <= sleep <= 100.
Proof.
  intros Hs Hd. cbn zeta. unfold sleep_time. cbn zeta. rewrite wrap32_elapsed by done.
  destruct (Z.ltb_spec d 100); lia.
Qed.

Lemma sleep_time_period_witness :
  sleep_time 4294967290 (wrap32 (4294967290 + 30)) = 70.
Proof.
  destruct (sleep_time_period 4294967290 30) as [H _]; [lia | lia |].
  rewrite H. reflexivity.
Defined.

Lemma count_loop_small c :
  0 <= c < 100 ->
  count_loop c = (if c =? 99 then (0, true) else (c + 1, false)).
Proof.
  intros Hc. unfold count_loop. cbn zeta.
  rewrite (Z.mod_small (c + 1) (2 ^ 8)) by lia.
  destruct (Z.eqb_spec c 99) as [-> | Hn]; [reflexivity |].
  rewrite (Z.mod_small (c + 1) 100) by lia.
  destruct (Z.eqb_spec (c + 1) 0); [lia | reflexivity].
Qed.

(** The loop counter of the main loop: after [n] iterations it is [n mod
    100], so the 8-bit counter never overflows, and the liveness line is
    logged in the iterations 100, 200, 300, ... and in no other. *)
Theorem count_loops_period n :
  count_loops n 0 = Z.of_nat n mod 100
  /\ (count_loop (count_loops n 0)).2 = (Z.of_nat (S n) mod 100 =? 0).
Proof.
  assert (count_loops n 0 = Z.of_nat n mod 100) as H.
  { induction n as [| n IH]; [reflexivity |].
    cbn [count_loops]. rewrite IH.
    pose proof (Z.mod_pos_bound (Z.of_nat n) 100 ltac:(lia)) as Hb.
    rewrite count_loop_small by done.
    replace (Z.of_nat (S n)) with (Z.of_nat n + 1) by lia.
    rewrite (Z.add_mod (Z.of_nat n) 1 100) by lia.
    change (1 mod 100) with 1.
    destruct (Z.eqb_spec (Z.of_nat n mod 100) 99) as [-> | Hn]; [reflexivity |].
    cbn [fst]. rewrite (Z.mod_small (Z.of_nat n mod 100 + 1)); lia. }
  split; [exact H |]. rewrite H.
  pose proof (Z.mod_pos_bound (Z.of_nat n) 100 ltac:(lia)) as Hb.
  rewrite count_loop_small by done.
  replace (Z.of_nat (S n)) with (Z.of_nat n + 1) by lia.
  rewrite (Z.add_mod (Z.of_nat n) 1 100) by lia. change (1 mod 100) with 1.
  destruct (Z.eqb_spec (Z.of_nat n mod 100) 99) as [-> | Hn]; [reflexivity |].
  cbn [snd]. rewrite (Z.mod_small (Z.of_nat n mod 100 + 1)) by lia.
  symmetry. apply Z.eqb_neq. lia.
Qed.

(** ** The mutators of the registry *)

Lemma others_EnableSensor t st j :
  j <> t -> sensor_at j (SensorTask_EnableSensor t st).2 = sensor_at j st.
Proof.
  intros Hj. unfold SensorTask_EnableSensor.
  destruct (invalid_type t st); [done |].
  destruct (is_enabled (sensor_at t st)); cbn [negb snd]; [done |].
  rewrite sensor_at_notify.
  change (sensor_at j (upd_manager ?f ?s)) with (sensor_at j s).
  by rewrite sensor_at_upd_other.
Qed.

Lemma table_EnableSensor t st :
  is_initialized (g_sensor_manager (SensorTask_EnableSensor t st).2)
  = is_initialized (g_sensor_manager st)
  /\ adapter_calls (SensorTask_EnableSensor t st).2 = adapter_calls st
  /\ length (sensors (g_sensor_manager (SensorTask_EnableSensor t st).2))
     = length (sensors (g_sensor_manager st)).
Proof.
  unfold SensorTask_EnableSensor.
  destruct (invalid_type t st); [done |].
  destruct (is_enabled (sensor_at t st)); cbn [negb snd]; [done |].
  rewrite manager_notify, adapter_calls_notify. rsimpl.
  by rewrite length_sensors_upd_sensor.
Qed.

(** [SensorTask_SetUpdateInterval] rejects an interval below 100 ms and a
    kind that is not a sensor, and changes nothing then; otherwise it
    changes the interval of that one instance and nothing else: no event, no
    adapter call, and the period is not restarted, the next read being due
    when the new interval has passed since the last update. *)
Theorem SetUpdateInterval_changes_one_interval calls t ms :
  let st := run calls in
  let r := SensorTask_SetUpdateInterval t ms st in
  (invalid_type t st = true \/ ms < 100 -> r = (false, st))
  /\ (invalid_type t st = false -> 100 <= ms ->
      r.1 = true
      /\ sensor_at t r.2 = set_update_interval_ms ms (sensor_at t st)
      /\ (forall j, j <> t -> sensor_at j r.2 = sensor_at j st)
      /\ events r.2 = events st /\ adapter_calls r.2 = adapter_calls st
      /\ (forall now,
           read_due now (sensor_at t r.2)
           = (ms <=? wrap32 (now - last_update_time (sensor_at t st))))).
Proof.
  cbn zeta. pose proof (wf_run calls) as Hwf. unfold SensorTask_SetUpdateInterval.
  split.
  - intros [-> | Hms]; [done |].
    assert ((ms <? 100) = true) as -> by (apply Z.ltb_lt; lia).
    by rewrite orb_true_r.
  - intros Hv Hms. rewrite Hv.
    assert ((ms <? 100) = false) as -> by (apply Z.ltb_ge; lia).
    cbn [orb fst snd].
    apply invalid_type_false in Hv as [Hi Ht].
    assert (sensor_at t (upd_sensor t (set_update_interval_ms ms) (run calls))
            = set_update_interval_ms ms (sensor_at t (run calls))) as Hs.
    { apply sensor_at_upd_same. rewrite (wf_sensors _ Hwf). lia. }
    split; [done |]. split; [exact Hs |]. split.
    { intros j Hj. by apply sensor_at_upd_other. }
    split; [done |]. split; [done |].
    intros now. by rewrite Hs.
Qed.

Lemma Init_names i :
  (i < SENSOR_TYPE_MAX)%nat ->
  c_str (name (init_instance i zero_instance))
  = String.list_ascii_of_string "Sensor_"%string ++ decimal i.
Proof.
  intros Hi. destruct i as [|[|[|[|i]]]]; try reflexivity.
  unfold SENSOR_TYPE_MAX in Hi. lia.
Qed.

(** [SensorTask_Init] does nothing in an initialised registry.  Otherwise
    it zeroes the whole registry, whatever it held, succeeds when the mutex
    and the task could both be created, and after a failure the registry is
    not initialised, so that every mutator rejects every kind.  When the
    mutex was created each slot has its kind, the name "Sensor_<kind>", is
    Offline and disabled; the event callback, registered separately,
    survives. *)
Theorem Init_resets_registry mc tc st :
  let r := SensorTask_Init mc tc st in
  (is_initialized (g_sensor_manager st) = true -> r = (true, st))
  /\ (is_initialized (g_sensor_manager st) = false ->
      r.1 = mc && tc
      /\ is_initialized (g_sensor_manager r.2) = mc && tc
      /\ active_sensor_count (g_sensor_manager r.2) = 0
      /\ global_data_mutex (g_sensor_manager r.2) = mc
      /\ g_event_callback r.2 = g_event_callback st
      /\ events r.2 = events st /\ adapter_calls r.2 = adapter_calls st
      /\ (mc && tc = false -> forall t, invalid_type t r.2 = true)
      /\ forall i, (i < SENSOR_TYPE_MAX)%nat ->
           callbacks_at i r.2 = zero_callbacks
           /\ sensor_at i r.2 = (if mc then init_instance i zero_instance else zero_instance)
           /\ (mc = true ->
               type (sensor_at i r.2) = i
               /\ status (sensor_at i r.2) = SENSOR_STATUS_OFFLINE
               /\ is_enabled (sensor_at i r.2) = false
               /\ history_count (sensor_at i r.2) = 0
               /\ c_str (name (sensor_at i r.2))
                  = String.list_ascii_of_string "Sensor_"%string ++ decimal i)).
Proof.
  cbn zeta. unfold SensorTask_Init. split; [by intros -> |]. intros ->.
  assert (forall i, (i < SENSOR_TYPE_MAX)%nat ->
            type (init_instance i zero_instance) = i
            /\ status (init_instance i zero_instance) = SENSOR_STATUS_OFFLINE
            /\ is_enabled (init_instance i zero_instance) = false
            /\ history_count (init_instance i zero_instance) = 0
            /\ c_str (name (init_instance i zero_instance))
               = String.list_ascii_of_string "Sensor_"%string ++ decimal i) as Hslot.
  { intros i Hi. repeat (split; [reflexivity |]). by apply Init_names. }
  destruct mc, tc; cbn [negb andb fst snd]; rsimpl.
  - do 7 (split; [done |]). split; [done |]. intros i Hi.
    assert (i < 4)%nat as Hi4 by exact Hi.
    split; [by destruct i as [|[|[|[|i]]]] |].
    match goal with |- ?x = _ /\ _ =>
      assert (x = init_instance i zero_instance) as E
        by (destruct i as [|[|[|[|i]]]]; try reflexivity; lia)
    end.
    split; [exact E |]. intros _. rewrite E. by apply Hslot.
  - do 7 (split; [done |]). split; [done |]. intros i Hi.
    assert (i < 4)%nat as Hi4 by exact Hi.
    split; [by destruct i as [|[|[|[|i]]]] |].
    match goal with |- ?x = _ /\ _ =>
      assert (x = init_instance i zero_instance) as E
        by (destruct i as [|[|[|[|i]]]]; try reflexivity; lia)
    end.
    split; [exact E |]. intros _. rewrite E. by apply Hslot.
  - do 7 (split; [done |]). split; [done |]. intros i Hi.
    assert (i < 4)%nat as Hi4 by exact Hi.
    split; [by destruct i as [|[|[|[|i]]]] |].
    split; [by destruct i as [|[|[|[|i]]]] | discriminate].
  - do 7 (split; [done |]). split; [done |]. intros i Hi.
    assert (i < 4)%nat as Hi4 by exact Hi.
    split; [by destruct i as [|[|[|[|i]]]] |].
    split; [by destruct i as [|[|[|[|i]]]] | discriminate].
Qed.

(** ** Disabling and enabling again *)

(** Disabling an enabled sensor hides its data and statistics from the
    getters; enabling it again brings the instance back as it was, history,
    statistics and last reading included, with the status Initializing and
    the error count 0.  So until the next successful read the getters hand
    out the reading and the statistics from before the sensor was disabled.
    No other instance is touched. *)
Theorem reenable_keeps_data calls t :
  let st := run calls in
  is_enabled (sensor_at t st) = true ->
  let st1 := (SensorTask_DisableSensor t st).2 in
  let st2 := (SensorTask_EnableSensor t st1).2 in
  (forall out lock, SensorTask_GetSensorData t out lock st1 = None)
  /\ (forall out lock, SensorTask_GetStats t out lock st1 = None)
  /\ sensor_at t st2
     = set_error_count 0 (set_status SENSOR_STATUS_INITIALIZING (sensor_at t st))
  /\ (forall out lock,
        SensorTask_GetSensorData t out lock st2 = SensorTask_GetSensorData t out lock st)
  /\ (forall out lock, SensorTask_GetStats t out lock st2 = SensorTask_GetStats t out lock st)
  /\ (forall j, j <> t -> sensor_at j st2 = sensor_at j st).
Proof.
  cbn zeta. intros He. pose proof (wf_run calls) as Hwf.
  destruct (wf_sensor_at_enabled _ _ Hwf He) as [Hi Ht].
  assert (invalid_type t (run calls) = false) as Hv by (by apply invalid_type_false).
  destruct (DisableSensor_enabled t (run calls) Hv He)
    as (_ & Hs1 & Ho1 & _ & _ & _ & _ & Hi1 & _ & Hlen1).
  set (st1 := (SensorTask_DisableSensor t (run calls)).2) in *. clearbody st1.
  assert (is_enabled (sensor_at t st1) = false) as He1 by (by rewrite Hs1).
  assert (invalid_type t st1 = false) as Hv1
    by (apply invalid_type_false; split; [congruence | done]).
  assert (t < length (sensors (g_sensor_manager st1)))%nat as Hlt1
    by (rewrite Hlen1, (wf_sensors _ Hwf); lia).
  destruct (EnableSensor_disabled t st1 Hv1 He1 Hlt1) as (_ & Hs2).
  destruct (table_EnableSensor t st1) as (Hi2 & _ & _).
  pose proof (others_EnableSensor t st1) as Ho2.
  set (st2 := (SensorTask_EnableSensor t st1).2) in *. clearbody st2.
  assert (sensor_at t st2
          = set_error_count 0
              (set_status SENSOR_STATUS_INITIALIZING (sensor_at t (run calls)))) as Hs.
  { rewrite Hs2, Hs1. unfold set_error_count, set_status, set_is_enabled. rsimpl.
    by rewrite He. }
  split.
  { intros out lock. unfold SensorTask_GetSensorData. rewrite He1.
    by destruct (_ || _). }
  split.
  { intros out lock. unfold SensorTask_GetStats. rewrite He1. by destruct (_ || _). }
  split; [exact Hs |]. split.
  { intros out lock. unfold SensorTask_GetSensorData, invalid_type.
    rewrite Hs, Hi2, Hi1. done. }
  split.
  { intros out lock. unfold SensorTask_GetStats. rewrite Hs, Hi2, Hi1. done. }
  intros j Hj. by rewrite Ho2, Ho1.
Qed.

Lemma reenable_keeps_data_witness :
  let st := run (sampled SENSOR_TYPE_GY30 [(2000, lux 10)]) in
  let st2 := (SensorTask_EnableSensor SENSOR_TYPE_GY30
                (SensorTask_DisableSensor SENSOR_TYPE_GY30 st).2).2 in
  is_enabled (sensor_at SENSOR_TYPE_GY30 st) = true
  /\ SensorTask_GetSensorData SENSOR_TYPE_GY30 true true st2
     = SensorTask_GetSensorData SENSOR_TYPE_GY30 true true st.
Proof.
  cbn zeta.
  assert (is_enabled (sensor_at SENSOR_TYPE_GY30
            (run (sampled SENSOR_TYPE_GY30 [(2000, lux 10)]))) = true) as He
    by (vm_compute; reflexivity).
  split; [exact He |].
  destruct (reenable_keeps_data (sampled SENSOR_TYPE_GY30 [(2000, lux 10)])
              SENSOR_TYPE_GY30 He) as (_ & _ & _ & H & _).
  apply H.
Defined.

(** ** Registering a sensor that is already enabled *)

Lemma enabled_count_same l l' :
  length l = length l' ->
  (forall i, is_enabled (default zero_instance (l !! i))
             = is_enabled (default zero_instance (l' !! i))) ->
  length (filter (fun s => is_enabled s = true) l)
  = length (filter (fun s => is_enabled s = true) l').
Proof.
  revert l'. induction l as [| a l IH]; intros [| b l'] Hlen Hall; try done.
  pose proof (Hall 0%nat) as H0. cbn in H0.
  rewrite !filter_cons.
  assert (length (filter (fun s => is_enabled s = true) l)
          = length (filter (fun s => is_enabled s = true) l')) as Hrec.
  { apply IH; [cbn in Hlen; lia |]. intros i. apply (Hall (S i)). }
  destruct (decide (is_enabled a = true)), (decide (is_enabled b = true));
    cbn [length]; congruence.
Qed.

(** [SensorTask_RegisterSensor] on a sensor that is already enabled succeeds
    and starts the initialisation over (Initializing, error count 0) without
    calling the deinit function of the registration it replaces; and it
    counts the sensor once more in [active_sensor_count], although the
    number of enabled instances is the same as before. *)
Theorem reregistration_inflates_count calls t nm c h ms :
  let st := run calls in
  is_enabled (sensor_at t st) = true ->
  is_Some (init_func c) -> is_Some (read_func c) ->
  let r := SensorTask_RegisterSensor t nm (Some c) h ms st in
  r.1 = true
  /\ status (sensor_at t r.2) = SENSOR_STATUS_INITIALIZING
  /\ error_count (sensor_at t r.2) = 0
  /\ adapter_calls r.2 = adapter_calls st
  /\ (forall j, is_enabled (sensor_at j r.2) = is_enabled (sensor_at j st))
  /\ enabled_count r.2 = enabled_count st
  /\ active_sensor_count (g_sensor_manager r.2)
     = wrap32 (active_sensor_count (g_sensor_manager st) + 1).
Proof.
  cbn zeta. intros He [fi Hfi] [fr Hfr]. pose proof (wf_run calls) as Hwf.
  destruct (wf_sensor_at_enabled _ _ Hwf He) as [Hi Ht].
  assert (invalid_type t (run calls) = false) as Hv by (by apply invalid_type_false).
  assert (t < length (sensors (g_sensor_manager (run calls))))%nat as Hlt
    by (rewrite (wf_sensors _ Hwf); lia).
  unfold SensorTask_RegisterSensor. rewrite Hv, Hfi, Hfr. cbn [fst snd].
  set (st1 := upd_sensor t _ (run calls)). set (st2 := upd_manager _ st1).
  assert (forall j, sensor_at j st2 = sensor_at j st1) as H21 by done.
  assert (length (sensors (g_sensor_manager st2))
          = length (sensors (g_sensor_manager (run calls)))) as Hlen
    by (subst st2 st1; apply length_sensors_upd_sensor).
  assert (is_enabled (sensor_at t st2) = false) as He2
    by (rewrite H21; subst st1; by rewrite sensor_at_upd_same).
  assert (forall j, j <> t -> sensor_at j st2 = sensor_at j (run calls)) as Ho2
    by (intros j Hj; rewrite H21; subst st1; by rewrite sensor_at_upd_other).
  assert (invalid_type t st2 = false) as Hv2 by done.
  assert (adapter_calls st2 = adapter_calls (run calls)) as Hac by done.
  assert (active_sensor_count (g_sensor_manager st2)
          = active_sensor_count (g_sensor_manager (run calls))) as Hcnt by done.
  clearbody st2. clear st1 H21.
  destruct (EnableSensor_disabled t st2 Hv2 He2 ltac:(lia)) as (_ & Hs3).
  destruct (table_EnableSensor t st2) as (_ & Hac3 & Hlen3).
  pose proof (others_EnableSensor t st2) as Ho3.
  assert (active_sensor_count (g_sensor_manager (SensorTask_EnableSensor t st2).2)
          = wrap32 (active_sensor_count (g_sensor_manager st2) + 1)) as Hcnt3.
  { unfold SensorTask_EnableSensor. rewrite Hv2, He2. cbn [negb snd].
    by rewrite manager_notify. }
  set (st3 := (SensorTask_EnableSensor t st2).2) in *. clearbody st3.
  assert (forall j, is_enabled (sensor_at j st3) = is_enabled (sensor_at j (run calls)))
    as Hen.
  { intros j. destruct (decide (j = t)) as [-> | Hj].
    - by rewrite Hs3, He.
    - by rewrite Ho3, Ho2. }
  split; [done |]. split; [by rewrite Hs3 |]. split; [by rewrite Hs3 |].
  split; [congruence |]. split; [exact Hen |]. split; [| congruence].
  unfold enabled_count. apply enabled_count_same; [congruence |].
  intros i. apply (Hen i).
Qed.

Lemma reregistration_inflates_count_witness :
  let st := run registered in
  let r := SensorTask_RegisterSensor SENSOR_TYPE_GY30 demo_name (Some demo_callbacks)
             0 2000 st in
  enabled_count st = 1%nat /\ active_sensor_count (g_sensor_manager st) = 1
  /\ enabled_count r.2 = 1%nat /\ active_sensor_count (g_sensor_manager r.2) = 2.
Proof.
  cbn zeta.
  destruct (reregistration_inflates_count registered SENSOR_TYPE_GY30 demo_name
              demo_callbacks 0 2000) as (_ & _ & _ & _ & _ & Hn & Hc).
  - vm_compute; reflexivity.
  - by exists 1%nat.
  - by exists 2%nat.
  - rewrite Hn, Hc. vm_compute. done.
Defined.

(** ** A visit whose read succeeds *)

Lemma trace_upd_sensor t f st :
  events (upd_sensor t f st) = events st
  /\ adapter_calls (upd_sensor t f st) = adapter_calls st
  /\ g_event_callback (upd_sensor t f st) = g_event_callback st
  /\ callbacks (g_sensor_manager (upd_sensor t f st)) = callbacks (g_sensor_manager st)
  /\ is_initialized (g_sensor_manager (upd_sensor t f st))
     = is_initialized (g_sensor_manager st).
Proof. done. Qed.

Lemma fields_set_last_update_time v s :
  data (set_last_update_time v s) = data s
  /\ status (set_last_update_time v s) = status s
  /\ error_count (set_last_update_time v s) = error_count s
  /\ is_enabled (set_last_update_time v s) = is_enabled s
  /\ last_update_time (set_last_update_time v s) = v.
Proof. done. Qed.

(** What [SensorTask_UpdateSensor] does when the adapter reports success. *)
Lemma UpdateSensor_read i rd lock tick st f :
  (SENSOR_TYPE_MAX <=? type (sensor_at i st))%nat = false ->
  read_func (callbacks_at (type (sensor_at i st)) st) = Some f ->
  read_result rd = true ->
  SensorTask_UpdateSensor i rd lock tick st
  = (true,
     if lock
     then upd_sensor i (record_sample tick)
            (upd_sensor i (adapter_read rd) (log_call SlotRead f (sensor_at i st) st))
     else upd_sensor i (adapter_read rd) (log_call SlotRead f (sensor_at i st) st)).
Proof.
  intros Ht Hf Hr. unfold SensorTask_UpdateSensor. rewrite Ht, Hf, Hr. by destruct lock.
Qed.

(** A visit to an enabled, Online sensor whose read is due and succeeds:
    the read function is called once, on the instance as it was; the period
    restarts at the tick read before the call; a DATA_UPDATE event with the
    data of the instance is delivered.  With the data mutex the reading is
    stamped, marked valid and recorded as a sample, the error count is 0 and
    [SensorTask_GetSensorData] hands the reading out.  Without the mutex the
    visit still counts as a success (event, period), but the reading is
    neither stamped nor recorded and the error count is not reset. *)
Theorem visit_with_successful_read calls i o :
  let st := run calls in
  let s := sensor_at i st in
  is_enabled s = true -> status s = SENSOR_STATUS_ONLINE ->
  read_due (current_tick o) s = true -> read_ok i o st = true ->
  let st' := MainLoop_visit i o st in
  let s' := sensor_at i st' in
  (exists f, read_func (callbacks_at i st) = Some f
     /\ adapter_calls st' = adapter_calls st
          ++ [{| call_slot := SlotRead; call_fn := f; call_arg := s |}])
  /\ last_update_time s' = current_tick o
  /\ status s' = SENSOR_STATUS_ONLINE /\ is_enabled s' = true
  /\ events st' = events st ++ delivered st
       [{| event_type := SENSOR_EVENT_DATA_UPDATE; sensor_type := i;
           event_data := data s'; event_status := SENSOR_STATUS_ONLINE |}]
  /\ values (data s') = read_values (read_outcome o)
  /\ (read_lock o = true ->
      s' = set_last_update_time (current_tick o)
             (record_sample (stamp_tick o) (adapter_read (read_outcome o) s))
      /\ timestamp (data s') = stamp_tick o /\ is_valid (data s') = true
      /\ error_count s' = 0
      /\ SensorTask_GetSensorData i true true st' = Some (data s'))
  /\ (read_lock o = false ->
      s' = set_last_update_time (current_tick o) (adapter_read (read_outcome o) s)
      /\ timestamp (data s') = timestamp (data s)
      /\ error_count s' = error_count s
      /\ analytics s' = analytics s).
Proof.
  cbn zeta. intros He Hst Hdue Hok. pose proof (wf_run calls) as Hwf.
  set (st := run calls) in *.
  destruct (wf_sensor_at_enabled _ _ Hwf He) as [Hi Hk].
  assert (type (sensor_at i st) = i) as Hty by (apply wf_sensor_at_type; [done | done | lia]).
  assert (i < length (sensors (g_sensor_manager st)))%nat as Hlt
    by (rewrite (wf_sensors _ Hwf); lia).
  rewrite read_ok_eq, Hty in Hok.
  apply andb_true_iff in Hok as [Hok Hres]. apply andb_true_iff in Hok as [Hmax Hrf].
  apply negb_true_iff in Hmax. apply bool_decide_eq_true in Hrf as [f Hf].
  unfold MainLoop_visit. rewrite He, Hst. cbn [negb SensorStatus_eqb].
  unfold poll_sensor. unfold read_due in Hdue. rewrite Hdue.
  rewrite (UpdateSensor_read i (read_outcome o) (read_lock o) (stamp_tick o) st f)
    by (rewrite ?Hty; done).
  set (st1 := upd_sensor i (adapter_read (read_outcome o))
                (log_call SlotRead f (sensor_at i st) st)).
  assert (sensor_at i st1 = adapter_read (read_outcome o) (sensor_at i st)) as Hs1
    by (subst st1; rewrite sensor_at_upd_same, sensor_at_log_call; done).
  assert (events st1 = events st
          /\ adapter_calls st1 = adapter_calls st
               ++ [{| call_slot := SlotRead; call_fn := f; call_arg := sensor_at i st |}]
          /\ g_event_callback st1 = g_event_callback st
          /\ is_initialized (g_sensor_manager st1) = true
          /\ length (sensors (g_sensor_manager st1)) = length (sensors (g_sensor_manager st)))
    as (Hev1 & Hac1 & Hcb1 & Hi1 & Hlen1).
  { subst st1. rewrite length_sensors_upd_sensor. done. }
  clearbody st1.
  set (st2 := if read_lock o then upd_sensor i (record_sample (stamp_tick o)) st1 else st1).
  assert (sensor_at i st2
          = (if read_lock o
             then record_sample (stamp_tick o) (adapter_read (read_outcome o) (sensor_at i st))
             else adapter_read (read_outcome o) (sensor_at i st))
          /\ events st2 = events st
          /\ adapter_calls st2 = adapter_calls st
               ++ [{| call_slot := SlotRead; call_fn := f; call_arg := sensor_at i st |}]
          /\ g_event_callback st2 = g_event_callback st
          /\ is_initialized (g_sensor_manager st2) = true
          /\ length (sensors (g_sensor_manager st2)) = length (sensors (g_sensor_manager st)))
    as (Hs2 & Hev2 & Hac2 & Hcb2 & Hi2 & Hlen2).
  { subst st2. destruct (read_lock o); [| done].
    destruct (trace_upd_sensor i (record_sample (stamp_tick o)) st1)
      as (-> & -> & -> & _ & ->).
    rewrite length_sensors_upd_sensor, sensor_at_upd_same, Hs1 by lia. done. }
  clearbody st2. cbn [fst snd].
  set (X := sensor_at i st2) in *.
  rewrite !sensor_at_notify, !sensor_at_upd_same by lia. fold X.
  rewrite events_notify, adapter_calls_notify.
  destruct (trace_upd_sensor i (set_last_update_time (current_tick o)) st2)
    as (-> & -> & Hcb3 & _ & Hi3).
  unfold delivered. rewrite Hcb3, Hcb2, Hev2, Hac2. cbn [default].
  destruct (fields_set_last_update_time (current_tick o) X) as (-> & -> & -> & -> & ->).
  assert (status X = SENSOR_STATUS_ONLINE /\ is_enabled X = true
          /\ values (data X) = read_values (read_outcome o)) as (HstX & HeX & HvX).
  { rewrite Hs2. destruct (read_lock o).
    - destruct (record_sample_fields (stamp_tick o)
                  (adapter_read (read_outcome o) (sensor_at i st)))
        as (_ & _ & -> & _ & _ & _ & -> & _ & ->). done.
    - done. }
  split; [by exists f |]. split; [done |]. split; [done |]. split; [done |].
  split; [by rewrite HstX |]. split; [done |]. split.
  - intros Hlock. rewrite Hlock in Hs2. split; [by rewrite Hs2 |].
    destruct (record_sample_fields (stamp_tick o)
                (adapter_read (read_outcome o) (sensor_at i st)))
      as (_ & _ & _ & _ & _ & Hec & _ & _ & Hd).
    rewrite <- Hs2 in Hec, Hd.
    split; [by rewrite Hd |]. split; [by rewrite Hd |]. split; [done |].
    unfold SensorTask_GetSensorData, invalid_type.
    rewrite manager_notify, Hi3, Hi2, sensor_at_notify, sensor_at_upd_same by lia. fold X.
    destruct (fields_set_last_update_time (current_tick o) X) as (-> & _ & _ & -> & _).
    rewrite HeX, Hd.
    assert ((SENSOR_TYPE_MAX <=? i)%nat = false) as -> by (apply Nat.leb_gt; lia).
    assert ((i =? SENSOR_TYPE_NONE)%nat = false) as ->
      by (apply Nat.eqb_neq; unfold SENSOR_TYPE_NONE; lia).
    done.
  - intros Hlock. rewrite Hlock in Hs2. rewrite Hs2. done.
Qed.

Lemma visit_with_successful_read_witness :
  let calls := sampled SENSOR_TYPE_GY30 [(2000, lux 10)] in
  let o := read_succeeds_at 4000 (lux 30) in
  let s' := sensor_at SENSOR_TYPE_GY30 (MainLoop_visit SENSOR_TYPE_GY30 o (run calls)) in
  last_update_time s' = 4000 /\ values (data s') = lux 30.
Proof.
  cbn zeta.
  destruct (visit_with_successful_read (sampled SENSOR_TYPE_GY30 [(2000, lux 10)])
              SENSOR_TYPE_GY30 (read_succeeds_at 4000 (lux 30)))
    as (_ & Hl & _ & _ & _ & Hv & _).
  - vm_compute; reflexivity.
  - vm_compute; reflexivity.
  - vm_compute; reflexivity.
  - vm_compute; reflexivity.
  - split; [exact Hl | exact Hv].
Defined.

(** ** The traces of adapter calls and events *)

Lemma trace_ok_same st st' :
  events st' = events st -> adapter_calls st' = adapter_calls st ->
  trace_ok st -> trace_ok st'.
Proof. unfold trace_ok. by intros -> ->. Qed.

Lemma trace_ok_notify et t d s st :
  event_ok {| event_type := et; sensor_type := t; event_data := default zero_data d;
              event_status := s |} ->
  trace_ok st -> trace_ok (SensorTask_NotifyEvent et t d s st).
Proof.
  intros He [Hc Hev]. unfold trace_ok.
  rewrite adapter_calls_notify, events_notify. split; [done |].
  apply Forall_app. split; [done |]. unfold delivered.
  destruct (g_event_callback st); [by apply Forall_singleton | apply Forall_nil_2].
Qed.

Lemma trace_ok_log_call slot fn arg st :
  call_ok {| call_slot := slot; call_fn := fn; call_arg := arg |} ->
  trace_ok st -> trace_ok (log_call slot fn arg st).
Proof.
  intros Hc [Hcs Hev]. split; [| done]. rsimpl.
  apply Forall_app. split; [done |]. by apply Forall_singleton.
Qed.

Lemma trace_ok_Init mc tc st : trace_ok st -> trace_ok (SensorTask_Init mc tc st).2.
Proof.
  apply trace_ok_same; unfold SensorTask_Init;
    destruct (is_initialized _); try done; destruct mc; try done; by destruct tc.
Qed.

Lemma trace_ok_EnableSensor t st :
  trace_ok st -> trace_ok (SensorTask_EnableSensor t st).2.
Proof.
  intros Htr. unfold SensorTask_EnableSensor.
  destruct (invalid_type t st) eqn:Hv; [done |].
  destruct (is_enabled (sensor_at t st)); cbn [negb snd]; [done |].
  apply invalid_type_false in Hv as [_ Ht].
  apply trace_ok_notify; [by split |]. revert Htr. by apply trace_ok_same.
Qed.

Lemma trace_ok_DisableSensor t st :
  (is_enabled (sensor_at t st) = true -> type (sensor_at t st) = t) ->
  trace_ok st -> trace_ok (SensorTask_DisableSensor t st).2.
Proof.
  intros Hty Htr. unfold SensorTask_DisableSensor.
  destruct (invalid_type t st) eqn:Hv; [done |].
  destruct (is_enabled (sensor_at t st)) eqn:He; cbn [negb snd]; [| done].
  apply invalid_type_false in Hv as [_ Ht].
  apply trace_ok_notify; [by split |].
  match goal with |- trace_ok (upd_manager _ (upd_sensor _ _ ?st1)) =>
    apply (trace_ok_same st1); [done | done |]
  end.
  destruct (deinit_func _); [| done].
  apply trace_ok_log_call; [| done].
  unfold call_ok. cbn [call_arg call_slot].
  split; [done |]. split; [by rewrite Hty | done].
Qed.

Lemma trace_ok_RegisterSensor t nm cbs h ms st :
  trace_ok st -> trace_ok (SensorTask_RegisterSensor t nm cbs h ms st).2.
Proof.
  intros Htr. unfold SensorTask_RegisterSensor.
  destruct cbs as [c |]; [| done].
  destruct (invalid_type t st); [done |].
  destruct (init_func c); [| done]. destruct (read_func c); [| done].
  cbn [snd]. apply trace_ok_EnableSensor. revert Htr. by apply trace_ok_same.
Qed.

Lemma trace_ok_HandleSensorError i st :
  wf (g_sensor_manager st) -> is_enabled (sensor_at i st) = true ->
  trace_ok st -> trace_ok (SensorTask_HandleSensorError i st).
Proof.
  intros Hwf He Htr.
  destruct (wf_sensor_at_enabled _ _ Hwf He) as [Hi Ht].
  assert (length (sensors (g_sensor_manager st)) = SENSOR_TYPE_MAX) as Hlen by apply Hwf.
  assert (type (sensor_at i st) = i) as Hty by (apply wf_sensor_at_type; [done | done | lia]).
  unfold SensorTask_HandleSensorError.
  set (st1 := upd_sensor i _ st).
  assert (type (sensor_at i st1) = i /\ is_enabled (sensor_at i st1) = true
          /\ length (sensors (g_sensor_manager st1)) = SENSOR_TYPE_MAX
          /\ is_initialized (g_sensor_manager st1) = true /\ trace_ok st1)
    as (Hty1 & He1 & Hlen1 & Hi1 & Htr1).
  { subst st1. rewrite sensor_at_upd_same, length_sensors_upd_sensor by lia.
    repeat (split; [done |]). revert Htr. by apply trace_ok_same. }
  clearbody st1.
  set (st2 := if _ =? SOFT_THRESHOLD then _ else st1).
  assert (type (sensor_at i st2) = i /\ is_enabled (sensor_at i st2) = true
          /\ length (sensors (g_sensor_manager st2)) = SENSOR_TYPE_MAX
          /\ is_initialized (g_sensor_manager st2) = true /\ trace_ok st2)
    as (Hty2 & He2 & Hlen2 & Hi2 & Htr2).
  { subst st2. destruct (_ =? SOFT_THRESHOLD); [| done].
    rewrite sensor_at_upd_same, length_sensors_upd_sensor by lia.
    repeat (split; [done |]). revert Htr1. by apply trace_ok_same. }
  clearbody st2. destruct (_ =? HARD_THRESHOLD); [| done].
  rewrite Hty2.
  assert (invalid_type i st2 = false) as Hv2 by (by apply invalid_type_false).
  pose proof (trace_ok_DisableSensor i st2 (fun _ => Hty2) Htr2) as Htr3.
  destruct (DisableSensor_enabled i st2 Hv2 He2)
    as (_ & Hs3 & _ & _ & _ & _ & _ & _ & _ & Hlen3).
  set (st3 := (SensorTask_DisableSensor i st2).2) in *. clearbody st3.
  assert (type (sensor_at i (upd_sensor i (set_status SENSOR_STATUS_ERROR) st3)) = i) as Hty4.
  { rewrite sensor_at_upd_same, Hs3 by lia. done. }
  rewrite Hty4.
  apply trace_ok_notify; [by split |]. revert Htr3. by apply trace_ok_same.
Qed.

Lemma trace_ok_UpdateSensor i rd lock tick st :
  is_enabled (sensor_at i st) = true -> status (sensor_at i st) = SENSOR_STATUS_ONLINE ->
  (1 <= type (sensor_at i st) < SENSOR_TYPE_MAX)%nat ->
  trace_ok st -> trace_ok (SensorTask_UpdateSensor i rd lock tick st).2.
Proof.
  intros He Hst Hty Htr. unfold SensorTask_UpdateSensor.
  destruct (_ <=? _)%nat; [done |]. destruct (read_func _) as [f |]; [| done].
  set (st1 := upd_sensor i (adapter_read rd) _).
  assert (trace_ok st1) as Htr1.
  { subst st1.
    apply (trace_ok_same (log_call SlotRead f (sensor_at i st) st)); [done | done |].
    by apply trace_ok_log_call. }
  destruct (read_result rd); cbn [snd]; [| done].
  destruct lock; cbn [snd]; [| done].
  destruct (trace_upd_sensor i (record_sample tick) st1) as (E1 & E2 & _).
  revert Htr1. by apply trace_ok_same.
Qed.

Lemma trace_ok_poll_sensor i o st :
  wf (g_sensor_manager st) -> is_enabled (sensor_at i st) = true ->
  status (sensor_at i st) = SENSOR_STATUS_ONLINE ->
  trace_ok st -> trace_ok (poll_sensor i o st).
Proof.
  intros Hwf He Hst Htr. unfold poll_sensor. destruct (_ <=? _); [| done].
  destruct (wf_sensor_at_enabled _ _ Hwf He) as [Hi Ht].
  assert (type (sensor_at i st) = i) as Hty by (apply wf_sensor_at_type; [done | done | lia]).
  assert (i < length (sensors (g_sensor_manager st)))%nat as Hlt
    by (rewrite (wf_sensors _ Hwf); lia).
  pose proof (trace_ok_UpdateSensor i (read_outcome o) (read_lock o) (stamp_tick o) st
                He Hst ltac:(lia) Htr) as Htr1.
  pose proof (wf_UpdateSensor i (read_outcome o) (read_lock o) (stamp_tick o) st Hwf) as Hwf1.
  pose proof (UpdateSensor_failed i (read_outcome o) (read_lock o) (stamp_tick o) st Hlt)
    as Hfail.
  assert (status (sensor_at i (SensorTask_UpdateSensor i (read_outcome o) (read_lock o)
                                 (stamp_tick o) st).2) = SENSOR_STATUS_ONLINE
          /\ length (sensors (g_sensor_manager
               (SensorTask_UpdateSensor i (read_outcome o) (read_lock o)
                  (stamp_tick o) st).2)) = length (sensors (g_sensor_manager st)))
    as [Hst1 Hlen1].
  { split; [| apply type_UpdateSensor].
    unfold SensorTask_UpdateSensor.
    destruct (_ <=? _)%nat; [done |]. destruct (read_func _) as [f |]; [| done].
    set (st1 := upd_sensor i (adapter_read (read_outcome o)) _).
    assert (status (sensor_at i st1) = SENSOR_STATUS_ONLINE) as H1
      by (subst st1; rewrite sensor_at_upd_same, sensor_at_log_call; done).
    assert (i < length (sensors (g_sensor_manager st1)))%nat as Hlt1
      by (subst st1; by rewrite length_sensors_upd_sensor).
    destruct (read_result (read_outcome o)); cbn [snd]; [| done].
    destruct (read_lock o); cbn [snd]; [| done].
    rewrite sensor_at_upd_same by done.
    by destruct (record_sample_fields (stamp_tick o) (sensor_at i st1)) as (_ & _ & -> & _). }
  cbn zeta in Hfail.
  destruct (SensorTask_UpdateSensor _ _ _ _ st) as [ok st1]. cbn [fst snd] in *.
  destruct ok.
  - rewrite sensor_at_upd_same by lia.
    destruct (fields_set_last_update_time (current_tick o) (sensor_at i st1))
      as (_ & -> & _).
    apply trace_ok_notify; [by split |]. revert Htr1. by apply trace_ok_same.
  - destruct (Hfail eq_refl) as (_ & Hen & _).
    apply trace_ok_HandleSensorError; [done | congruence | done].
Qed.

Lemma trace_ok_MainLoop_visit i o st :
  wf (g_sensor_manager st) -> fsm_ok (sensor_at i st) ->
  trace_ok st -> trace_ok (MainLoop_visit i o st).
Proof.
  intros Hwf Hfsm Htr. unfold MainLoop_visit.
  destruct (is_enabled (sensor_at i st)) eqn:He; cbn [negb]; [| done].
  destruct (wf_sensor_at_enabled _ _ Hwf He) as [Hi Ht].
  assert (type (sensor_at i st) = i) as Hty by (apply wf_sensor_at_type; [done | done | lia]).
  unfold fsm_ok in Hfsm. rewrite He in Hfsm. destruct Hfsm as [Hfsm _].
  destruct (SensorStatus_eqb _ _) eqn:Hsb.
  - assert (status (sensor_at i st) = SENSOR_STATUS_INITIALIZING) as Hst
      by (by destruct (status (sensor_at i st))).
    unfold SensorTask_InitializeSensor. rewrite Hty.
    assert ((SENSOR_TYPE_MAX <=? i)%nat = false) as -> by (apply Nat.leb_gt; lia).
    destruct (init_func _) as [f |].
    + set (st1 := log_call SlotInit f (sensor_at i st) st).
      assert (trace_ok st1) as Htr1.
      { subst st1. apply trace_ok_log_call; [| done].
        unfold call_ok. cbn [call_arg call_slot].
        split; [done |]. split; [by rewrite Hty | done]. }
      assert (g_sensor_manager st1 = g_sensor_manager st) as Hm by done.
      assert (forall j, sensor_at j st1 = sensor_at j st) as Hsen by done.
      clearbody st1. destruct (init_result o).
      * set (st2 := SensorTask_NotifyEvent _ _ _ _ _).
        assert (sensor_at i st2 =
                set_last_update_time (init_tick o)
                  (set_status SENSOR_STATUS_ONLINE (sensor_at i st))) as Hs2.
        { subst st2. rewrite sensor_at_notify, sensor_at_upd_same, Hsen; [done |].
          rewrite Hm, (wf_sensors _ Hwf). lia. }
        apply trace_ok_poll_sensor.
        -- subst st2. apply wf_notify, wf_upd_sensor; rsimpl; try done.
           ++ by rewrite Hm.
           ++ rewrite Hsen. by apply wf_sensor_at_name.
           ++ rewrite Hsen. by intros [? ? ? ? ?].
           ++ intros _. rewrite Hm. split; [done | lia].
           ++ lia.
        -- by rewrite Hs2.
        -- by rewrite Hs2.
        -- subst st2. apply trace_ok_notify; [by split |].
           revert Htr1. by apply trace_ok_same.
      * apply trace_ok_HandleSensorError; [by rewrite Hm | by rewrite Hsen | done].
    + by apply trace_ok_HandleSensorError.
  - apply trace_ok_poll_sensor; try done.
    destruct Hfsm as [Hfsm | Hfsm]; [| done]. by rewrite Hfsm in Hsb.
Qed.

(** In every run the module drives the adapters and the application by the
    protocol of the state machine: every adapter function is called on an
    enabled instance of a sensor kind, init only while the instance is
    Initializing and read only while it is Online; every event concerns a
    sensor kind, a status change carries no data, a data update is sent for
    an Online sensor, and no event of type SENSOR_EVENT_ERROR is ever
    sent. *)
Theorem traces_follow_protocol calls :
  Forall call_ok (adapter_calls (run calls)) /\ Forall event_ok (events (run calls)).
Proof.
  change (trace_ok (run calls)).
  induction calls as [| c calls IH] using rev_ind.
  - split; apply Forall_nil_2.
  - rewrite run_snoc. pose proof (wf_run calls) as Hwf.
    destruct c; cbn [run_call].
    + by apply trace_ok_Init.
    + by apply trace_ok_RegisterSensor.
    + by apply trace_ok_EnableSensor.
    + apply trace_ok_DisableSensor; [| done]. intros He.
      destruct (wf_sensor_at_enabled _ _ Hwf He) as [Hi Ht].
      apply wf_sensor_at_type; [done | done | lia].
    + revert IH. apply trace_ok_same; unfold SensorTask_SetUpdateInterval;
        by destruct (_ || _).
    + done.
    + revert IH. apply trace_ok_same; unfold SensorTask_GetPrimaryHistory;
        destruct (_ || _); try done; destruct (_ && _); try done; by destruct lock.
    + revert IH. apply trace_ok_same; unfold SensorTask_GetSecondaryHistory;
        destruct (_ || _); try done; destruct (negb _); try done;
        destruct (_ && _); try done; by destruct lock.
    + destruct (_ && _); [| done].
      apply trace_ok_MainLoop_visit; [done | apply fsm_ok_run | done].
Qed.

(** ** The humidity history of the SHT30 *)

Lemma GetSecondaryHistory_window st :
  wf (g_sensor_manager st) -> is_enabled (sensor_at SENSOR_TYPE_SHT30 st) = true ->
  length (ordered_secondary_history st) = Z.to_nat SENSOR_HISTORY_SIZE ->
  let s := sensor_at SENSOR_TYPE_SHT30 st in
  let r := (SensorTask_GetSecondaryHistory SENSOR_TYPE_SHT30 true st).1 in
  r.1 = Z.of_nat (length (secondary_window s))
  /\ (secondary_window s = [] -> r.2 = None)
  /\ (secondary_window s <> [] ->
      exists buf, r.2 = Some buf
        /\ take (length (secondary_window s)) buf = secondary_window s).
Proof.
  intros Hwf He Hbuf. cbn zeta.
  destruct (wf_sensor_at_enabled _ _ Hwf He) as [Hi Hk].
  pose proof (wf_sensor_at_ring st SENSOR_TYPE_SHT30 Hwf) as Hr.
  destruct Hr as [Hh Hs Hhead Hcount Hfill].
  assert (length (secondary_window (sensor_at SENSOR_TYPE_SHT30 st))
          = Z.to_nat (history_count (sensor_at SENSOR_TYPE_SHT30 st))) as Hlen
    by (unfold secondary_window; by rewrite length_window_of).
  unfold SensorTask_GetSecondaryHistory. rewrite Hi, He.
  change (SENSOR_TYPE_MAX <=? SENSOR_TYPE_SHT30)%nat with false.
  change (SENSOR_TYPE_SHT30 =? SENSOR_TYPE_SHT30)%nat with true.
  cbn [negb orb andb].
  destruct (Z.ltb_spec 0 (history_count (sensor_at SENSOR_TYPE_SHT30 st))) as [Hpos | Hzero].
  - cbn [fst snd]. split; [lia |]. split.
    + intros Hnil. rewrite Hnil in Hlen. cbn in Hlen. lia.
    + intros _. eexists. split; [reflexivity |].
      rewrite unroll_window by done.
      fold (secondary_window (sensor_at SENSOR_TYPE_SHT30 st)).
      by rewrite take_app_length.
  - cbn [fst snd]. split; [lia |]. split; [done |].
    intros Hne. destruct (secondary_window (sensor_at SENSOR_TYPE_SHT30 st)); [done |].
    cbn in Hlen. lia.
Qed.

(** For the SHT30, registered and enabled and with no sample yet, after [n]
    successful reads [SensorTask_GetSecondaryHistory] returns the count
    [min n SENSOR_HISTORY_SIZE] and a snapshot that starts with the humidity
    values read, oldest first, without the first [n - SENSOR_HISTORY_SIZE]
    of them when there were more: the humidity ring moves in step with the
    temperature ring.  After no read the count is 0 and the pointer NULL. *)
Theorem secondary_history_snapshot reads st :
  reachable st ->
  is_Some (read_func (callbacks_at SENSOR_TYPE_SHT30 st)) ->
  is_enabled (sensor_at SENSOR_TYPE_SHT30 st) = true ->
  history_count (sensor_at SENSOR_TYPE_SHT30 st) = 0 ->
  let n := length reads in
  let fed := map (fun r => sht30_humi r.1) reads in
  let r := (SensorTask_GetSecondaryHistory SENSOR_TYPE_SHT30 true
              (feed SENSOR_TYPE_SHT30 reads st)).1 in
  r.1 = Z.of_nat (Nat.min n (Z.to_nat SENSOR_HISTORY_SIZE))
  /\ (n = 0%nat -> r.2 = None)
  /\ ((0 < n)%nat ->
      exists buf, r.2 = Some buf
        /\ take (Nat.min n (Z.to_nat SENSOR_HISTORY_SIZE)) buf
           = drop (n - Z.to_nat SENSOR_HISTORY_SIZE) fed).
Proof.
  intros Hreach Hrf He Hc0. cbn zeta.
  pose proof (reachable_wf _ Hreach) as Hwf.
  destruct (wf_sensor_at_enabled _ _ Hwf He) as [Hi Hk].
  destruct (feed_spec SENSOR_TYPE_SHT30 reads st Hwf Hi ltac:(lia) Hrf)
    as (Hs & _ & Hwf' & Hi' & _ & Hbuf & _).
  assert (type (sensor_at SENSOR_TYPE_SHT30 st) = SENSOR_TYPE_SHT30) as Hty
    by (apply wf_sensor_at_type; [done | done | lia]).
  pose proof (wf_sensor_at_ring st SENSOR_TYPE_SHT30 Hwf) as Hr.
  assert (is_sht30 (sensor_at SENSOR_TYPE_SHT30 st) = true) as Hsht
    by (unfold is_sht30; by rewrite Hty).
  assert (secondary_window (sensor_at SENSOR_TYPE_SHT30 (feed SENSOR_TYPE_SHT30 reads st))
          = keep_last (Z.to_nat SENSOR_HISTORY_SIZE)
              (map (fun r => sht30_humi r.1) reads)) as Hwin.
  { rewrite Hs, secondary_window_sample_all by done. rewrite Hty.
    unfold secondary_window at 1, window_of. rewrite Hc0. done. }
  assert (length (ordered_secondary_history (feed SENSOR_TYPE_SHT30 reads st))
          = Z.to_nat SENSOR_HISTORY_SIZE) as Hlenbuf.
  { unfold snapshot_buffers in Hbuf. injection Hbuf as _ ->.
    destruct Hreach as [calls ->]. apply buffers_len_run. }
  destruct (GetSecondaryHistory_window (feed SENSOR_TYPE_SHT30 reads st) Hwf')
    as (Hcnt & Hnone & Hsome); [by rewrite Hs, sample_all_enabled | done |].
  rewrite Hwin in *. rewrite length_keep_last, length_map in *.
  split; [done |]. split.
  - intros Hn. apply Hnone. destruct reads; [done | cbn in Hn; lia].
  - intros Hn. destruct Hsome as (buf & Hb & Htake).
    + intros Hnil. apply (f_equal length) in Hnil.
      rewrite length_keep_last, length_map in Hnil. cbn in Hnil.
      unfold SENSOR_HISTORY_SIZE in Hnil. lia.
    + exists buf. split; [done |]. rewrite Htake. unfold keep_last.
      by rewrite length_map.
Qed.

Lemma secondary_history_snapshot_witness :
  let st := run [CallInit true true;
                 CallRegisterSensor SENSOR_TYPE_SHT30 demo_name (Some demo_callbacks) 0 2000] in
  let reads := [(temp_humi 20 50, 1000); (temp_humi 22 55, 3000)] in
  exists buf,
    (SensorTask_GetSecondaryHistory SENSOR_TYPE_SHT30 true
       (feed SENSOR_TYPE_SHT30 reads st)).1 = (2, Some buf)
    /\ take 2 buf = [f32_of_int 50; f32_of_int 55].
Proof.
  cbn zeta.
  destruct (secondary_history_snapshot [(temp_humi 20 50, 1000); (temp_humi 22 55, 3000)]
              (run [CallInit true true;
                    CallRegisterSensor SENSOR_TYPE_SHT30 demo_name (Some demo_callbacks)
                      0 2000]))
    as (Hc & _ & Hsome).
  - by eexists.
  - exists 2%nat. vm_compute; reflexivity.
  - vm_compute; reflexivity.
  - vm_compute; reflexivity.
  - destruct Hsome as (buf & Hb & Ht); [cbn; lia |].
    exists buf. split; [| exact Ht].
    destruct (SensorTask_GetSecondaryHistory _ _ _).1 as [c b]. cbn [fst snd] in *.
    by rewrite Hc, Hb.
Defined.

(** ** A sweep of the main loop *)

(** One sweep of [SensorTask_MainLoop] is the visits of the kinds GY30,
    SHT30 and MQ-2 in this order, so every invariant of runs holds after
    each sweep; the sentinel slot is not visited, and a sweep over a
    registry in which no sensor is enabled changes nothing. *)
Theorem sweep_is_three_visits calls env :
  MainLoop_sweep env (run calls)
  = run (calls ++ [SchedulerVisit SENSOR_TYPE_GY30 (env SENSOR_TYPE_GY30);
                   SchedulerVisit SENSOR_TYPE_SHT30 (env SENSOR_TYPE_SHT30);
                   SchedulerVisit SENSOR_TYPE_SMOKE (env SENSOR_TYPE_SMOKE)])
  /\ sensor_at SENSOR_TYPE_NONE (MainLoop_sweep env (run calls))
     = sensor_at SENSOR_TYPE_NONE (run calls)
  /\ ((forall i, is_enabled (sensor_at i (run calls)) = false) ->
      MainLoop_sweep env (run calls) = run calls).
Proof.
  assert (MainLoop_sweep env (run calls)
          = run (calls ++ [SchedulerVisit SENSOR_TYPE_GY30 (env SENSOR_TYPE_GY30);
                           SchedulerVisit SENSOR_TYPE_SHT30 (env SENSOR_TYPE_SHT30);
                           SchedulerVisit SENSOR_TYPE_SMOKE (env SENSOR_TYPE_SMOKE)])) as E.
  { unfold run at 2. rewrite foldl_app. reflexivity. }
  split; [exact E |]. split.
  - unfold MainLoop_sweep. cbn [seq foldl Nat.sub SENSOR_TYPE_MAX].
    pose proof (wf_run calls) as Hwf.
    pose proof (wf_MainLoop_visit 1 (env 1%nat) _ ltac:(lia) Hwf) as Hwf1.
    pose proof (wf_MainLoop_visit 2 (env 2%nat) _ ltac:(lia) Hwf1) as Hwf2.
    rewrite (others_MainLoop_visit 3 _ _ SENSOR_TYPE_NONE Hwf2) by done.
    rewrite (others_MainLoop_visit 2 _ _ SENSOR_TYPE_NONE Hwf1) by done.
    by rewrite (others_MainLoop_visit 1 _ _ SENSOR_TYPE_NONE Hwf) by done.
  - intros Hoff. unfold MainLoop_sweep. cbn [seq foldl Nat.sub SENSOR_TYPE_MAX].
    rewrite (MainLoop_visit_disabled 1 _ (run calls)) by apply Hoff.
    rewrite (MainLoop_visit_disabled 2 _ (run calls)) by apply Hoff.
    by rewrite (MainLoop_visit_disabled 3 _ (run calls)) by apply Hoff.
Qed.

(** ** The names used in the log *)

(** The three string conversions give different names to different values
    of their enumeration, so a log line identifies the status, the kind and
    the event type; a kind above SENSOR_TYPE_MAX is printed as UNKNOWN.  The
    status Error and the event type SENSOR_EVENT_ERROR share the name ERROR. *)
Theorem ToString_names :
  (forall a b, SensorStatus_ToString a = SensorStatus_ToString b -> a = b)
  /\ (forall a b, SensorEventType_ToString a = SensorEventType_ToString b -> a = b)
  /\ (forall a b, (a <= SENSOR_TYPE_MAX)%nat -> (b <= SENSOR_TYPE_MAX)%nat ->
        SensorType_ToString a = SensorType_ToString b -> a = b)
  /\ (forall t, (SENSOR_TYPE_MAX < t)%nat -> SensorType_ToString t = "UNKNOWN"%string)
  /\ SensorStatus_ToString SENSOR_STATUS_ERROR
     = SensorEventType_ToString SENSOR_EVENT_ERROR.
Proof.
  split; [by intros [] [] |]. split; [by intros [] [] |]. split.
  - unfold SENSOR_TYPE_MAX. intros a b Ha Hb.
    destruct a as [|[|[|[|[|a]]]]]; [| | | | | lia];
      (destruct b as [|[|[|[|[|b]]]]]; [| | | | | lia]); by cbn.
  - split; [| reflexivity]. unfold SENSOR_TYPE_MAX. intros t Ht.
    destruct t as [|[|[|[|[|t]]]]]; [lia | lia | lia | lia | lia | reflexivity].
Qed.
